(** * HTTP route compilation of the sidecar/gateway route package

    Shallow embedding of [pilot/pkg/networking/core/v1alpha3/route/route.go]:
    the translation of one virtual-service HTTP rule into Envoy routes
    ([translateRoute] and its helpers), the expansion of a virtual service
    into its route list ([BuildHTTPRoutesForVirtualService]) and the
    combination of route lists ([CombineVHostRoutes]).

    Conventions of the embedding:
    - a Go pointer that the code tests against [nil] is an [option];
    - a Go [map[string]V] is a [gmap string V]; a [range] over a map visits
      its entries in an unspecified order, so a loop over a map is written
      over the list of visited entries and the map-level function runs it
      on [map_to_list];
    - [int32], [uint32] and [int] values are [Z], with the wrap-around of a
      conversion written out;
    - [float64] is the primitive binary64 type. *)

From Stdlib Require Import ZArith String Ascii List Bool Lia.
From Stdlib Require Import DecimalString.
From Stdlib Require Import Floats.PrimFloat Floats.FloatOps Floats.SpecFloat.
From Stdlib Require Import Floats.FloatAxioms.
From Stdlib Require Import Structures.OrderedTypeEx.
From stdpp Require Import gmap strings list sorting.

Open Scope Z_scope.

(** ** Go primitives used by the package *)

(** [uint32(x)] for an integer [x]: reduction modulo 2^32. *)
Definition uint32 (x : Z) : Z := x mod 2 ^ 32.

(** [int32(x)]: the two's-complement reading of the low 32 bits. *)
Definition int32 (x : Z) : Z := (x + 2 ^ 31) mod 2 ^ 32 - 2 ^ 31.

(** Truncation of a binary64 value toward zero; NaN and the infinities,
    which have no integer part, give 0. *)
Definition float64_trunc (f : float) : Z :=
  match Prim2SF f with
  | S754_finite s m e =>
      let a := if (0 <=? e)%Z then Z.pos m * 2 ^ e else Z.pos m / 2 ^ (- e) in
      if s then - a else a
  | _ => 0
  end.

(** [uint32(f)] for a [float64]: the integer part, in range for every
    percentage the package converts.  Go leaves the result for an
    out-of-range value to the implementation; here it wraps, where compiled
    code may give another value (0 for a magnitude of 2^63 and more). *)
Definition uint32_of_float64 (f : float) : Z := uint32 (float64_trunc f).

(** [strconv.Itoa] and [strconv.FormatInt(_, 10)]. *)
Definition Itoa (n : Z) : string := NilZero.string_of_int (Z.to_int n).

(** [strings.Join]. *)
Definition Join (elems : list string) (sep : string) : string :=
  String.concat sep elems.

(** [strings.Compare(a, b) < 0], also the [<] of two Go strings. *)
Definition string_lt (a b : string) : bool :=
  match String.compare a b with Lt => true | _ => false end.

(** [sort.Stable]: the stable sort determined by [less].  An element moves
    right only past elements strictly smaller than it, so elements that
    [less] does not separate keep their input order. *)
Section SortStable.
Context {A : Type} (less : A → A → bool).

Fixpoint insert_Stable (x : A) (l : list A) : list A :=
  match l with
  | [] => [x]
  | y :: l' => if less y x then y :: insert_Stable x l' else x :: y :: l'
  end.

Definition sort_Stable (l : list A) : list A := foldr insert_Stable [] l.
End SortStable.

(** Entries visited by [for k, v := range m]: some enumeration of [m]. *)
Definition range_of {V} (m : gmap string V) (visited : list (string * V)) : Prop :=
  visited ≡ₚ map_to_list m.

(** ** Protobuf well-known types *)

(** [duration.Duration]; the gogo and golang variants carry the same two
    fields, so [gogo.DurationToProtoDuration] is the identity on them. *)
Module duration.
Record Duration := { Seconds : Z; Nanos : Z }.
End duration.

Definition DurationToProtoDuration (d : duration.Duration) : duration.Duration := d.

(** ** Envoy API types (the parts the package fills in) *)

Module xdstype.
Inductive FractionalPercent_DenominatorType :=
  | FractionalPercent_HUNDRED
  | FractionalPercent_TEN_THOUSAND
  | FractionalPercent_MILLION.

Module FractionalPercent.
Record t := {
  Numerator : Z;
  Denominator : FractionalPercent_DenominatorType
}.
End FractionalPercent.
Abbreviation FractionalPercent := FractionalPercent.t.
End xdstype.

Module matcher.
(** [regexEngine]: the RE2 engine with its default configuration. *)
Inductive RegexMatcher_EngineType := RegexMatcher_GoogleRe2.

Module RegexMatcher.
Record t := {
  EngineType : RegexMatcher_EngineType;
  Regex : string
}.
End RegexMatcher.
Abbreviation RegexMatcher := RegexMatcher.t.

(** [GetRegex] on a possibly nil matcher. *)
Definition GetRegex (m : option RegexMatcher) : string :=
  match m with Some r => RegexMatcher.Regex r | None => "" end.

Inductive StringMatcher :=
  | StringMatcher_Exact (Exact : string)
  | StringMatcher_Prefix (Prefix : string)
  | StringMatcher_SafeRegex (SafeRegex : RegexMatcher).
End matcher.

Module core.
Module HeaderValue.
Record t := { Key : string; Value : string }.
End HeaderValue.
Abbreviation HeaderValue := HeaderValue.t.

Module HeaderValueOption.
Record t := {
  Header : option HeaderValue;
  Append : option bool
}.
End HeaderValueOption.
Abbreviation HeaderValueOption := HeaderValueOption.t.

Module RuntimeFractionalPercent.
Record t := { DefaultValue : option xdstype.FractionalPercent }.
End RuntimeFractionalPercent.
Abbreviation RuntimeFractionalPercent := RuntimeFractionalPercent.t.
End core.

Module xdsfault.
Inductive FaultDelay_FaultDelaySecifier :=
  | FaultDelay_FixedDelay (FixedDelay : duration.Duration).

Module FaultDelay.
Record t := {
  FaultDelaySecifier : option FaultDelay_FaultDelaySecifier;
  Percentage : option xdstype.FractionalPercent
}.
End FaultDelay.
Abbreviation FaultDelay := FaultDelay.t.
End xdsfault.

Module xdshttpfault.
Inductive FaultAbort_ErrorType :=
  | FaultAbort_HttpStatus (HttpStatus : Z).

Module FaultAbort.
Record t := {
  ErrorType : option FaultAbort_ErrorType;
  Percentage : option xdstype.FractionalPercent
}.
End FaultAbort.
Abbreviation FaultAbort := FaultAbort.t.

Module HTTPFault.
Record t := {
  Delay : option xdsfault.FaultDelay;
  Abort : option FaultAbort
}.
End HTTPFault.
Abbreviation HTTPFault := HTTPFault.t.
End xdshttpfault.

(** ** Istio networking API types (the input) *)

Module networking.
Inductive StringMatch_MatchType :=
  | StringMatch_Exact (Exact : string)
  | StringMatch_Prefix (Prefix : string)
  | StringMatch_Regex (Regex : string).

(** The oneof [MatchType] may be unset. *)
Module StringMatch.
Record t := { MatchType : option StringMatch_MatchType }.
End StringMatch.
Abbreviation StringMatch := StringMatch.t.

Module Percent.
Record t := { Value : float }.
End Percent.
Abbreviation Percent := Percent.t.

Module PortSelector.
Record t := { Number : Z }.
End PortSelector.
Abbreviation PortSelector := PortSelector.t.

Module Destination.
Record t := {
  Host : string;
  Subset : string;
  Port : option PortSelector
}.
End Destination.
Abbreviation Destination := Destination.t.

(** [Headers_HeaderOperations]; the field [Set] is spelled [Set_]. *)
Module Headers_HeaderOperations.
Record t := {
  Set_ : gmap string string;
  Add : gmap string string;
  Remove : list string
}.
End Headers_HeaderOperations.
Abbreviation Headers_HeaderOperations := Headers_HeaderOperations.t.

Module Headers.
Record t := {
  Request : option Headers_HeaderOperations;
  Response : option Headers_HeaderOperations
}.
End Headers.
Abbreviation Headers := Headers.t.

(** The destination of a weighted entry is dereferenced without a nil
    test ([dst.Destination] is passed to [GetDestinationCluster], which
    reads its [Subset]), so it is a plain field. *)
Module HTTPRouteDestination.
Record t := {
  Destination : networking.Destination;
  Weight : Z;
  Headers : option networking.Headers
}.
End HTTPRouteDestination.
Abbreviation HTTPRouteDestination := HTTPRouteDestination.t.

Module HTTPRedirect.
Record t := {
  Uri : string;
  Authority : string;
  RedirectCode : Z
}.
End HTTPRedirect.
Abbreviation HTTPRedirect := HTTPRedirect.t.

Module HTTPRewrite.
Record t := { Uri : string; Authority : string }.
End HTTPRewrite.
Abbreviation HTTPRewrite := HTTPRewrite.t.

Module HTTPRetry.
Record t := {
  Attempts : Z;
  PerTryTimeout : option duration.Duration;
  RetryOn : string
}.
End HTTPRetry.
Abbreviation HTTPRetry := HTTPRetry.t.

Inductive HTTPFaultInjection_Delay_HttpDelayType :=
  | HTTPFaultInjection_Delay_FixedDelay (FixedDelay : duration.Duration)
  | HTTPFaultInjection_Delay_ExponentialDelay (ExponentialDelay : duration.Duration).

Module HTTPFaultInjection_Delay.
Record t := {
  Percent : Z;
  HttpDelayType : option HTTPFaultInjection_Delay_HttpDelayType;
  Percentage : option networking.Percent
}.
End HTTPFaultInjection_Delay.
Abbreviation HTTPFaultInjection_Delay := HTTPFaultInjection_Delay.t.

Inductive HTTPFaultInjection_Abort_ErrorType :=
  | HTTPFaultInjection_Abort_HttpStatus (HttpStatus : Z)
  | HTTPFaultInjection_Abort_GrpcStatus (GrpcStatus : string)
  | HTTPFaultInjection_Abort_Http2Error (Http2Error : string).

(** The fields of an abort that [translateFault] reads. *)
Module HTTPFaultInjection_Abort.
Record t := {
  ErrorType : option HTTPFaultInjection_Abort_ErrorType;
  Percentage : option networking.Percent
}.
End HTTPFaultInjection_Abort.
Abbreviation HTTPFaultInjection_Abort := HTTPFaultInjection_Abort.t.

Module HTTPFaultInjection.
Record t := {
  Delay : option HTTPFaultInjection_Delay;
  Abort : option HTTPFaultInjection_Abort
}.
End HTTPFaultInjection.
Abbreviation HTTPFaultInjection := HTTPFaultInjection.t.

(** [AllowOrigin] and [AllowOrigins] are slices, nil when not given. *)
Module CorsPolicy.
Record t := {
  AllowOrigin : option (list string);
  AllowOrigins : option (list StringMatch);
  AllowMethods : list string;
  AllowHeaders : list string;
  ExposeHeaders : list string;
  MaxAge : option duration.Duration;
  AllowCredentials : option bool
}.
End CorsPolicy.
Abbreviation CorsPolicy := CorsPolicy.t.

(** The values of [Headers] and [WithoutHeaders] may be nil; a query
    parameter's predicate is dereferenced without a nil test. *)
Module HTTPMatchRequest.
Record t := {
  Name : string;
  Uri : option StringMatch;
  Scheme : option StringMatch;
  Method : option StringMatch;
  Authority : option StringMatch;
  Headers : gmap string (option StringMatch);
  Port : Z;
  SourceLabels : gmap string string;
  Gateways : list string;
  QueryParams : gmap string StringMatch;
  IgnoreUriCase : bool;
  WithoutHeaders : gmap string (option StringMatch);
  SourceNamespace : string
}.
End HTTPMatchRequest.
Abbreviation HTTPMatchRequest := HTTPMatchRequest.t.

Module HTTPRoute.
Record t := {
  Name : string;
  Match : list HTTPMatchRequest;
  Route : list HTTPRouteDestination;
  Redirect : option HTTPRedirect;
  Rewrite : option HTTPRewrite;
  Timeout : option duration.Duration;
  Retries : option HTTPRetry;
  Fault : option HTTPFaultInjection;
  Mirror : option Destination;
  MirrorPercent : option Z;
  MirrorPercentage : option Percent;
  CorsPolicy : option networking.CorsPolicy;
  Headers : option networking.Headers
}.
End HTTPRoute.
Abbreviation HTTPRoute := HTTPRoute.t.

Module VirtualService.
Record t := {
  Hosts : list string;
  Gateways : list string;
  Http : list HTTPRoute
}.
End VirtualService.
Abbreviation VirtualService := VirtualService.t.

(** Destination rules, as far as the hash-policy lookup reads them. *)
Module LoadBalancerSettings_ConsistentHashLB_HTTPCookie.
Record t := {
  Name : string;
  Path : string;
  Ttl : option duration.Duration
}.
End LoadBalancerSettings_ConsistentHashLB_HTTPCookie.
Abbreviation LoadBalancerSettings_ConsistentHashLB_HTTPCookie :=
  LoadBalancerSettings_ConsistentHashLB_HTTPCookie.t.

Inductive LoadBalancerSettings_ConsistentHashLB_HashKey :=
  | LoadBalancerSettings_ConsistentHashLB_HttpHeaderName (HttpHeaderName : string)
  | LoadBalancerSettings_ConsistentHashLB_HttpCookie
      (HttpCookie : option LoadBalancerSettings_ConsistentHashLB_HTTPCookie)
  | LoadBalancerSettings_ConsistentHashLB_UseSourceIp (UseSourceIp : bool)
  | LoadBalancerSettings_ConsistentHashLB_HttpQueryParameterName
      (HttpQueryParameterName : string).

Module LoadBalancerSettings_ConsistentHashLB.
Record t := {
  HashKey : option LoadBalancerSettings_ConsistentHashLB_HashKey;
  MinimumRingSize : Z
}.
End LoadBalancerSettings_ConsistentHashLB.
Abbreviation LoadBalancerSettings_ConsistentHashLB :=
  LoadBalancerSettings_ConsistentHashLB.t.

Inductive LoadBalancerSettings_LbPolicy :=
  | LoadBalancerSettings_Simple (Simple : Z)
  | LoadBalancerSettings_ConsistentHash
      (ConsistentHash : option LoadBalancerSettings_ConsistentHashLB).

Module LoadBalancerSettings.
Record t := { LbPolicy : option LoadBalancerSettings_LbPolicy }.
End LoadBalancerSettings.
Abbreviation LoadBalancerSettings := LoadBalancerSettings.t.

Module TrafficPolicy_PortTrafficPolicy.
Record t := {
  Port : option PortSelector;
  LoadBalancer : option LoadBalancerSettings
}.
End TrafficPolicy_PortTrafficPolicy.
Abbreviation TrafficPolicy_PortTrafficPolicy := TrafficPolicy_PortTrafficPolicy.t.

Module TrafficPolicy.
Record t := {
  LoadBalancer : option LoadBalancerSettings;
  PortLevelSettings : list TrafficPolicy_PortTrafficPolicy
}.
End TrafficPolicy.
Abbreviation TrafficPolicy := TrafficPolicy.t.

Module Subset.
Record t := {
  Name : string;
  Labels : gmap string string;
  TrafficPolicy : option networking.TrafficPolicy
}.
End Subset.
Abbreviation Subset := Subset.t.

Module DestinationRule.
Record t := {
  Host : string;
  TrafficPolicy : option networking.TrafficPolicy;
  Subsets : list Subset
}.
End DestinationRule.
Abbreviation DestinationRule := DestinationRule.t.

(** Nil-safe getters of the generated code. *)
Definition GetRequest (h : option Headers) : option Headers_HeaderOperations :=
  h ≫= Headers.Request.
Definition GetResponse (h : option Headers) : option Headers_HeaderOperations :=
  h ≫= Headers.Response.
Definition GetSet (o : option Headers_HeaderOperations) : gmap string string :=
  from_option Headers_HeaderOperations.Set_ ∅ o.
Definition GetAdd (o : option Headers_HeaderOperations) : gmap string string :=
  from_option Headers_HeaderOperations.Add ∅ o.
Definition GetRemove (o : option Headers_HeaderOperations) : list string :=
  from_option Headers_HeaderOperations.Remove [] o.
Definition GetNumber (p : option PortSelector) : Z :=
  from_option PortSelector.Number 0 p.
Definition GetConsistentHash (lb : option LoadBalancerSettings)
    : option LoadBalancerSettings_ConsistentHashLB :=
  match lb ≫= LoadBalancerSettings.LbPolicy with
  | Some (LoadBalancerSettings_ConsistentHash c) => c
  | _ => None
  end.
End networking.

(** ** Pilot model types *)

Module model.
Module NodeMetadata.
Record t := {
  Labels : gmap string string;
  Namespace : string
}.
End NodeMetadata.
Abbreviation NodeMetadata := NodeMetadata.t.

Module Proxy.
Record t := { Metadata : NodeMetadata }.
End Proxy.
Abbreviation Proxy := Proxy.t.

Module ConfigMeta.
Record t := { Name : string; Namespace : string }.
End ConfigMeta.
Abbreviation ConfigMeta := ConfigMeta.t.

(** [Config.Spec] is an interface value; the package asserts it to be a
    virtual service. *)
Inductive Spec :=
  | Spec_VirtualService (vs : networking.VirtualService)
  | Spec_DestinationRule (dr : networking.DestinationRule)
  | Spec_Other.

Module Config.
Record t := {
  ConfigMeta : model.ConfigMeta;
  Spec : model.Spec
}.
End Config.
Abbreviation Config := Config.t.

Module Port.
Record t := { Name : string; Port : Z }.
End Port.
Abbreviation Port := Port.t.

Module ServiceAttributes.
Record t := { Namespace : string }.
End ServiceAttributes.
Abbreviation ServiceAttributes := ServiceAttributes.t.

Module Service.
Record t := {
  Hostname : string;
  Ports : list Port;
  Attributes : ServiceAttributes
}.
End Service.
Abbreviation Service := Service.t.

(** The push context, reduced to the one method the package calls: the
    destination rule that applies to a service as seen from a proxy. *)
Module PushContext.
Record t := {
  DestinationRule : Proxy → Service → option networking.DestinationRule
}.
End PushContext.
Abbreviation PushContext := PushContext.t.

Inductive TrafficDirection := TrafficDirectionInbound | TrafficDirectionOutbound.

Definition TrafficDirection_string (d : TrafficDirection) : string :=
  match d with
  | TrafficDirectionInbound => "inbound"
  | TrafficDirectionOutbound => "outbound"
  end.

(** Modelled from the spec: [model.BuildSubsetKey] is not part of this
    file.  The cluster name has the form
    [outbound|<port>|<subset>|<serviceFQDN>] that the comment in
    [buildSidecarVirtualHostsForVirtualService] gives. *)
Definition BuildSubsetKey (direction : TrafficDirection) (subsetName hostname : string)
    (port : Z) : string :=
  TrafficDirection_string direction +:+ "|" +:+ Itoa port +:+ "|" +:+ subsetName
    +:+ "|" +:+ hostname.

(** The fields of a string between occurrences of [sep]. *)
Fixpoint split_fields (sep : ascii) (s : string) : list string :=
  match s with
  | EmptyString => [EmptyString]
  | String c s' =>
      if Ascii.eqb c sep then EmptyString :: split_fields sep s'
      else match split_fields sep s' with
           | f :: fs => String c f :: fs
           | [] => [String c EmptyString]
           end
  end.

(** Modelled from the spec: [model.IsValidSubsetKey], the [ok] flag of the
    decoder: a cluster name of four [|]-separated fields. *)
Definition IsValidSubsetKey (s : string) : bool :=
  bool_decide (length (split_fields "|"%char s) = 4%nat).

(** Modelled from the spec: [model.ParseSubsetKey], the decoder of
    [BuildSubsetKey]; a malformed name decodes to empty fields and port 0. *)
Definition ParseSubsetKey (s : string) : string * string * string * Z :=
  match split_fields "|"%char s with
  | [d; p; sub; h] =>
      (d, sub, h, from_option Z.of_int 0 (NilZero.int_of_string p))
  | _ => ("", "", "", 0)
  end.
End model.

Module labels.
(** Modelled from the spec: [labels.Collection.IsSupersetOf] is not part of
    this file.  The proxy's labels admit a source-label filter when every
    label of the filter is among them. *)
Definition IsSupersetOf (proxyLabels sourceLabels : gmap string string) : bool :=
  bool_decide (sourceLabels ⊆ proxyLabels).
End labels.

(** Process-wide settings read by the package ([features]), passed
    explicitly. *)
Module features.
Record t := { DefaultRequestTimeout : option duration.Duration }.
End features.

(** Values produced by helper packages that are outside this file; each is
    kept as the call that produces it. *)
Module util.
Inductive Metadata := BuildConfigInfoMetadata (config : model.ConfigMeta).
Inductive Any := MessageToAny (msg : option xdshttpfault.HTTPFault).
End util.

(** The retry policy of a route, as the call of the [retry] package that
    produces it. *)
Module retry.
Inductive RetryPolicy :=
  | ConvertPolicy (i : option networking.HTTPRetry)
  | DefaultPolicy.
End retry.

(** The key under which the configuration of the HTTP fault filter is
    stored.  The constant is declared by go-control-plane, and its value
    differs between the versions of that library; it is named here only as
    the key, and no property depends on its value. *)
Module wellknown.
Definition Fault : string := "envoy.fault".
End wellknown.

(** ** Envoy route types *)

Module route.
Inductive HeaderMatcher_HeaderMatchSpecifier :=
  | HeaderMatcher_ExactMatch (ExactMatch : string)
  | HeaderMatcher_SafeRegexMatch (SafeRegexMatch : matcher.RegexMatcher)
  | HeaderMatcher_PresentMatch (PresentMatch : bool)
  | HeaderMatcher_PrefixMatch (PrefixMatch : string).

Module HeaderMatcher.
Record t := {
  Name : string;
  HeaderMatchSpecifier : option HeaderMatcher_HeaderMatchSpecifier;
  InvertMatch : bool
}.
End HeaderMatcher.
Abbreviation HeaderMatcher := HeaderMatcher.t.

Inductive QueryParameterMatcher_QueryParameterMatchSpecifier :=
  | QueryParameterMatcher_StringMatch (StringMatch : matcher.StringMatcher).

Module QueryParameterMatcher.
Record t := {
  Name : string;
  QueryParameterMatchSpecifier :
    option QueryParameterMatcher_QueryParameterMatchSpecifier
}.
End QueryParameterMatcher.
Abbreviation QueryParameterMatcher := QueryParameterMatcher.t.

Inductive RouteMatch_PathSpecifier :=
  | RouteMatch_Prefix (Prefix : string)
  | RouteMatch_Path (Path : string)
  | RouteMatch_SafeRegex (SafeRegex : option matcher.RegexMatcher).

Module RouteMatch.
Record t := {
  PathSpecifier : option RouteMatch_PathSpecifier;
  CaseSensitive : option bool;
  Headers : list HeaderMatcher;
  QueryParameters : list QueryParameterMatcher
}.
End RouteMatch.
Abbreviation RouteMatch := RouteMatch.t.

Inductive RedirectAction_RedirectResponseCode :=
  | RedirectAction_MOVED_PERMANENTLY
  | RedirectAction_FOUND
  | RedirectAction_SEE_OTHER
  | RedirectAction_TEMPORARY_REDIRECT
  | RedirectAction_PERMANENT_REDIRECT.

Inductive RedirectAction_PathRewriteSpecifier :=
  | RedirectAction_PathRedirect (PathRedirect : string).

Module RedirectAction.
Record t := {
  HostRedirect : string;
  PathRewriteSpecifier : option RedirectAction_PathRewriteSpecifier;
  ResponseCode : RedirectAction_RedirectResponseCode
}.
End RedirectAction.
Abbreviation RedirectAction := RedirectAction.t.

Module WeightedCluster_ClusterWeight.
Record t := {
  Name : string;
  Weight : option Z;
  RequestHeadersToAdd : list (option core.HeaderValueOption);
  RequestHeadersToRemove : list string;
  ResponseHeadersToAdd : list (option core.HeaderValueOption);
  ResponseHeadersToRemove : list string
}.
End WeightedCluster_ClusterWeight.
Abbreviation WeightedCluster_ClusterWeight := WeightedCluster_ClusterWeight.t.

Module WeightedCluster.
Record t := { Clusters : list WeightedCluster_ClusterWeight }.
End WeightedCluster.
Abbreviation WeightedCluster := WeightedCluster.t.

Inductive RouteAction_ClusterSpecifier :=
  | RouteAction_Cluster (Cluster : string)
  | RouteAction_WeightedClusters (WeightedClusters : WeightedCluster).

Inductive RouteAction_HostRewriteSpecifier :=
  | RouteAction_HostRewriteLiteral (HostRewriteLiteral : string).

Module RouteAction_RequestMirrorPolicy.
Record t := {
  Cluster : string;
  RuntimeFraction : option core.RuntimeFractionalPercent;
  TraceSampled : option bool
}.
End RouteAction_RequestMirrorPolicy.
Abbreviation RouteAction_RequestMirrorPolicy := RouteAction_RequestMirrorPolicy.t.

Module RouteAction_HashPolicy_Cookie.
Record t := {
  Name : string;
  Ttl : option duration.Duration;
  Path : string
}.
End RouteAction_HashPolicy_Cookie.
Abbreviation RouteAction_HashPolicy_Cookie := RouteAction_HashPolicy_Cookie.t.

(** A hash policy is its policy specifier. *)
Inductive RouteAction_HashPolicy :=
  | RouteAction_HashPolicy_Header_ (HeaderName : string)
  | RouteAction_HashPolicy_Cookie_ (Cookie : RouteAction_HashPolicy_Cookie)
  | RouteAction_HashPolicy_ConnectionProperties_ (SourceIp : bool)
  | RouteAction_HashPolicy_QueryParameter_ (Name : string).

Inductive CorsPolicy_EnabledSpecifier :=
  | CorsPolicy_FilterEnabled (FilterEnabled : core.RuntimeFractionalPercent).

Module CorsPolicy.
Record t := {
  AllowOriginStringMatch : list matcher.StringMatcher;
  AllowMethods : string;
  AllowHeaders : string;
  ExposeHeaders : string;
  MaxAge : string;
  AllowCredentials : option bool;
  EnabledSpecifier : option CorsPolicy_EnabledSpecifier
}.
End CorsPolicy.
Abbreviation CorsPolicy := CorsPolicy.t.

Module RouteAction.
Record t := {
  ClusterSpecifier : option RouteAction_ClusterSpecifier;
  Cors : option CorsPolicy;
  RetryPolicy : option retry.RetryPolicy;
  Timeout : option duration.Duration;
  MaxGrpcTimeout : option duration.Duration;
  PrefixRewrite : string;
  HostRewriteSpecifier : option RouteAction_HostRewriteSpecifier;
  RequestMirrorPolicies : list RouteAction_RequestMirrorPolicy;
  HashPolicy : list RouteAction_HashPolicy
}.
End RouteAction.
Abbreviation RouteAction := RouteAction.t.

(** The oneof [Action].  [Route_Redirect None] is the nil
    [*route.Route_Redirect] that [translateRoute] stores for a redirect
    code it does not support. *)
Inductive Route_Action :=
  | Route_Route (Route : RouteAction)
  | Route_Redirect (Redirect : option RedirectAction).

Module Decorator.
Record t := { Operation : string }.
End Decorator.
Abbreviation Decorator := Decorator.t.

(** [Match] is a required field of an Envoy route; every route of this
    package is built with one and [isCatchAllRoute] reads it without a nil
    test. *)
Module Route.
Record t := {
  Name : string;
  Match : RouteMatch;
  Action : option Route_Action;
  Metadata : option util.Metadata;
  Decorator : option route.Decorator;
  TypedPerFilterConfig : gmap string util.Any;
  RequestHeadersToAdd : list (option core.HeaderValueOption);
  ResponseHeadersToAdd : list (option core.HeaderValueOption);
  RequestHeadersToRemove : list string;
  ResponseHeadersToRemove : list string
}.
End Route.
Abbreviation Route := Route.t.

(** Nil-safe getters of the generated code. *)
Definition GetRoute (r : Route) : option RouteAction :=
  match Route.Action r with
  | Some (Route_Route a) => Some a
  | _ => None
  end.
Definition GetCluster (a : option RouteAction) : string :=
  match a ≫= RouteAction.ClusterSpecifier with
  | Some (RouteAction_Cluster c) => c
  | _ => ""
  end.
End route.

(** ** Header mutations *)

(** [SortHeaderValueOption.Less], on the two entries it compares: an entry
    that is nil or has no header is never smaller, and every entry with a
    header is smaller than one without. *)
Definition SortHeaderValueOption_Less (bi bj : option core.HeaderValueOption) : bool :=
  match bi ≫= core.HeaderValueOption.Header with
  | None => false
  | Some hi =>
      match bj ≫= core.HeaderValueOption.Header with
      | None => true
      | Some hj => string_lt (core.HeaderValue.Key hi) (core.HeaderValue.Key hj)
      end
  end.

(** The entry that [translateAppendHeaders] builds for one map entry. *)
Definition headerValueOption (appendFlag : bool) (kv : string * string)
    : option core.HeaderValueOption :=
  Some {| core.HeaderValueOption.Header :=
            Some {| core.HeaderValue.Key := kv.1; core.HeaderValue.Value := kv.2 |};
          core.HeaderValueOption.Append := Some appendFlag |}.

(** [translateAppendHeaders] when the [range] over [headers] visits the
    entries in the order [visited]. *)
Definition translateAppendHeaders_visiting (visited : list (string * string))
    (appendFlag : bool) : list (option core.HeaderValueOption) :=
  if bool_decide (length visited = 0%nat) then []
  else sort_Stable SortHeaderValueOption_Less (headerValueOption appendFlag <$> visited).

Definition translateAppendHeaders (headers : gmap string string) (appendFlag : bool)
    : list (option core.HeaderValueOption) :=
  translateAppendHeaders_visiting (map_to_list headers) appendFlag.

Record headersOperations := {
  requestHeadersToAdd : list (option core.HeaderValueOption);
  responseHeadersToAdd : list (option core.HeaderValueOption);
  requestHeadersToRemove : list string;
  responseHeadersToRemove : list string
}.

Definition translateHeadersOperations (headers : option networking.Headers)
    : headersOperations :=
  let req := networking.GetRequest headers in
  let resp := networking.GetResponse headers in
  let requestHeadersToAdd := translateAppendHeaders (networking.GetSet req) false in
  let requestHeadersToAdd :=
    requestHeadersToAdd ++ translateAppendHeaders (networking.GetAdd req) true in
  let responseHeadersToAdd := translateAppendHeaders (networking.GetSet resp) false in
  let responseHeadersToAdd :=
    responseHeadersToAdd ++ translateAppendHeaders (networking.GetAdd resp) true in
  {| requestHeadersToAdd := requestHeadersToAdd;
     responseHeadersToAdd := responseHeadersToAdd;
     requestHeadersToRemove := [] ++ networking.GetRemove req;
     responseHeadersToRemove := [] ++ networking.GetRemove resp |}.

(** ** Match translation *)

Definition regexMatcher (node : model.Proxy) : matcher.RegexMatcher_EngineType :=
  matcher.RegexMatcher_GoogleRe2.

(** [isCatchAllHeaderMatch]: a nil predicate or the regex ["*"]. *)
Definition isCatchAllHeaderMatch (i : option networking.StringMatch) : bool :=
  match i with
  | None => true
  | Some sm =>
      match networking.StringMatch.MatchType sm with
      | Some (networking.StringMatch_Regex r) => bool_decide (r = "*")
      | _ => false
      end
  end.

Definition translateHeaderMatch (name : string) (i : option networking.StringMatch)
    (node : model.Proxy) : route.HeaderMatcher :=
  if isCatchAllHeaderMatch i then
    {| route.HeaderMatcher.Name := name;
       route.HeaderMatcher.HeaderMatchSpecifier :=
         Some (route.HeaderMatcher_PresentMatch true);
       route.HeaderMatcher.InvertMatch := false |}
  else
    {| route.HeaderMatcher.Name := name;
       route.HeaderMatcher.HeaderMatchSpecifier :=
         match i ≫= networking.StringMatch.MatchType with
         | Some (networking.StringMatch_Exact e) =>
             Some (route.HeaderMatcher_ExactMatch e)
         | Some (networking.StringMatch_Prefix p) =>
             Some (route.HeaderMatcher_PrefixMatch p)
         | Some (networking.StringMatch_Regex r) =>
             Some (route.HeaderMatcher_SafeRegexMatch
                     {| matcher.RegexMatcher.EngineType := regexMatcher node;
                        matcher.RegexMatcher.Regex := r |})
         | None => None
         end;
       route.HeaderMatcher.InvertMatch := false |}.

(** [translateQueryParamMatch]; the parameter's predicate is dereferenced
    without a nil test, so it is passed as a value.  A prefix predicate
    leaves the specifier unset. *)
Definition translateQueryParamMatch (name : string) (i : networking.StringMatch)
    (node : model.Proxy) : route.QueryParameterMatcher :=
  {| route.QueryParameterMatcher.Name := name;
     route.QueryParameterMatcher.QueryParameterMatchSpecifier :=
       match networking.StringMatch.MatchType i with
       | Some (networking.StringMatch_Exact e) =>
           Some (route.QueryParameterMatcher_StringMatch (matcher.StringMatcher_Exact e))
       | Some (networking.StringMatch_Regex r) =>
           Some (route.QueryParameterMatcher_StringMatch
                   (matcher.StringMatcher_SafeRegex
                      {| matcher.RegexMatcher.EngineType := regexMatcher node;
                         matcher.RegexMatcher.Regex := r |}))
       | _ => None
       end |}.

(** Headers with special meaning in Envoy. *)
Definition HeaderMethod : string := ":method".
Definition HeaderAuthority : string := ":authority".
Definition HeaderScheme : string := ":scheme".

(** The comparison that [translateRouteMatch] hands to [sort.Slice]. *)
Definition HeaderMatcher_Less (a b : route.HeaderMatcher) : bool :=
  string_lt (route.HeaderMatcher.Name a) (route.HeaderMatcher.Name b).

Definition invert (m : route.HeaderMatcher) : route.HeaderMatcher :=
  {| route.HeaderMatcher.Name := route.HeaderMatcher.Name m;
     route.HeaderMatcher.HeaderMatchSpecifier := route.HeaderMatcher.HeaderMatchSpecifier m;
     route.HeaderMatcher.InvertMatch := true |}.

(** [translateRouteMatch].  The three maps are visited in the order of
    [map_to_list].  [sort.Slice] does not say in which order it leaves two
    matchers of the same name (one from [Headers], one from
    [WithoutHeaders]); here they keep their order. *)
Definition translateRouteMatch (i : option networking.HTTPMatchRequest)
    (node : model.Proxy) : route.RouteMatch :=
  match i with
  | None =>
      {| route.RouteMatch.PathSpecifier := Some (route.RouteMatch_Prefix "/");
         route.RouteMatch.CaseSensitive := None;
         route.RouteMatch.Headers := [];
         route.RouteMatch.QueryParameters := [] |}
  | Some i =>
      let headers :=
        (λ kv, translateHeaderMatch kv.1 kv.2 node)
          <$> map_to_list (networking.HTTPMatchRequest.Headers i) in
      let headers :=
        headers ++ ((λ kv, invert (translateHeaderMatch kv.1 kv.2 node))
                      <$> map_to_list (networking.HTTPMatchRequest.WithoutHeaders i)) in
      let headers := sort_Stable HeaderMatcher_Less headers in
      let pathSpecifier :=
        match networking.HTTPMatchRequest.Uri i ≫= networking.StringMatch.MatchType with
        | Some (networking.StringMatch_Exact e) => route.RouteMatch_Path e
        | Some (networking.StringMatch_Prefix p) => route.RouteMatch_Prefix p
        | Some (networking.StringMatch_Regex r) =>
            route.RouteMatch_SafeRegex
              (Some {| matcher.RegexMatcher.EngineType := regexMatcher node;
                       matcher.RegexMatcher.Regex := r |})
        | None => route.RouteMatch_Prefix "/"
        end in
      let headers :=
        match networking.HTTPMatchRequest.Method i with
        | Some m => headers ++ [translateHeaderMatch HeaderMethod (Some m) node]
        | None => headers
        end in
      let headers :=
        match networking.HTTPMatchRequest.Authority i with
        | Some m => headers ++ [translateHeaderMatch HeaderAuthority (Some m) node]
        | None => headers
        end in
      let headers :=
        match networking.HTTPMatchRequest.Scheme i with
        | Some m => headers ++ [translateHeaderMatch HeaderScheme (Some m) node]
        | None => headers
        end in
      {| route.RouteMatch.PathSpecifier := Some pathSpecifier;
         route.RouteMatch.CaseSensitive :=
           Some (negb (networking.HTTPMatchRequest.IgnoreUriCase i));
         route.RouteMatch.Headers := headers;
         route.RouteMatch.QueryParameters :=
           (λ kv, translateQueryParamMatch kv.1 kv.2 node)
             <$> map_to_list (networking.HTTPMatchRequest.QueryParams i) |}
  end.

(** ** Catch-all matches and routes *)

(** [isCatchAllMatch]: the URI is the prefix ["/"] or the regex ["*"], and
    there is no header and no query-parameter predicate. *)
Definition isCatchAllMatch (m : networking.HTTPMatchRequest) : bool :=
  let catchall :=
    match networking.HTTPMatchRequest.Uri m with
    | Some uri =>
        match networking.StringMatch.MatchType uri with
        | Some (networking.StringMatch_Prefix p) => bool_decide (p = "/")
        | Some (networking.StringMatch_Regex r) => bool_decide (r = "*")
        | _ => false
        end
    | None => false
    end in
  catchall
  && bool_decide (size (networking.HTTPMatchRequest.Headers m) = 0%nat)
  && bool_decide (size (networking.HTTPMatchRequest.QueryParams m) = 0%nat).

(** [catchAllMatch]: the first catch-all match block of the rule. *)
Definition catchAllMatch (http : networking.HTTPRoute)
    : option networking.HTTPMatchRequest :=
  List.find isCatchAllMatch (networking.HTTPRoute.Match http).

Definition isCatchAllRoute (r : route.Route) : bool :=
  let catchall :=
    match route.RouteMatch.PathSpecifier (route.Route.Match r) with
    | Some (route.RouteMatch_Prefix p) => bool_decide (p = "/")
    | Some (route.RouteMatch_SafeRegex re) => bool_decide (matcher.GetRegex re = "*")
    | _ => false
    end in
  catchall
  && bool_decide (length (route.RouteMatch.Headers (route.Route.Match r)) = 0%nat)
  && bool_decide (length (route.RouteMatch.QueryParameters (route.Route.Match r)) = 0%nat).

(** [CombineVHostRoutes]: the two accumulators of the nested loop, then
    [append(allroutes, catchAllRoutes...)]. *)
Definition CombineVHostRoutes (routeSets : list (list route.Route)) : list route.Route :=
  let '(allroutes, catchAllRoutes) :=
    foldl (λ acc routes,
             foldl (λ '(allroutes, catchAllRoutes) r,
                      if isCatchAllRoute r then (allroutes, catchAllRoutes ++ [r])
                      else (allroutes ++ [r], catchAllRoutes))
                   acc routes)
          ([], []) routeSets in
  allroutes ++ catchAllRoutes.

(** ** Percentages, mirroring and fault injection *)

Definition translatePercentToFractionalPercent (p : networking.Percent)
    : xdstype.FractionalPercent :=
  {| xdstype.FractionalPercent.Numerator :=
       uint32_of_float64 (PrimFloat.mul (networking.Percent.Value p) 10000%float);
     xdstype.FractionalPercent.Denominator := xdstype.FractionalPercent_MILLION |}.

Definition translateIntegerToFractionalPercent (p : Z) : xdstype.FractionalPercent :=
  {| xdstype.FractionalPercent.Numerator := uint32 p;
     xdstype.FractionalPercent.Denominator := xdstype.FractionalPercent_HUNDRED |}.

(** [mirrorPercent]: [MirrorPercentage] decides when it is given, else
    [MirrorPercent], else 100 percent. *)
Definition mirrorPercent (i : networking.HTTPRoute) : option core.RuntimeFractionalPercent :=
  match networking.HTTPRoute.MirrorPercentage i with
  | Some p =>
      if PrimFloat.ltb 0%float (networking.Percent.Value p) then
        Some {| core.RuntimeFractionalPercent.DefaultValue :=
                  Some (translatePercentToFractionalPercent p) |}
      else None
  | None =>
      match networking.HTTPRoute.MirrorPercent i with
      | Some v =>
          if bool_decide (0 < v) then
            Some {| core.RuntimeFractionalPercent.DefaultValue :=
                      Some (translateIntegerToFractionalPercent (int32 v)) |}
          else None
      | None =>
          Some {| core.RuntimeFractionalPercent.DefaultValue :=
                    Some (translateIntegerToFractionalPercent 100) |}
      end
  end.

(** The delay sub-policy of [translateFault]. *)
Definition translateFault_Delay (d : networking.HTTPFaultInjection_Delay)
    : option xdsfault.FaultDelay :=
  let percentage :=
    match networking.HTTPFaultInjection_Delay.Percentage d with
    | Some p => translatePercentToFractionalPercent p
    | None =>
        translateIntegerToFractionalPercent (networking.HTTPFaultInjection_Delay.Percent d)
    end in
  match networking.HTTPFaultInjection_Delay.HttpDelayType d with
  | Some (networking.HTTPFaultInjection_Delay_FixedDelay fd) =>
      Some {| xdsfault.FaultDelay.FaultDelaySecifier :=
                Some (xdsfault.FaultDelay_FixedDelay (DurationToProtoDuration fd));
              xdsfault.FaultDelay.Percentage := Some percentage |}
  | _ => None
  end.

(** The abort sub-policy of [translateFault]. *)
Definition translateFault_Abort (a : networking.HTTPFaultInjection_Abort)
    : option xdshttpfault.FaultAbort :=
  let percentage :=
    match networking.HTTPFaultInjection_Abort.Percentage a with
    | Some p => Some (translatePercentToFractionalPercent p)
    | None => None
    end in
  match networking.HTTPFaultInjection_Abort.ErrorType a with
  | Some (networking.HTTPFaultInjection_Abort_HttpStatus st) =>
      Some {| xdshttpfault.FaultAbort.ErrorType :=
                Some (xdshttpfault.FaultAbort_HttpStatus (uint32 st));
              xdshttpfault.FaultAbort.Percentage := percentage |}
  | _ => None
  end.

Definition translateFault (i : option networking.HTTPFaultInjection)
    : option xdshttpfault.HTTPFault :=
  match i with
  | None => None
  | Some i =>
      let delay := networking.HTTPFaultInjection.Delay i ≫= translateFault_Delay in
      let abort := networking.HTTPFaultInjection.Abort i ≫= translateFault_Abort in
      match delay, abort with
      | None, None => None
      | _, _ => Some {| xdshttpfault.HTTPFault.Delay := delay;
                       xdshttpfault.HTTPFault.Abort := abort |}
      end
  end.

(** ** CORS *)

Definition convertToExactEnvoyMatch (i : list string) : list matcher.StringMatcher :=
  matcher.StringMatcher_Exact <$> i.

Definition convertToEnvoyMatch (i : list networking.StringMatch) (node : model.Proxy)
    : list matcher.StringMatcher :=
  omap (λ istioMatcher,
          match networking.StringMatch.MatchType istioMatcher with
          | Some (networking.StringMatch_Exact e) => Some (matcher.StringMatcher_Exact e)
          | Some (networking.StringMatch_Prefix p) => Some (matcher.StringMatcher_Prefix p)
          | Some (networking.StringMatch_Regex r) =>
              Some (matcher.StringMatcher_SafeRegex
                      {| matcher.RegexMatcher.EngineType := regexMatcher node;
                         matcher.RegexMatcher.Regex := r |})
          | None => None
          end) i.

Definition translateCORSPolicy (i : option networking.CorsPolicy) (node : model.Proxy)
    : option route.CorsPolicy :=
  match i with
  | None => None
  | Some i =>
      Some {| route.CorsPolicy.AllowOriginStringMatch :=
                match networking.CorsPolicy.AllowOrigins i with
                | Some origins => convertToEnvoyMatch origins node
                | None =>
                    match networking.CorsPolicy.AllowOrigin i with
                    | Some origin => convertToExactEnvoyMatch origin
                    | None => []
                    end
                end;
              route.CorsPolicy.EnabledSpecifier :=
                Some (route.CorsPolicy_FilterEnabled
                        {| core.RuntimeFractionalPercent.DefaultValue :=
                             Some {| xdstype.FractionalPercent.Numerator := 100;
                                     xdstype.FractionalPercent.Denominator :=
                                       xdstype.FractionalPercent_HUNDRED |} |});
              route.CorsPolicy.AllowCredentials := networking.CorsPolicy.AllowCredentials i;
              route.CorsPolicy.AllowHeaders := Join (networking.CorsPolicy.AllowHeaders i) ",";
              route.CorsPolicy.AllowMethods := Join (networking.CorsPolicy.AllowMethods i) ",";
              route.CorsPolicy.ExposeHeaders := Join (networking.CorsPolicy.ExposeHeaders i) ",";
              route.CorsPolicy.MaxAge :=
                match networking.CorsPolicy.MaxAge i with
                | Some d => Itoa (duration.Seconds d)
                | None => ""
                end |}
  end.

(** ** Hash policies *)

Definition portLevelSettingsConsistentHash (dst : networking.Destination)
    (pls : list networking.TrafficPolicy_PortTrafficPolicy)
    : option networking.LoadBalancerSettings_ConsistentHashLB :=
  match networking.Destination.Port dst with
  | Some _ =>
      let portNumber := networking.GetNumber (networking.Destination.Port dst) in
      match List.find (λ setting,
                         bool_decide
                           (networking.GetNumber
                              (networking.TrafficPolicy_PortTrafficPolicy.Port setting)
                            = portNumber)) pls with
      | Some setting =>
          networking.GetConsistentHash
            (networking.TrafficPolicy_PortTrafficPolicy.LoadBalancer setting)
      | None => None
      end
  | None => None
  end.

Definition consistentHashToHashPolicy
    (consistentHash : option networking.LoadBalancerSettings_ConsistentHashLB)
    : option route.RouteAction_HashPolicy :=
  match consistentHash ≫= networking.LoadBalancerSettings_ConsistentHashLB.HashKey with
  | Some (networking.LoadBalancerSettings_ConsistentHashLB_HttpHeaderName n) =>
      Some (route.RouteAction_HashPolicy_Header_ n)
  | Some (networking.LoadBalancerSettings_ConsistentHashLB_HttpCookie cookie) =>
      Some (route.RouteAction_HashPolicy_Cookie_
              {| route.RouteAction_HashPolicy_Cookie.Name :=
                   from_option networking.LoadBalancerSettings_ConsistentHashLB_HTTPCookie.Name
                     "" cookie;
                 route.RouteAction_HashPolicy_Cookie.Ttl :=
                   DurationToProtoDuration
                     <$> (cookie ≫= networking.LoadBalancerSettings_ConsistentHashLB_HTTPCookie.Ttl);
                 route.RouteAction_HashPolicy_Cookie.Path :=
                   from_option networking.LoadBalancerSettings_ConsistentHashLB_HTTPCookie.Path
                     "" cookie |})
  | Some (networking.LoadBalancerSettings_ConsistentHashLB_UseSourceIp b) =>
      Some (route.RouteAction_HashPolicy_ConnectionProperties_ b)
  | Some (networking.LoadBalancerSettings_ConsistentHashLB_HttpQueryParameterName n) =>
      Some (route.RouteAction_HashPolicy_QueryParameter_ n)
  | None => None
  end.

Definition getHashPolicy (push : option model.PushContext) (node : model.Proxy)
    (dst : networking.HTTPRouteDestination) (configNamespace : string)
    : option route.RouteAction_HashPolicy :=
  match push with
  | None => None
  | Some push =>
      let destination := networking.HTTPRouteDestination.Destination dst in
      match model.PushContext.DestinationRule push node
              {| model.Service.Hostname := networking.Destination.Host destination;
                 model.Service.Ports := [];
                 model.Service.Attributes :=
                   {| model.ServiceAttributes.Namespace := configNamespace |} |} with
      | None => None
      | Some rule =>
          let trafficPolicy := networking.DestinationRule.TrafficPolicy rule in
          let consistentHash :=
            networking.GetConsistentHash
              (trafficPolicy ≫= networking.TrafficPolicy.LoadBalancer) in
          let portLevelSettings :=
            from_option networking.TrafficPolicy.PortLevelSettings [] trafficPolicy in
          let plsHash := portLevelSettingsConsistentHash destination portLevelSettings in
          let '(subsetHash, subsetPLSHash) :=
            match List.find (λ subset,
                               bool_decide (networking.Subset.Name subset
                                            = networking.Destination.Subset destination))
                            (networking.DestinationRule.Subsets rule) with
            | Some subset =>
                let subsetPolicy := networking.Subset.TrafficPolicy subset in
                (networking.GetConsistentHash
                   (subsetPolicy ≫= networking.TrafficPolicy.LoadBalancer),
                 portLevelSettingsConsistentHash destination
                   (from_option networking.TrafficPolicy.PortLevelSettings [] subsetPolicy))
            | None => (None, None)
            end in
          let consistentHash :=
            match subsetPLSHash, subsetHash, plsHash with
            | Some h, _, _ => Some h
            | None, Some h, _ => Some h
            | None, None, Some h => Some h
            | None, None, None => consistentHash
            end in
          consistentHashToHashPolicy consistentHash
      end
  end.

(** ** Destination clusters and trace labels *)

Definition GetDestinationCluster (destination : networking.Destination)
    (service : option model.Service) (listenerPort : Z) : string :=
  let port :=
    match networking.Destination.Port destination with
    | Some _ => networking.GetNumber (networking.Destination.Port destination)
    | None =>
        match service with
        | Some svc =>
            match model.Service.Ports svc with
            | [p] => model.Port.Port p
            | _ => listenerPort
            end
        | None => listenerPort
        end
    end in
  model.BuildSubsetKey model.TrafficDirectionOutbound
    (networking.Destination.Subset destination)
    (networking.Destination.Host destination) port.

(** [getRouteOperation]: the readable description of a route for traces. *)
Definition getRouteOperation (i : route.Route) (vsName : string) (port : Z) : string :=
  let m := route.Route.Match i in
  let path :=
    match route.RouteMatch.PathSpecifier m with
    | Some (route.RouteMatch_Prefix p) => p +:+ "*"
    | Some (route.RouteMatch_Path p) => p
    | Some (route.RouteMatch_SafeRegex re) => matcher.GetRegex re
    | None => "/*"
    end in
  let c := route.GetCluster (route.GetRoute i) in
  if model.IsValidSubsetKey c then
    let '(_, _, h, p) := model.ParseSubsetKey c in
    h +:+ ":" +:+ Itoa p +:+ path
  else vsName +:+ ":" +:+ Itoa port +:+ path.

(** ** Translation of one rule under one match block *)

(** [sourceMatchHTTP]: when the match lists gateways, only they decide;
    otherwise the source labels and the source namespace do.
    [proxyLabels] is the single label set of the collection that
    [translateRoute] builds from the proxy. *)
Definition sourceMatchHTTP (match_ : option networking.HTTPMatchRequest)
    (proxyLabels : gmap string string) (gatewayNames : gmap string bool)
    (proxyNamespace : string) : bool :=
  match match_ with
  | None => true
  | Some m =>
      if bool_decide (0 < length (networking.HTTPMatchRequest.Gateways m))%nat then
        existsb (λ g, default false (gatewayNames !! g))
                (networking.HTTPMatchRequest.Gateways m)
      else if labels.IsSupersetOf proxyLabels (networking.HTTPMatchRequest.SourceLabels m) then
        bool_decide (networking.HTTPMatchRequest.SourceNamespace m = "")
        || bool_decide (networking.HTTPMatchRequest.SourceNamespace m = proxyNamespace)
      else false
  end.

(** The weighted cluster that the loop over [in.Route] builds for one
    destination, with the weight the loop has settled on. *)
Definition clusterWeight (dst : networking.HTTPRouteDestination) (weight : Z) (port : Z)
    (serviceRegistry : gmap string model.Service) : route.WeightedCluster_ClusterWeight :=
  let operations := translateHeadersOperations (networking.HTTPRouteDestination.Headers dst) in
  let hostname :=
    networking.Destination.Host (networking.HTTPRouteDestination.Destination dst) in
  let n := GetDestinationCluster (networking.HTTPRouteDestination.Destination dst)
                                 (serviceRegistry !! hostname) port in
  {| route.WeightedCluster_ClusterWeight.Name := n;
     route.WeightedCluster_ClusterWeight.Weight := Some weight;
     route.WeightedCluster_ClusterWeight.RequestHeadersToAdd := requestHeadersToAdd operations;
     route.WeightedCluster_ClusterWeight.RequestHeadersToRemove :=
       requestHeadersToRemove operations;
     route.WeightedCluster_ClusterWeight.ResponseHeadersToAdd := responseHeadersToAdd operations;
     route.WeightedCluster_ClusterWeight.ResponseHeadersToRemove :=
       responseHeadersToRemove operations |}.

(** The body of the loop over [in.Route] of [translateRoute], on the list
    [weighted] and the hash policies collected so far.  A destination of
    weight 0 is skipped ([continue]) unless the rule has exactly one
    destination, whose weight then becomes 100. *)
Definition weightedClusters_body (push : option model.PushContext) (node : model.Proxy)
    (i : networking.HTTPRoute) (port : Z) (serviceRegistry : gmap string model.Service)
    (acc : list route.WeightedCluster_ClusterWeight * list route.RouteAction_HashPolicy)
    (dst : networking.HTTPRouteDestination)
    : list route.WeightedCluster_ClusterWeight * list route.RouteAction_HashPolicy :=
  let '(weighted, hashPolicies) := acc in
  let add (weight : Z) :=
    let hostname :=
      networking.Destination.Host (networking.HTTPRouteDestination.Destination dst) in
    let configNamespace :=
      match serviceRegistry !! hostname with
      | Some svc => model.ServiceAttributes.Namespace (model.Service.Attributes svc)
      | None => ""
      end in
    (weighted ++ [clusterWeight dst weight port serviceRegistry],
     match getHashPolicy push node dst configNamespace with
     | Some hashPolicy => hashPolicies ++ [hashPolicy]
     | None => hashPolicies
     end) in
  if bool_decide (networking.HTTPRouteDestination.Weight dst = 0) then
    if bool_decide (length (networking.HTTPRoute.Route i) = 1%nat)
    then add (uint32 100)
    else (weighted, hashPolicies)
  else add (uint32 (networking.HTTPRouteDestination.Weight dst)).

(** The loop over [in.Route]. *)
Definition weightedClusters (push : option model.PushContext) (node : model.Proxy)
    (i : networking.HTTPRoute) (port : Z) (serviceRegistry : gmap string model.Service)
    : list route.WeightedCluster_ClusterWeight * list route.RouteAction_HashPolicy :=
  foldl (weightedClusters_body push node i port serviceRegistry) ([], [])
        (networking.HTTPRoute.Route i).

(** The action of [translateRoute] for a redirect rule; a redirect code
    outside the supported ones leaves a nil action. *)
Definition redirectAction (redirect : networking.HTTPRedirect) : route.Route_Action :=
  let action (code : route.RedirectAction_RedirectResponseCode) :=
    Some {| route.RedirectAction.HostRedirect := networking.HTTPRedirect.Authority redirect;
            route.RedirectAction.PathRewriteSpecifier :=
              Some (route.RedirectAction_PathRedirect (networking.HTTPRedirect.Uri redirect));
            route.RedirectAction.ResponseCode := code |} in
  let code := networking.HTTPRedirect.RedirectCode redirect in
  route.Route_Redirect
    (if bool_decide (code = 0 ∨ code = 301) then action route.RedirectAction_MOVED_PERMANENTLY
     else if bool_decide (code = 302) then action route.RedirectAction_FOUND
     else if bool_decide (code = 303) then action route.RedirectAction_SEE_OTHER
     else if bool_decide (code = 307) then action route.RedirectAction_TEMPORARY_REDIRECT
     else if bool_decide (code = 308) then action route.RedirectAction_PERMANENT_REDIRECT
     else None).

(** The action of [translateRoute] for a forwarding rule, before the
    cluster specifier is chosen: CORS, retries, timeouts, rewrite and
    mirroring. *)
Definition routeAction (settings : features.t) (node : model.Proxy)
    (i : networking.HTTPRoute) (port : Z) (serviceRegistry : gmap string model.Service)
    (clusterSpecifier : option route.RouteAction_ClusterSpecifier)
    (hashPolicy : list route.RouteAction_HashPolicy) : route.RouteAction :=
  let d :=
    match networking.HTTPRoute.Timeout i with
    | Some t => Some (DurationToProtoDuration t)
    | None => features.DefaultRequestTimeout settings
    end in
  {| route.RouteAction.Cors := translateCORSPolicy (networking.HTTPRoute.CorsPolicy i) node;
     route.RouteAction.RetryPolicy :=
       Some (retry.ConvertPolicy (networking.HTTPRoute.Retries i));
     route.RouteAction.Timeout := d;
     route.RouteAction.MaxGrpcTimeout := d;
     route.RouteAction.PrefixRewrite :=
       from_option networking.HTTPRewrite.Uri "" (networking.HTTPRoute.Rewrite i);
     route.RouteAction.HostRewriteSpecifier :=
       (λ rewrite, route.RouteAction_HostRewriteLiteral (networking.HTTPRewrite.Authority rewrite))
         <$> networking.HTTPRoute.Rewrite i;
     route.RouteAction.RequestMirrorPolicies :=
       match networking.HTTPRoute.Mirror i with
       | Some mirror =>
           match mirrorPercent i with
           | Some mp =>
               [ {| route.RouteAction_RequestMirrorPolicy.Cluster :=
                      GetDestinationCluster mirror
                        (serviceRegistry !! networking.Destination.Host mirror) port;
                    route.RouteAction_RequestMirrorPolicy.RuntimeFraction := Some mp;
                    route.RouteAction_RequestMirrorPolicy.TraceSampled := Some false |} ]
           | None => []
           end
       | None => []
       end;
     route.RouteAction.HashPolicy := hashPolicy;
     route.RouteAction.ClusterSpecifier := clusterSpecifier |}.

(** [translateRoute]: [None] is the nil route, returned when the source
    filter or the port of the match block rejects the translation. *)
Definition translateRoute (settings : features.t) (push : option model.PushContext)
    (node : model.Proxy) (i : networking.HTTPRoute)
    (match_ : option networking.HTTPMatchRequest) (port : Z)
    (virtualService : model.Config) (serviceRegistry : gmap string model.Service)
    (gatewayNames : gmap string bool) : option route.Route :=
  if negb (sourceMatchHTTP match_
             (model.NodeMetadata.Labels (model.Proxy.Metadata node)) gatewayNames
             (model.NodeMetadata.Namespace (model.Proxy.Metadata node)))
  then None
  else if match match_ with
          | Some m =>
              negb (bool_decide (networking.HTTPMatchRequest.Port m = 0))
              && negb (bool_decide (networking.HTTPMatchRequest.Port m = uint32 port))
          | None => false
          end
  then None
  else
    let routeName :=
      match match_ with
      | Some m =>
          if bool_decide (networking.HTTPMatchRequest.Name m ≠ "")
          then networking.HTTPRoute.Name i +:+ "." +:+ networking.HTTPMatchRequest.Name m
          else networking.HTTPRoute.Name i
      | None => networking.HTTPRoute.Name i
      end in
    let operations := translateHeadersOperations (networking.HTTPRoute.Headers i) in
    let '(action, promoted) :=
      match networking.HTTPRoute.Redirect i with
      | Some redirect => (redirectAction redirect, None)
      | None =>
          let '(weighted, hashPolicy) :=
            weightedClusters push node i port serviceRegistry in
          match weighted with
          | [w] =>
              (route.Route_Route
                 (routeAction settings node i port serviceRegistry
                    (Some (route.RouteAction_Cluster
                             (route.WeightedCluster_ClusterWeight.Name w)))
                    hashPolicy),
               Some w)
          | _ =>
              (route.Route_Route
                 (routeAction settings node i port serviceRegistry
                    (Some (route.RouteAction_WeightedClusters
                             {| route.WeightedCluster.Clusters := weighted |}))
                    hashPolicy),
               None)
          end
      end in
    let promote {B} (own : list B) (field : route.WeightedCluster_ClusterWeight → list B) :=
      match promoted with
      | Some w => own ++ field w
      | None => own
      end in
    let out (decorator : option route.Decorator) :=
      {| route.Route.Name := routeName;
         route.Route.Match := translateRouteMatch match_ node;
         route.Route.Metadata :=
           Some (util.BuildConfigInfoMetadata (model.Config.ConfigMeta virtualService));
         route.Route.Action := Some action;
         route.Route.Decorator := decorator;
         route.Route.TypedPerFilterConfig :=
           match networking.HTTPRoute.Fault i with
           | Some _ =>
               {[ wellknown.Fault :=
                    util.MessageToAny (translateFault (networking.HTTPRoute.Fault i)) ]}
           | None => ∅
           end;
         route.Route.RequestHeadersToAdd :=
           promote (requestHeadersToAdd operations)
                   route.WeightedCluster_ClusterWeight.RequestHeadersToAdd;
         route.Route.RequestHeadersToRemove :=
           promote (requestHeadersToRemove operations)
                   route.WeightedCluster_ClusterWeight.RequestHeadersToRemove;
         route.Route.ResponseHeadersToAdd :=
           promote (responseHeadersToAdd operations)
                   route.WeightedCluster_ClusterWeight.ResponseHeadersToAdd;
         route.Route.ResponseHeadersToRemove :=
           promote (responseHeadersToRemove operations)
                   route.WeightedCluster_ClusterWeight.ResponseHeadersToRemove |} in
    Some (out (Some {| route.Decorator.Operation :=
                         getRouteOperation (out None)
                           (model.ConfigMeta.Name (model.Config.ConfigMeta virtualService))
                           port |})).

(** ** Expansion of a virtual service into routes *)

Inductive error :=
  | ErrNotVirtualService (virtualService : model.Config)
  | ErrNoRoutesMatched.

(** The body of the loop over [vs.Http] for one rule: the routes it
    appends to [out], and whether it leaves the loop ([break]). *)
Definition routesOfRule (settings : features.t) (node : model.Proxy)
    (push : option model.PushContext) (virtualService : model.Config)
    (serviceRegistry : gmap string model.Service) (listenPort : Z)
    (gatewayNames : gmap string bool) (http : networking.HTTPRoute)
    : list route.Route * bool :=
  let translate match_ :=
    translateRoute settings push node http match_ listenPort virtualService
      serviceRegistry gatewayNames in
  if bool_decide (length (networking.HTTPRoute.Match http) = 0%nat) then
    (option_list (translate None), true)
  else
    match catchAllMatch http ≫= (λ m, translate (Some m)) with
    | Some r => ([r], true)
    | None => (omap (λ m, translate (Some m)) (networking.HTTPRoute.Match http), false)
    end.

(** The loop over [vs.Http]. *)
Fixpoint routesOfRules (settings : features.t) (node : model.Proxy)
    (push : option model.PushContext) (virtualService : model.Config)
    (serviceRegistry : gmap string model.Service) (listenPort : Z)
    (gatewayNames : gmap string bool) (rules : list networking.HTTPRoute)
    (out : list route.Route) : list route.Route :=
  match rules with
  | [] => out
  | http :: rules' =>
      let '(routes, break) :=
        routesOfRule settings node push virtualService serviceRegistry listenPort
          gatewayNames http in
      if break then out ++ routes
      else routesOfRules settings node push virtualService serviceRegistry listenPort
             gatewayNames rules' (out ++ routes)
  end.

(** [BuildHTTPRoutesForVirtualService]: the two results of the Go
    function, the routes (nil is the empty list) and the error. *)
Definition BuildHTTPRoutesForVirtualService (settings : features.t) (node : model.Proxy)
    (push : option model.PushContext) (virtualService : model.Config)
    (serviceRegistry : gmap string model.Service) (listenPort : Z)
    (gatewayNames : gmap string bool) : list route.Route * option error :=
  match model.Config.Spec virtualService with
  | model.Spec_VirtualService vs =>
      let out :=
        routesOfRules settings node push virtualService serviceRegistry listenPort
          gatewayNames (networking.VirtualService.Http vs) [] in
      if bool_decide (length out = 0%nat) then ([], Some ErrNoRoutesMatched)
      else (out, None)
  | _ => ([], Some (ErrNotVirtualService virtualService))
  end.

(** ** Default routes *)

(** The name of a route generated in the absence of a virtual service. *)
Definition DefaultRouteName : string := "default".

(** [ptypes.DurationProto(0)]. *)
Definition notimeout : duration.Duration :=
  {| duration.Seconds := 0; duration.Nanos := 0 |}.

(** [BuildDefaultHTTPInboundRoute]. *)
Definition BuildDefaultHTTPInboundRoute (node : model.Proxy) (clusterName operation : string)
    : route.Route :=
  {| route.Route.Name := DefaultRouteName;
     route.Route.Match := translateRouteMatch None node;
     route.Route.Action :=
       Some (route.Route_Route
               {| route.RouteAction.ClusterSpecifier :=
                    Some (route.RouteAction_Cluster clusterName);
                  route.RouteAction.Cors := None;
                  route.RouteAction.RetryPolicy := None;
                  route.RouteAction.Timeout := Some notimeout;
                  route.RouteAction.MaxGrpcTimeout := Some notimeout;
                  route.RouteAction.PrefixRewrite := "";
                  route.RouteAction.HostRewriteSpecifier := None;
                  route.RouteAction.RequestMirrorPolicies := [];
                  route.RouteAction.HashPolicy := [] |});
     route.Route.Metadata := None;
     route.Route.Decorator := Some {| route.Decorator.Operation := operation |};
     route.Route.TypedPerFilterConfig := ∅;
     route.Route.RequestHeadersToAdd := [];
     route.Route.ResponseHeadersToAdd := [];
     route.Route.RequestHeadersToRemove := [];
     route.Route.ResponseHeadersToRemove := [] |}.

(** An assignment through [r.GetRoute()]: the route action of [r] becomes
    [f] of it.  The package assigns this way only to routes that forward. *)
Definition updateRoute (f : route.RouteAction → route.RouteAction) (r : route.Route)
    : route.Route :=
  {| route.Route.Name := route.Route.Name r;
     route.Route.Match := route.Route.Match r;
     route.Route.Action :=
       match route.Route.Action r with
       | Some (route.Route_Route action) => Some (route.Route_Route (f action))
       | other => other
       end;
     route.Route.Metadata := route.Route.Metadata r;
     route.Route.Decorator := route.Route.Decorator r;
     route.Route.TypedPerFilterConfig := route.Route.TypedPerFilterConfig r;
     route.Route.RequestHeadersToAdd := route.Route.RequestHeadersToAdd r;
     route.Route.ResponseHeadersToAdd := route.Route.ResponseHeadersToAdd r;
     route.Route.RequestHeadersToRemove := route.Route.RequestHeadersToRemove r;
     route.Route.ResponseHeadersToRemove := route.Route.ResponseHeadersToRemove r |}.

(** [action.RetryPolicy = retryPolicy]. *)
Definition setRetryPolicy (retryPolicy : option retry.RetryPolicy)
    (action : route.RouteAction) : route.RouteAction :=
  {| route.RouteAction.ClusterSpecifier := route.RouteAction.ClusterSpecifier action;
     route.RouteAction.Cors := route.RouteAction.Cors action;
     route.RouteAction.RetryPolicy := retryPolicy;
     route.RouteAction.Timeout := route.RouteAction.Timeout action;
     route.RouteAction.MaxGrpcTimeout := route.RouteAction.MaxGrpcTimeout action;
     route.RouteAction.PrefixRewrite := route.RouteAction.PrefixRewrite action;
     route.RouteAction.HostRewriteSpecifier := route.RouteAction.HostRewriteSpecifier action;
     route.RouteAction.RequestMirrorPolicies :=
       route.RouteAction.RequestMirrorPolicies action;
     route.RouteAction.HashPolicy := route.RouteAction.HashPolicy action |}.

(** [action.HashPolicy = hashPolicy]. *)
Definition setHashPolicy (hashPolicy : list route.RouteAction_HashPolicy)
    (action : route.RouteAction) : route.RouteAction :=
  {| route.RouteAction.ClusterSpecifier := route.RouteAction.ClusterSpecifier action;
     route.RouteAction.Cors := route.RouteAction.Cors action;
     route.RouteAction.RetryPolicy := route.RouteAction.RetryPolicy action;
     route.RouteAction.Timeout := route.RouteAction.Timeout action;
     route.RouteAction.MaxGrpcTimeout := route.RouteAction.MaxGrpcTimeout action;
     route.RouteAction.PrefixRewrite := route.RouteAction.PrefixRewrite action;
     route.RouteAction.HostRewriteSpecifier := route.RouteAction.HostRewriteSpecifier action;
     route.RouteAction.RequestMirrorPolicies :=
       route.RouteAction.RequestMirrorPolicies action;
     route.RouteAction.HashPolicy := hashPolicy |}.

(** [BuildDefaultHTTPOutboundRoute]: the inbound route with the default
    retry policy. *)
Definition BuildDefaultHTTPOutboundRoute (node : model.Proxy)
    (clusterName operation : string) : route.Route :=
  updateRoute (setRetryPolicy (Some retry.DefaultPolicy))
    (BuildDefaultHTTPInboundRoute node clusterName operation).

(** [traceOperation]: ["%s:%d/*"]. *)
Definition traceOperation (host : string) (port : Z) : string :=
  host +:+ ":" +:+ Itoa port +:+ "/*".

(** [getHashPolicyByService]: the consistent hash of the host, replaced by
    that of the first port-level setting for the port of the service. *)
Definition getHashPolicyByService (node : model.Proxy) (push : option model.PushContext)
    (svc : model.Service) (port : model.Port) : option route.RouteAction_HashPolicy :=
  match push with
  | None => None
  | Some push =>
      match model.PushContext.DestinationRule push node svc with
      | None => None
      | Some rule =>
          let trafficPolicy := networking.DestinationRule.TrafficPolicy rule in
          let consistentHash :=
            networking.GetConsistentHash
              (trafficPolicy ≫= networking.TrafficPolicy.LoadBalancer) in
          let portLevelSettings :=
            from_option networking.TrafficPolicy.PortLevelSettings [] trafficPolicy in
          let consistentHash :=
            match List.find (λ setting,
                               bool_decide
                                 (networking.GetNumber
                                    (networking.TrafficPolicy_PortTrafficPolicy.Port setting)
                                  = model.Port.Port port)) portLevelSettings with
            | Some setting =>
                networking.GetConsistentHash
                  (networking.TrafficPolicy_PortTrafficPolicy.LoadBalancer setting)
            | None => consistentHash
            end in
          consistentHashToHashPolicy consistentHash
      end
  end.

(** ** Virtual hosts of a sidecar *)

(** [VirtualHostWrapper]: the routes of one listener port. *)
Module VirtualHostWrapper.
Record t := {
  Port : Z;
  Services : list model.Service;
  VirtualServiceHosts : list string;
  Routes : list route.Route
}.
End VirtualHostWrapper.

(** The functions that build the virtual hosts call into packages that are
    outside this file; what they call is taken as given:
    - [IsWildCarded h] is [host.Name(h).IsWildCarded()];
    - [Matches svcHost h] is [svcHost.Matches(h)];
    - [IsHTTPOrSniffed port] is
      [port.Protocol.IsHTTP() || util.IsProtocolSniffingEnabledForPort(port)],
      the protocol of a port being left out of [model.Port];
    - [IstioMeshGateway] is [constants.IstioMeshGateway].
    A [range] over a map visits the entries in the order of [map_to_list];
    a failed type assertion on the spec of a configuration panics, which is
    the result [None]. *)
Section Sidecar.
Context (IsWildCarded : string → bool) (Matches : string → string → bool)
  (IsHTTPOrSniffed : model.Port → bool) (IstioMeshGateway : string).

(** The first loop of [separateVSHostsAndServices], over the hosts of the
    rule: the plain hosts, the services found and the wildcard hosts kept
    for later. *)
Definition separateVSHostsAndServices_exact (serviceRegistry : gmap string model.Service)
    (acc : list string * list model.Service * list string) (hostname : string)
    : list string * list model.Service * list string :=
  let '(hosts, servicesInVirtualService, wchosts) := acc in
  if negb (IsWildCarded hostname) then
    match serviceRegistry !! hostname with
    | Some svc => (hosts, servicesInVirtualService ++ [svc], wchosts)
    | None => (hosts ++ [hostname], servicesInVirtualService, wchosts)
    end
  else (hosts, servicesInVirtualService, wchosts ++ [hostname]).

(** The second loop, over the wildcard hosts, with its inner loop over the
    registry. *)
Definition separateVSHostsAndServices_wildcard (serviceRegistry : gmap string model.Service)
    (acc : list string * list model.Service) (hostname : string)
    : list string * list model.Service :=
  let '(hosts, servicesInVirtualService) := acc in
  let '(servicesInVirtualService, foundSvcMatch) :=
    foldl (λ '(servicesInVirtualService, foundSvcMatch) '(svcHost, svc),
             if Matches svcHost hostname
             then (servicesInVirtualService ++ [svc], true)
             else (servicesInVirtualService, foundSvcMatch))
          (servicesInVirtualService, false) (map_to_list serviceRegistry) in
  if negb foundSvcMatch then (hosts ++ [hostname], servicesInVirtualService)
  else (hosts, servicesInVirtualService).

(** [separateVSHostsAndServices]: the hosts of the virtual service that are
    not in the registry, and the services of those that are. *)
Definition separateVSHostsAndServices (virtualService : model.Config)
    (serviceRegistry : gmap string model.Service)
    : option (list string * list model.Service) :=
  match model.Config.Spec virtualService with
  | model.Spec_VirtualService rule =>
      let '(hosts, servicesInVirtualService, wchosts) :=
        foldl (separateVSHostsAndServices_exact serviceRegistry) ([], [], [])
              (networking.VirtualService.Hosts rule) in
      Some (foldl (separateVSHostsAndServices_wildcard serviceRegistry)
                  (hosts, servicesInVirtualService) wchosts)
  | _ => None
  end.

(** The grouping loop of [buildSidecarVirtualHostsForVirtualService]:
    [serviceByPort[port.Port] = append(serviceByPort[port.Port], svc)] for
    every HTTP port of every service. *)
Definition groupByPort (services : list model.Service) : gmap Z (list model.Service) :=
  foldl (λ serviceByPort svc,
           foldl (λ serviceByPort port,
                    if IsHTTPOrSniffed port then
                      <[ model.Port.Port port :=
                           default [] (serviceByPort !! model.Port.Port port) ++ [svc] ]>
                        serviceByPort
                    else serviceByPort)
                 serviceByPort (model.Service.Ports svc))
        ∅ services.

(** [buildSidecarVirtualHostsForVirtualService]. *)
Definition buildSidecarVirtualHostsForVirtualService (settings : features.t)
    (node : model.Proxy) (push : option model.PushContext) (virtualService : model.Config)
    (serviceRegistry : gmap string model.Service) (listenPort : Z)
    : option (list VirtualHostWrapper.t) :=
  match separateVSHostsAndServices virtualService serviceRegistry with
  | None => None
  | Some (hosts, servicesInVirtualService) =>
      let serviceByPort := groupByPort servicesInVirtualService in
      let serviceByPort :=
        if bool_decide (size serviceByPort = 0%nat) then <[ 80 := [] ]> serviceByPort
        else serviceByPort in
      let meshGateway : gmap string bool := {[ IstioMeshGateway := true ]} in
      let '(routes, err) :=
        BuildHTTPRoutesForVirtualService settings node push virtualService
          serviceRegistry listenPort meshGateway in
      if bool_decide (err ≠ None) || bool_decide (length routes = 0%nat) then Some []
      else
        Some ((λ '(port, portServices),
                 {| VirtualHostWrapper.Port := port;
                    VirtualHostWrapper.Services := portServices;
                    VirtualHostWrapper.VirtualServiceHosts := hosts;
                    VirtualHostWrapper.Routes := routes |})
                <$> map_to_list serviceByPort)
  end.

(** The virtual host that
    [BuildSidecarVirtualHostsFromConfigAndRegistry] adds for one port of a
    service without virtual service. *)
Definition defaultVirtualHost (node : model.Proxy) (push : option model.PushContext)
    (svc : model.Service) (port : model.Port) : VirtualHostWrapper.t :=
  let cluster :=
    model.BuildSubsetKey model.TrafficDirectionOutbound "" (model.Service.Hostname svc)
      (model.Port.Port port) in
  let traceOperation := traceOperation (model.Service.Hostname svc) (model.Port.Port port) in
  let httpRoute := BuildDefaultHTTPOutboundRoute node cluster traceOperation in
  let httpRoute :=
    match getHashPolicyByService node push svc port with
    | Some hashPolicy => updateRoute (setHashPolicy [hashPolicy]) httpRoute
    | None => httpRoute
    end in
  {| VirtualHostWrapper.Port := model.Port.Port port;
     VirtualHostWrapper.Services := [svc];
     VirtualHostWrapper.VirtualServiceHosts := [];
     VirtualHostWrapper.Routes := [httpRoute] |}.

(** The services of the registry that no virtual host serves: every key,
    less the host names of the services of [out]. *)
Definition missingServices (serviceRegistry : gmap string model.Service)
    (out : list VirtualHostWrapper.t) : gset string :=
  foldl (λ missing wrapper,
           foldl (λ missing service, missing ∖ {[ model.Service.Hostname service ]})
                 missing (VirtualHostWrapper.Services wrapper))
        (dom serviceRegistry) out.

(** [BuildSidecarVirtualHostsFromConfigAndRegistry]: the virtual hosts of
    the virtual services, then a default virtual host for every HTTP port
    of every service they leave out. *)
Definition BuildSidecarVirtualHostsFromConfigAndRegistry (settings : features.t)
    (node : model.Proxy) (push : option model.PushContext)
    (serviceRegistry : gmap string model.Service) (virtualServices : list model.Config)
    (listenPort : Z) : option (list VirtualHostWrapper.t) :=
  out ← foldl (λ out virtualService,
                 out ← out;
                 wrappers ← buildSidecarVirtualHostsForVirtualService settings node push
                              virtualService serviceRegistry listenPort;
                 Some (out ++ wrappers))
              (Some []) virtualServices;
  let missing := missingServices serviceRegistry out in
  Some (out
        ++ concat ((λ fqdn,
                      match serviceRegistry !! fqdn with
                      | Some svc =>
                          defaultVirtualHost node push svc
                            <$> filter (λ port, IsHTTPOrSniffed port = true)
                                       (model.Service.Ports svc)
                      | None => []
                      end) <$> elements missing)).
End Sidecar.

(** * Definitions used in the statements *)

(** ** Predicates and values of the statements *)

(** The header key of an entry, if it has one. *)
Definition entryKey (e : option core.HeaderValueOption) : option string :=
  core.HeaderValue.Key <$> (e ≫= core.HeaderValueOption.Header).

(** "Strictly before" in the order of [SortHeaderValueOption.Less]. *)
Definition keyBefore (a b : option core.HeaderValueOption) : Prop :=
  SortHeaderValueOption_Less a b = true.

(** The source-label and source-namespace filter of a match block admits
    the proxy. *)
Definition sourceLabelsAdmit (m : networking.HTTPMatchRequest) (node : model.Proxy) : bool :=
  labels.IsSupersetOf (model.NodeMetadata.Labels (model.Proxy.Metadata node))
                      (networking.HTTPMatchRequest.SourceLabels m)
  && (bool_decide (networking.HTTPMatchRequest.SourceNamespace m = "")
      || bool_decide (networking.HTTPMatchRequest.SourceNamespace m
                      = model.NodeMetadata.Namespace (model.Proxy.Metadata node))).

(** Some gateway listed in the match block is one of the proxy's. *)
Definition gatewayHeld (m : networking.HTTPMatchRequest) (gatewayNames : gmap string bool)
    : bool :=
  existsb (λ g, default false (gatewayNames !! g)) (networking.HTTPMatchRequest.Gateways m).

(** The match block names a port, and it is not the listening port. *)
Definition portDiffers (m : networking.HTTPMatchRequest) (port : Z) : bool :=
  negb (bool_decide (networking.HTTPMatchRequest.Port m = 0))
  && negb (bool_decide (networking.HTTPMatchRequest.Port m = uint32 port)).

(** What the loop over [in.Route] appends to [weighted] for one
    destination. *)
Definition survivingCluster (port : Z) (serviceRegistry : gmap string model.Service)
    (i : networking.HTTPRoute) (dst : networking.HTTPRouteDestination)
    : option route.WeightedCluster_ClusterWeight :=
  if decide (networking.HTTPRouteDestination.Weight dst = 0) then
    if decide (length (networking.HTTPRoute.Route i) = 1%nat)
    then Some (clusterWeight dst 100 port serviceRegistry) else None
  else Some (clusterWeight dst (uint32 (networking.HTTPRouteDestination.Weight dst))
               port serviceRegistry).

(** The mirror policy of [translateRoute] at the runtime fraction
    [fraction]. *)
Definition mirrorPolicy (port : Z) (serviceRegistry : gmap string model.Service)
    (mirror : networking.Destination) (fraction : xdstype.FractionalPercent)
    : route.RouteAction_RequestMirrorPolicy :=
  {| route.RouteAction_RequestMirrorPolicy.Cluster :=
       GetDestinationCluster mirror
         (serviceRegistry !! networking.Destination.Host mirror) port;
     route.RouteAction_RequestMirrorPolicy.RuntimeFraction :=
       Some {| core.RuntimeFractionalPercent.DefaultValue := Some fraction |};
     route.RouteAction_RequestMirrorPolicy.TraceSampled := Some false |}.



(** ** Inputs of the examples *)

(** The headers specification [{set: {b: 2, a: 1}, add: {c: 3}}]. *)
Definition headers_set_b_a_add_c : networking.Headers_HeaderOperations :=
  {| networking.Headers_HeaderOperations.Set_ := {[ "b" := "2"; "a" := "1" ]};
     networking.Headers_HeaderOperations.Add := {[ "c" := "3" ]};
     networking.Headers_HeaderOperations.Remove := [] |}.

(** A match block with the given URI predicate, header predicates,
    destination port, source labels and gateways, and nothing else. *)
Definition matchBlock (uri : option networking.StringMatch)
    (headers : gmap string (option networking.StringMatch)) (port : Z)
    (sourceLabels : gmap string string) (gateways : list string)
    : networking.HTTPMatchRequest :=
  {| networking.HTTPMatchRequest.Name := "";
     networking.HTTPMatchRequest.Uri := uri;
     networking.HTTPMatchRequest.Scheme := None;
     networking.HTTPMatchRequest.Method := None;
     networking.HTTPMatchRequest.Authority := None;
     networking.HTTPMatchRequest.Headers := headers;
     networking.HTTPMatchRequest.Port := port;
     networking.HTTPMatchRequest.SourceLabels := sourceLabels;
     networking.HTTPMatchRequest.Gateways := gateways;
     networking.HTTPMatchRequest.QueryParams := ∅;
     networking.HTTPMatchRequest.IgnoreUriCase := false;
     networking.HTTPMatchRequest.WithoutHeaders := ∅;
     networking.HTTPMatchRequest.SourceNamespace := "" |}.

(** The match block [{}]. *)
Definition emptyMatch : networking.HTTPMatchRequest := matchBlock None ∅ 0 ∅ [].

(** The match block [{uri: {prefix: "/"}}]. *)
Definition rootPrefixMatch : networking.HTTPMatchRequest :=
  matchBlock
    (Some {| networking.StringMatch.MatchType := Some (networking.StringMatch_Prefix "/") |})
    ∅ 0 ∅ [].

(** The match block [{headers: {foo: {exact: "bar"}}}]. *)
Definition fooBarMatch : networking.HTTPMatchRequest :=
  matchBlock None
    {[ "foo" := Some {| networking.StringMatch.MatchType :=
                          Some (networking.StringMatch_Exact "bar") |} ]}
    0 ∅ [].

(** A destination [host] with the given weight. *)
Definition weightedDestination (host : string) (weight : Z)
    : networking.HTTPRouteDestination :=
  {| networking.HTTPRouteDestination.Destination :=
       {| networking.Destination.Host := host;
          networking.Destination.Subset := "";
          networking.Destination.Port := None |};
     networking.HTTPRouteDestination.Weight := weight;
     networking.HTTPRouteDestination.Headers := None |}.

(** A forwarding rule with the given match blocks and destinations. *)
Definition forwardRule (matches : list networking.HTTPMatchRequest)
    (destinations : list networking.HTTPRouteDestination) : networking.HTTPRoute :=
  {| networking.HTTPRoute.Name := "rule";
     networking.HTTPRoute.Match := matches;
     networking.HTTPRoute.Route := destinations;
     networking.HTTPRoute.Redirect := None;
     networking.HTTPRoute.Rewrite := None;
     networking.HTTPRoute.Timeout := None;
     networking.HTTPRoute.Retries := None;
     networking.HTTPRoute.Fault := None;
     networking.HTTPRoute.Mirror := None;
     networking.HTTPRoute.MirrorPercent := None;
     networking.HTTPRoute.MirrorPercentage := None;
     networking.HTTPRoute.CorsPolicy := None;
     networking.HTTPRoute.Headers := None |}.

(** A rule that forwards to [reviews] and mirrors to [reviews-v2], with
    the given [MirrorPercent] and [MirrorPercentage]. *)
Definition mirroringRule (mirrorPercent : option Z)
    (mirrorPercentage : option networking.Percent) : networking.HTTPRoute :=
  {| networking.HTTPRoute.Name := "rule";
     networking.HTTPRoute.Match := [rootPrefixMatch];
     networking.HTTPRoute.Route := [weightedDestination "reviews" 100];
     networking.HTTPRoute.Redirect := None;
     networking.HTTPRoute.Rewrite := None;
     networking.HTTPRoute.Timeout := None;
     networking.HTTPRoute.Retries := None;
     networking.HTTPRoute.Fault := None;
     networking.HTTPRoute.Mirror :=
       Some (networking.HTTPRouteDestination.Destination
               (weightedDestination "reviews-v2" 0));
     networking.HTTPRoute.MirrorPercent := mirrorPercent;
     networking.HTTPRoute.MirrorPercentage := mirrorPercentage;
     networking.HTTPRoute.CorsPolicy := None;
     networking.HTTPRoute.Headers := None |}.

(** A virtual service for [reviews] with the given rules. *)
Definition virtualServiceOf (rules : list networking.HTTPRoute) : model.Config :=
  {| model.Config.ConfigMeta :=
       {| model.ConfigMeta.Name := "reviews-route";
          model.ConfigMeta.Namespace := "default" |};
     model.Config.Spec :=
       model.Spec_VirtualService
         {| networking.VirtualService.Hosts := ["reviews"];
            networking.VirtualService.Gateways := [];
            networking.VirtualService.Http := rules |} |}.

(** A proxy with the given labels in namespace [default]. *)
Definition proxyLabelled (proxyLabels : gmap string string) : model.Proxy :=
  {| model.Proxy.Metadata :=
       {| model.NodeMetadata.Labels := proxyLabels;
          model.NodeMetadata.Namespace := "default" |} |}.

(** No default request timeout is configured. *)
Definition noDefaultTimeout : features.t :=
  {| features.DefaultRequestTimeout := None |}.

(** The gateway names of a sidecar: the mesh gateway alone. *)
Definition meshGateway : gmap string bool := {[ "mesh" := true ]}.

(** ** Routes of the examples *)

(** A route with the given name and path specifier and nothing else. *)
Definition pathRoute (name : string) (path : route.RouteMatch_PathSpecifier) : route.Route :=
  {| route.Route.Name := name;
     route.Route.Match :=
       {| route.RouteMatch.PathSpecifier := Some path;
          route.RouteMatch.CaseSensitive := None;
          route.RouteMatch.Headers := [];
          route.RouteMatch.QueryParameters := [] |};
     route.Route.Action := None;
     route.Route.Metadata := None;
     route.Route.Decorator := None;
     route.Route.TypedPerFilterConfig := ∅;
     route.Route.RequestHeadersToAdd := [];
     route.Route.ResponseHeadersToAdd := [];
     route.Route.RequestHeadersToRemove := [];
     route.Route.ResponseHeadersToRemove := [] |}.

(** The matcher of the header predicate [foo = bar]. *)
Definition fooBarMatcher : route.HeaderMatcher :=
  {| route.HeaderMatcher.Name := "foo";
     route.HeaderMatcher.HeaderMatchSpecifier := Some (route.HeaderMatcher_ExactMatch "bar");
     route.HeaderMatcher.InvertMatch := false |}.

(** The route that a forwarding rule named [rule] of the virtual service
    [reviews-route], with the single destination [reviews], gives on port
    80 under a match block without a URI predicate or with the root prefix:
    [headers] are the header matchers of the block and [mirrorPolicies] the
    mirror policies of the rule. *)
Definition reviewsRouteMirroring (headers : list route.HeaderMatcher)
    (mirrorPolicies : list route.RouteAction_RequestMirrorPolicy) : route.Route :=
  {| route.Route.Name := "rule";
     route.Route.Match :=
       {| route.RouteMatch.PathSpecifier := Some (route.RouteMatch_Prefix "/");
          route.RouteMatch.CaseSensitive := Some true;
          route.RouteMatch.Headers := headers;
          route.RouteMatch.QueryParameters := [] |};
     route.Route.Action :=
       Some (route.Route_Route
               {| route.RouteAction.ClusterSpecifier :=
                    Some (route.RouteAction_Cluster "outbound|80||reviews");
                  route.RouteAction.Cors := None;
                  route.RouteAction.RetryPolicy := Some (retry.ConvertPolicy None);
                  route.RouteAction.Timeout := None;
                  route.RouteAction.MaxGrpcTimeout := None;
                  route.RouteAction.PrefixRewrite := "";
                  route.RouteAction.HostRewriteSpecifier := None;
                  route.RouteAction.RequestMirrorPolicies := mirrorPolicies;
                  route.RouteAction.HashPolicy := [] |});
     route.Route.Metadata :=
       Some (util.BuildConfigInfoMetadata
               {| model.ConfigMeta.Name := "reviews-route";
                  model.ConfigMeta.Namespace := "default" |});
     route.Route.Decorator := Some {| route.Decorator.Operation := "reviews:80/*" |};
     route.Route.TypedPerFilterConfig := ∅;
     route.Route.RequestHeadersToAdd := [];
     route.Route.ResponseHeadersToAdd := [];
     route.Route.RequestHeadersToRemove := [];
     route.Route.ResponseHeadersToRemove := [] |}.

(** The same route for a rule that does not mirror. *)
Definition reviewsRoute (headers : list route.HeaderMatcher) : route.Route :=
  reviewsRouteMirroring headers [].

(** ** Further predicates *)

(** An optional field that is not set. *)
Definition unset {A : Type} (field : option A) : bool :=
  match field with
  | None => true
  | Some _ => false
  end.

(** A match block that constrains nothing but, at most, the URI, and whose
    URI predicate is absent, empty, the prefix ["/"] or the regex ["*"]. *)
Definition unconstrained (m : networking.HTTPMatchRequest) : bool :=
  match networking.HTTPMatchRequest.Uri m ≫= networking.StringMatch.MatchType with
  | None => true
  | Some (networking.StringMatch_Prefix p) => bool_decide (p = "/")
  | Some (networking.StringMatch_Regex r) => bool_decide (r = "*")
  | Some (networking.StringMatch_Exact _) => false
  end
  && bool_decide (size (networking.HTTPMatchRequest.Headers m) = 0%nat)
  && bool_decide (size (networking.HTTPMatchRequest.WithoutHeaders m) = 0%nat)
  && unset (networking.HTTPMatchRequest.Method m)
  && unset (networking.HTTPMatchRequest.Authority m)
  && unset (networking.HTTPMatchRequest.Scheme m)
  && bool_decide (size (networking.HTTPMatchRequest.QueryParams m) = 0%nat).

(** The match blocks under which a rule is translated: nil when the rule
    has none, else each of its own. *)
Definition matchOf (http : networking.HTTPRoute)
    (match_ : option networking.HTTPMatchRequest) : Prop :=
  match match_ with
  | None => networking.HTTPRoute.Match http = []
  | Some m => m ∈ networking.HTTPRoute.Match http
  end.

(** The matchers that [translateRouteMatch] appends after sorting, for the
    method, the authority and the scheme of the match block. *)
Definition pseudoHeaderMatchers (m : networking.HTTPMatchRequest) (node : model.Proxy)
    : list route.HeaderMatcher :=
  from_option (λ sm, [translateHeaderMatch HeaderMethod (Some sm) node]) []
    (networking.HTTPMatchRequest.Method m)
  ++ from_option (λ sm, [translateHeaderMatch HeaderAuthority (Some sm) node]) []
       (networking.HTTPMatchRequest.Authority m)
  ++ from_option (λ sm, [translateHeaderMatch HeaderScheme (Some sm) node]) []
       (networking.HTTPMatchRequest.Scheme m).

(** The matchers of the entries of [Headers] and, inverted, of
    [WithoutHeaders], before they are sorted. *)
Definition mapHeaderMatchers (m : networking.HTTPMatchRequest) (node : model.Proxy)
    : list route.HeaderMatcher :=
  ((λ kv, translateHeaderMatch kv.1 kv.2 node)
     <$> map_to_list (networking.HTTPMatchRequest.Headers m))
  ++ ((λ kv, invert (translateHeaderMatch kv.1 kv.2 node))
        <$> map_to_list (networking.HTTPMatchRequest.WithoutHeaders m)).

(** [a] does not come after [b] in the order of the header names. *)
Definition nameNotAfter (a b : route.HeaderMatcher) : Prop :=
  string_lt (route.HeaderMatcher.Name b) (route.HeaderMatcher.Name a) = false.

(** The rule [i] without what only a forwarding rule uses: destinations,
    rewrite, timeout, retries, mirror and CORS policy. *)
Definition redirectOnly (i : networking.HTTPRoute) : networking.HTTPRoute :=
  {| networking.HTTPRoute.Name := networking.HTTPRoute.Name i;
     networking.HTTPRoute.Match := networking.HTTPRoute.Match i;
     networking.HTTPRoute.Route := [];
     networking.HTTPRoute.Redirect := networking.HTTPRoute.Redirect i;
     networking.HTTPRoute.Rewrite := None;
     networking.HTTPRoute.Timeout := None;
     networking.HTTPRoute.Retries := None;
     networking.HTTPRoute.Fault := networking.HTTPRoute.Fault i;
     networking.HTTPRoute.Mirror := None;
     networking.HTTPRoute.MirrorPercent := None;
     networking.HTTPRoute.MirrorPercentage := None;
     networking.HTTPRoute.CorsPolicy := None;
     networking.HTTPRoute.Headers := networking.HTTPRoute.Headers i |}.

(** The loop over the destinations of rule [i] keeps [dst]: its weight is
    not 0, or it is the only destination. *)
Definition keptDestination (i : networking.HTTPRoute)
    (dst : networking.HTTPRouteDestination) : bool :=
  negb (bool_decide (networking.HTTPRouteDestination.Weight dst = 0))
  || bool_decide (length (networking.HTTPRoute.Route i) = 1%nat).

(** The hash policy that the loop looks up for a destination it keeps: in
    the namespace of the service of the destination host, if the registry
    has one. *)
Definition destinationHashPolicy (push : option model.PushContext) (node : model.Proxy)
    (serviceRegistry : gmap string model.Service) (dst : networking.HTTPRouteDestination)
    : option route.RouteAction_HashPolicy :=
  getHashPolicy push node dst
    (from_option (λ svc, model.ServiceAttributes.Namespace (model.Service.Attributes svc)) ""
       (serviceRegistry
          !! networking.Destination.Host (networking.HTTPRouteDestination.Destination dst))).

(** ** Hosts and services of a virtual service *)

Section SidecarPredicates.
Context (IsWildCarded : string → bool) (Matches : string → string → bool)
  (IsHTTPOrSniffed : model.Port → bool).

(** The service of a host that is no wildcard and is a key of the
    registry. *)
Definition exactService (serviceRegistry : gmap string model.Service) (hostname : string)
    : option model.Service :=
  if IsWildCarded hostname then None else serviceRegistry !! hostname.

(** A host that is no wildcard and is no key of the registry. *)
Definition plainHost (serviceRegistry : gmap string model.Service) (hostname : string)
    : bool :=
  negb (IsWildCarded hostname) && unset (serviceRegistry !! hostname).

(** The services of the registry whose key matches [hostname], in the
    order in which the registry is ranged over. *)
Definition matchingServices (serviceRegistry : gmap string model.Service)
    (hostname : string) : list model.Service :=
  snd <$> filter (λ kv, Matches kv.1 hostname = true) (map_to_list serviceRegistry).

(** Some key of the registry matches [hostname]. *)
Definition matchesSomeService (serviceRegistry : gmap string model.Service)
    (hostname : string) : bool :=
  existsb (λ kv, Matches kv.1 hostname) (map_to_list serviceRegistry).

(** The service has an HTTP port with the number [port]. *)
Definition servesHTTPOn (port : Z) (svc : model.Service) : Prop :=
  ∃ p, p ∈ model.Service.Ports svc ∧ IsHTTPOrSniffed p = true ∧ model.Port.Port p = port.

(** The services that have an HTTP port with the number [port], in the
    order of [services], each once for every such port it has. *)
Definition servicesOn (port : Z) (services : list model.Service) : list model.Service :=
  concat ((λ svc,
             (λ _, svc)
               <$> filter (λ p, IsHTTPOrSniffed p = true ∧ model.Port.Port p = port)
                          (model.Service.Ports svc))
            <$> services).

(** The default virtual hosts of the service filed under [fqdn]: one for
    each of its HTTP ports, in the order of the ports. *)
Definition defaultVirtualHosts (node : model.Proxy) (push : option model.PushContext)
    (serviceRegistry : gmap string model.Service) (fqdn : string)
    : list VirtualHostWrapper.t :=
  match serviceRegistry !! fqdn with
  | Some svc =>
      defaultVirtualHost node push svc
        <$> filter (λ port, IsHTTPOrSniffed port = true) (model.Service.Ports svc)
  | None => []
  end.
End SidecarPredicates.

(** Every service of the registry is filed under its own host name. *)
Definition keyedByHostname (serviceRegistry : gmap string model.Service) : Prop :=
  ∀ fqdn svc, serviceRegistry !! fqdn = Some svc → model.Service.Hostname svc = fqdn.

(** ** Inputs of the sidecar examples *)

(** [host.Name.IsWildCarded]: the name starts with [*]. *)
Definition startsWithStar (hostname : string) : bool := String.prefix "*" hostname.

(** A service with one HTTP port. *)
Definition httpService (hostname : string) (port : Z) : model.Service :=
  {| model.Service.Hostname := hostname;
     model.Service.Ports := [ {| model.Port.Name := "http"; model.Port.Port := port |} ];
     model.Service.Attributes := {| model.ServiceAttributes.Namespace := "default" |} |}.

(** A registry with the services [reviews], on port 80, and [ratings], on
    port 9080. *)
Definition reviewsAndRatings : gmap string model.Service :=
  {[ "reviews" := httpService "reviews" 80; "ratings" := httpService "ratings" 9080 ]}.

(** A destination rule for [ratings]: a consistent hash on a header for the
    host, and a port-level setting for port 9080 without consistent hash. *)
Definition ratingsDestinationRule : networking.DestinationRule :=
  {| networking.DestinationRule.Host := "ratings";
     networking.DestinationRule.TrafficPolicy :=
       Some {| networking.TrafficPolicy.LoadBalancer :=
                 Some {| networking.LoadBalancerSettings.LbPolicy :=
                           Some (networking.LoadBalancerSettings_ConsistentHash
                                   (Some {| networking.LoadBalancerSettings_ConsistentHashLB.HashKey :=
                                              Some (networking.LoadBalancerSettings_ConsistentHashLB_HttpHeaderName
                                                      "x-user");
                                            networking.LoadBalancerSettings_ConsistentHashLB.MinimumRingSize :=
                                              0 |})) |};
               networking.TrafficPolicy.PortLevelSettings :=
                 [ {| networking.TrafficPolicy_PortTrafficPolicy.Port :=
                        Some {| networking.PortSelector.Number := 9080 |};
                      networking.TrafficPolicy_PortTrafficPolicy.LoadBalancer := None |} ] |};
     networking.DestinationRule.Subsets := [] |}.

(** A push context in which that rule applies to every service. *)
Definition ratingsPushContext : model.PushContext :=
  {| model.PushContext.DestinationRule := λ _ _, Some ratingsDestinationRule |}.

(** The match block [{uri: {prefix: "/"}, method: {exact: "GET"}}]. *)
Definition rootPrefixGetMatch : networking.HTTPMatchRequest :=
  {| networking.HTTPMatchRequest.Name := "";
     networking.HTTPMatchRequest.Uri :=
       Some {| networking.StringMatch.MatchType := Some (networking.StringMatch_Prefix "/") |};
     networking.HTTPMatchRequest.Scheme := None;
     networking.HTTPMatchRequest.Method :=
       Some {| networking.StringMatch.MatchType := Some (networking.StringMatch_Exact "GET") |};
     networking.HTTPMatchRequest.Authority := None;
     networking.HTTPMatchRequest.Headers := ∅;
     networking.HTTPMatchRequest.Port := 0;
     networking.HTTPMatchRequest.SourceLabels := ∅;
     networking.HTTPMatchRequest.Gateways := [];
     networking.HTTPMatchRequest.QueryParams := ∅;
     networking.HTTPMatchRequest.IgnoreUriCase := false;
     networking.HTTPMatchRequest.WithoutHeaders := ∅;
     networking.HTTPMatchRequest.SourceNamespace := "" |}.

(** ** Consistent hashes of a destination rule *)

(** The consistent hash of the load balancer of the host. *)
Definition hostConsistentHash (rule : networking.DestinationRule)
    : option networking.LoadBalancerSettings_ConsistentHashLB :=
  networking.GetConsistentHash
    (networking.DestinationRule.TrafficPolicy rule ≫= networking.TrafficPolicy.LoadBalancer).

(** The consistent hash of the load balancer of the first subset named
    [name]. *)
Definition subsetConsistentHash (rule : networking.DestinationRule) (name : string)
    : option networking.LoadBalancerSettings_ConsistentHashLB :=
  List.find (λ subset, bool_decide (networking.Subset.Name subset = name))
            (networking.DestinationRule.Subsets rule)
  ≫= λ subset,
       networking.GetConsistentHash
         (networking.Subset.TrafficPolicy subset ≫= networking.TrafficPolicy.LoadBalancer).

(** A destination [host] with the given weight that adds the request
    header [key: value]. *)
Definition taggedDestination (host : string) (weight : Z) (key value : string)
    : networking.HTTPRouteDestination :=
  {| networking.HTTPRouteDestination.Destination :=
       {| networking.Destination.Host := host;
          networking.Destination.Subset := "";
          networking.Destination.Port := None |};
     networking.HTTPRouteDestination.Weight := weight;
     networking.HTTPRouteDestination.Headers :=
       Some {| networking.Headers.Request :=
                 Some {| networking.Headers_HeaderOperations.Set_ := ∅;
                         networking.Headers_HeaderOperations.Add := {[ key := value ]};
                         networking.Headers_HeaderOperations.Remove := [] |};
               networking.Headers.Response := None |} |}.

(** A rule that forwards to [reviews] with the given redirect, mirror
    destination and fault. *)
Definition reviewsRule (redirect : option networking.HTTPRedirect)
    (mirror : option networking.Destination) (fault : option networking.HTTPFaultInjection)
    : networking.HTTPRoute :=
  {| networking.HTTPRoute.Name := "rule";
     networking.HTTPRoute.Match := [];
     networking.HTTPRoute.Route := [weightedDestination "reviews" 100];
     networking.HTTPRoute.Redirect := redirect;
     networking.HTTPRoute.Rewrite := None;
     networking.HTTPRoute.Timeout := None;
     networking.HTTPRoute.Retries := None;
     networking.HTTPRoute.Fault := fault;
     networking.HTTPRoute.Mirror := mirror;
     networking.HTTPRoute.MirrorPercent := None;
     networking.HTTPRoute.MirrorPercentage := None;
     networking.HTTPRoute.CorsPolicy := None;
     networking.HTTPRoute.Headers := None |}.


(** * Properties *)

(** ** The order of Go strings *)

Lemma string_lt_irrefl (a : string) : string_lt a a = false.
Proof.
  unfold string_lt.
  pose proof (proj2 (String_as_OT.cmp_eq a a) eq_refl) as Heq.
  unfold String_as_OT.cmp in Heq. by rewrite Heq.
Qed.

Lemma string_lt_trans (a b c : string) :
  string_lt a b = true → string_lt b c = true → string_lt a c = true.
Proof.
  unfold string_lt.
  destruct (String.compare a b) eqn:Hab; try done.
  destruct (String.compare b c) eqn:Hbc; try done.
  intros _ _.
  apply (proj1 (String_as_OT.cmp_lt a b)) in Hab.
  apply (proj1 (String_as_OT.cmp_lt b c)) in Hbc.
  pose proof (String_as_OT.lt_trans _ _ _ Hab Hbc) as Hac.
  apply (proj2 (String_as_OT.cmp_lt a c)) in Hac.
  unfold String_as_OT.cmp in Hac. by rewrite Hac.
Qed.

Lemma string_lt_asym (a b : string) :
  string_lt a b = true → string_lt b a = false.
Proof.
  unfold string_lt. rewrite (String.compare_antisym a b).
  by destruct (String.compare b a).
Qed.

Lemma string_lt_connex (a b : string) :
  a ≠ b → string_lt a b = false → string_lt b a = true.
Proof.
  unfold string_lt. intros Hne.
  rewrite (String.compare_antisym a b).
  destruct (String.compare b a) eqn:Hba; try done.
  apply String.compare_eq_iff in Hba. congruence.
Qed.

(** ** [sort.Stable] *)

Section SortStableFacts.
Context {A : Type} (less : A → A → bool).

Lemma insert_Stable_Permutation (x : A) (l : list A) :
  insert_Stable less x l ≡ₚ x :: l.
Proof.
  induction l as [|y l IH]; simpl; [done|].
  destruct (less y x); [|done].
  rewrite IH. apply Permutation_swap.
Qed.

Lemma sort_Stable_Permutation (l : list A) : sort_Stable less l ≡ₚ l.
Proof.
  induction l as [|x l IH]; simpl; [done|].
  by rewrite insert_Stable_Permutation, IH.
Qed.

(** Inserting into a list sorted for [less], when [x] is comparable with
    every element it does not move past. *)
Lemma insert_Stable_StronglySorted (x : A) (l : list A) :
  Transitive (λ a b, less a b = true) →
  StronglySorted (λ a b, less a b = true) l →
  Forall (λ y, less y x = false → less x y = true) l →
  StronglySorted (λ a b, less a b = true) (insert_Stable less x l).
Proof.
  intros Htrans Hsorted Hcmp.
  induction Hsorted as [|y l Hsorted IH Hy]; simpl.
  { repeat constructor. }
  apply Forall_cons in Hcmp as [Hyx Hcmp].
  destruct (less y x) eqn:Hless.
  - constructor; [by apply IH|].
    rewrite insert_Stable_Permutation. by constructor.
  - specialize (Hyx eq_refl).
    constructor; [by constructor|].
    constructor; [done|].
    eapply Forall_impl; [exact Hy|]. intros z Hz. exact (Htrans x y z Hyx Hz).
Qed.

(** Sorting a list whose elements are pairwise comparable gives a strictly
    increasing list. *)
Lemma sort_Stable_StronglySorted (l : list A) :
  Transitive (λ a b, less a b = true) →
  ForallOrdPairs (λ x y, less y x = false → less x y = true) l →
  StronglySorted (λ a b, less a b = true) (sort_Stable less l).
Proof.
  intros Htrans Hpairs.
  induction Hpairs as [|x l Hx Hpairs IH]; simpl; [constructor|].
  apply insert_Stable_StronglySorted; [done..|].
  by rewrite sort_Stable_Permutation.
Qed.

(** The sort is stable: within a class of elements that [less] does not
    order, the input order is kept. *)
Lemma insert_Stable_filter (class : A → bool) (x : A) (l : list A) :
  (∀ a b, less a b = true → class b = true → class a = false) →
  filter class (insert_Stable less x l) = filter class (x :: l).
Proof.
  intros Hclass. induction l as [|y l IH]; simpl; [done|].
  destruct (less y x) eqn:Hless; [|done].
  rewrite filter_cons, IH, !filter_cons.
  destruct (class x) eqn:Hx; simpl.
  - by rewrite (Hclass _ _ Hless Hx).
  - by destruct (class y).
Qed.

Lemma sort_Stable_filter (class : A → bool) (l : list A) :
  (∀ a b, less a b = true → class b = true → class a = false) →
  filter class (sort_Stable less l) = filter class l.
Proof.
  intros Hclass. induction l as [|x l IH]; simpl; [done|].
  rewrite insert_Stable_filter by done.
  by rewrite !filter_cons, IH.
Qed.

(** Elements above everything ([top]) end up last, in their input order. *)
Lemma insert_Stable_app (x : A) (l1 l2 : list A) :
  Forall (λ y, less y x = false) l2 →
  insert_Stable less x (l1 ++ l2) = insert_Stable less x l1 ++ l2.
Proof.
  intros Hl2. induction l1 as [|y l1 IH]; simpl.
  - destruct Hl2 as [|y l2 Hy _]; simpl; [done|]. by rewrite Hy.
  - destruct (less y x); [by rewrite IH|done].
Qed.

Lemma insert_Stable_last (x : A) (l : list A) :
  Forall (λ y, less y x = true) l → insert_Stable less x l = l ++ [x].
Proof.
  induction 1 as [|y l Hy _ IH]; simpl; [done|]. by rewrite Hy, IH.
Qed.

Lemma sort_Stable_top_last (top : A → bool) (l : list A) :
  (∀ a b, top a = true → less a b = false) →
  (∀ a b, top a = false → top b = true → less a b = true) →
  sort_Stable less l
  = sort_Stable less (filter (λ a, negb (top a)) l) ++ filter top l.
Proof.
  intros Htop Hbelow. induction l as [|x l IH]; simpl; [done|].
  rewrite !filter_cons. destruct (top x) eqn:Hx; simpl.
  - rewrite IH.
    rewrite insert_Stable_app.
    2:{ apply Forall_forall. intros y [Hy _]%list_elem_of_filter.
        apply Htop. by apply Is_true_true. }
    rewrite insert_Stable_last.
    2:{ apply Forall_forall. intros y Hy.
        rewrite sort_Stable_Permutation in Hy.
        apply list_elem_of_filter in Hy as [Hy _].
        apply Hbelow; [|done]. by destruct (top y). }
    by rewrite <- app_assoc.
  - rewrite IH at 1. apply insert_Stable_app.
    apply Forall_forall. intros y [Hy _]%list_elem_of_filter.
    apply Htop. by apply Is_true_true.
Qed.
End SortStableFacts.

(** ** Header mutation lists *)

Lemma Less_entryKey (a b : option core.HeaderValueOption) :
  SortHeaderValueOption_Less a b
  = match entryKey a, entryKey b with
    | None, _ => false
    | Some _, None => true
    | Some ka, Some kb => string_lt ka kb
    end.
Proof.
  unfold SortHeaderValueOption_Less, entryKey.
  destruct (a ≫= core.HeaderValueOption.Header); simpl; [|done].
  by destruct (b ≫= core.HeaderValueOption.Header).
Qed.

#[local] Instance keyBefore_trans : Transitive keyBefore.
Proof.
  intros a b c. unfold keyBefore. rewrite !Less_entryKey.
  destruct (entryKey a), (entryKey b), (entryKey c); try done.
  apply string_lt_trans.
Qed.

#[local] Instance keyBefore_antisym : AntiSymm (=) keyBefore.
Proof.
  intros a b. unfold keyBefore. rewrite !Less_entryKey.
  destruct (entryKey a), (entryKey b); try done.
  intros H1 H2. apply string_lt_asym in H1. congruence.
Qed.

(** Entries built from map entries with distinct keys are pairwise
    ordered by [Less]. *)
Lemma headerValueOption_pairs (appendFlag : bool) (visited : list (string * string)) :
  NoDup visited.*1 →
  ForallOrdPairs
    (λ x y, SortHeaderValueOption_Less y x = false → SortHeaderValueOption_Less x y = true)
    (headerValueOption appendFlag <$> visited).
Proof.
  induction visited as [|[k v] visited IH]; simpl; [constructor|].
  intros [Hk Hnodup]%NoDup_cons. constructor; [|by apply IH].
  apply Forall_fmap, Forall_forall. intros [k' v'] Hin. simpl.
  unfold SortHeaderValueOption_Less. simpl.
  apply string_lt_connex. intros Heq. apply Hk.
  apply list_elem_of_fmap. exists (k', v'). split; [by simpl|done].
Qed.

Lemma translateAppendHeaders_visiting_Permutation (visited : list (string * string))
    (appendFlag : bool) :
  translateAppendHeaders_visiting visited appendFlag
  ≡ₚ headerValueOption appendFlag <$> visited.
Proof.
  unfold translateAppendHeaders_visiting. case_bool_decide as Hlen.
  - by destruct visited.
  - apply sort_Stable_Permutation.
Qed.

Lemma translateAppendHeaders_visiting_sorted (visited : list (string * string))
    (appendFlag : bool) :
  NoDup visited.*1 →
  StronglySorted keyBefore (translateAppendHeaders_visiting visited appendFlag).
Proof.
  intros Hnodup. unfold translateAppendHeaders_visiting. case_bool_decide.
  - constructor.
  - apply sort_Stable_StronglySorted; [apply keyBefore_trans|].
    by apply headerValueOption_pairs.
Qed.

(** The result does not depend on the order in which the map is visited. *)
Lemma translateAppendHeaders_visiting_any (headers : gmap string string)
    (visited : list (string * string)) (appendFlag : bool) :
  range_of headers visited →
  translateAppendHeaders_visiting visited appendFlag
  = translateAppendHeaders headers appendFlag.
Proof.
  unfold range_of. intros Hperm.
  assert (NoDup (map_to_list headers).*1) as Hnodup by apply NoDup_fst_map_to_list.
  apply (StronglySorted_unique keyBefore).
  - apply translateAppendHeaders_visiting_sorted. by rewrite Hperm.
  - by apply translateAppendHeaders_visiting_sorted.
  - unfold translateAppendHeaders.
    rewrite !translateAppendHeaders_visiting_Permutation. by rewrite Hperm.
Qed.

Lemma Less_top_never_before (a b : option core.HeaderValueOption) :
  bool_decide (entryKey a = None) = true → SortHeaderValueOption_Less a b = false.
Proof.
  rewrite Less_entryKey. intros Ha%bool_decide_eq_true. by rewrite Ha.
Qed.

Lemma Less_before_top (a b : option core.HeaderValueOption) :
  bool_decide (entryKey a = None) = false →
  bool_decide (entryKey b = None) = true →
  SortHeaderValueOption_Less a b = true.
Proof.
  rewrite Less_entryKey.
  intros Ha%bool_decide_eq_false Hb%bool_decide_eq_true. rewrite Hb.
  by destruct (entryKey a).
Qed.

Lemma Less_separates_keys (k : option string) (a b : option core.HeaderValueOption) :
  SortHeaderValueOption_Less a b = true →
  bool_decide (entryKey b = k) = true → bool_decide (entryKey a = k) = false.
Proof.
  rewrite Less_entryKey. intros Hless Hb%bool_decide_eq_true.
  apply bool_decide_eq_false. intros Ha. rewrite Ha, Hb in Hless.
  destruct k as [k|]; [|done]. by rewrite string_lt_irrefl in Hless.
Qed.

(** C4 (amended): for every headers specification and every order in which
    the maps are visited, "set" entries become add-operations with
    append=false and "add" entries add-operations with append=true; each of
    the two lists is sorted by header key on its own, and the sorted "set"
    list is followed by the sorted "add" list; the remove lists are copied
    in order.  The sort is stable and puts entries without a key last.
    [{set: {b: 2, a: 1}, add: {c: 3}}] gives the order a, b, c whatever the
    visiting order. *)
Theorem translateHeadersOperations_sorted_then_concatenated
    (headers : option networking.Headers)
    (reqSet reqAdd respSet respAdd : list (string * string)) :
  range_of (networking.GetSet (networking.GetRequest headers)) reqSet →
  range_of (networking.GetAdd (networking.GetRequest headers)) reqAdd →
  range_of (networking.GetSet (networking.GetResponse headers)) respSet →
  range_of (networking.GetAdd (networking.GetResponse headers)) respAdd →
  let operations := translateHeadersOperations headers in
  let sorted (visited : list (string * string)) (appendFlag : bool) :=
    translateAppendHeaders_visiting visited appendFlag in
  (∀ visited appendFlag,
     NoDup visited.*1 →
     sorted visited appendFlag ≡ₚ headerValueOption appendFlag <$> visited
     ∧ StronglySorted keyBefore (sorted visited appendFlag))
  ∧ requestHeadersToAdd operations = sorted reqSet false ++ sorted reqAdd true
  ∧ responseHeadersToAdd operations = sorted respSet false ++ sorted respAdd true
  ∧ requestHeadersToRemove operations
    = networking.GetRemove (networking.GetRequest headers)
  ∧ responseHeadersToRemove operations
    = networking.GetRemove (networking.GetResponse headers)
  ∧ (∀ (l : list (option core.HeaderValueOption)) (k : option string),
       filter (λ e, bool_decide (entryKey e = k)) (sort_Stable SortHeaderValueOption_Less l)
       = filter (λ e, bool_decide (entryKey e = k)) l)
  ∧ (∀ l : list (option core.HeaderValueOption),
       sort_Stable SortHeaderValueOption_Less l
       = sort_Stable SortHeaderValueOption_Less
           (filter (λ e, negb (bool_decide (entryKey e = None))) l)
         ++ filter (λ e, bool_decide (entryKey e = None)) l)
  ∧ (∀ visitedSet visitedAdd,
       range_of (networking.Headers_HeaderOperations.Set_ headers_set_b_a_add_c) visitedSet →
       range_of (networking.Headers_HeaderOperations.Add headers_set_b_a_add_c) visitedAdd →
       sorted visitedSet false ++ sorted visitedAdd true
       = [headerValueOption false ("a", "1"); headerValueOption false ("b", "2");
          headerValueOption true ("c", "3")]).
Proof.
  intros HreqSet HreqAdd HrespSet HrespAdd operations sorted.
  split_and!.
  - intros visited appendFlag Hnodup. split.
    + apply translateAppendHeaders_visiting_Permutation.
    + by apply translateAppendHeaders_visiting_sorted.
  - unfold sorted.
    by rewrite (translateAppendHeaders_visiting_any _ _ _ HreqSet),
      (translateAppendHeaders_visiting_any _ _ _ HreqAdd).
  - unfold sorted.
    by rewrite (translateAppendHeaders_visiting_any _ _ _ HrespSet),
      (translateAppendHeaders_visiting_any _ _ _ HrespAdd).
  - done.
  - done.
  - intros l k. apply sort_Stable_filter. intros a b. apply Less_separates_keys.
  - intros l.
    apply (sort_Stable_top_last _ (λ e, bool_decide (entryKey e = None))).
    + apply Less_top_never_before.
    + apply Less_before_top.
  - intros visitedSet visitedAdd Hset Hadd. unfold sorted.
    rewrite (translateAppendHeaders_visiting_any _ _ _ Hset),
      (translateAppendHeaders_visiting_any _ _ _ Hadd).
    by vm_compute.
Qed.

(** The theorem at [{set: {b: 2, a: 1}, add: {c: 3}}] on the request side,
    the "set" map visited as b, a. *)
Lemma translateHeadersOperations_sorted_then_concatenated_witness :
  let headers :=
    Some {| networking.Headers.Request := Some headers_set_b_a_add_c;
            networking.Headers.Response := None |} in
  range_of (networking.GetSet (networking.GetRequest headers)) [("b", "2"); ("a", "1")]
  ∧ range_of (networking.GetAdd (networking.GetRequest headers)) [("c", "3")]
  ∧ range_of (networking.GetSet (networking.GetResponse headers)) []
  ∧ range_of (networking.GetAdd (networking.GetResponse headers)) []
  ∧ requestHeadersToAdd (translateHeadersOperations headers)
    = translateAppendHeaders_visiting [("b", "2"); ("a", "1")] false
      ++ translateAppendHeaders_visiting [("c", "3")] true.
Proof.
  intros headers.
  assert (range_of (networking.GetSet (networking.GetRequest headers))
            [("b", "2"); ("a", "1")]) as H1.
  { unfold range_of. vm_compute. apply Permutation_swap. }
  assert (range_of (networking.GetAdd (networking.GetRequest headers)) [("c", "3")]) as H2.
  { unfold range_of. vm_compute. reflexivity. }
  assert (range_of (networking.GetSet (networking.GetResponse headers)) []) as H3.
  { unfold range_of. vm_compute. reflexivity. }
  assert (range_of (networking.GetAdd (networking.GetResponse headers)) []) as H4.
  { unfold range_of. vm_compute. reflexivity. }
  split_and!; [exact H1|exact H2|exact H3|exact H4|].
  exact (proj1 (proj2
    (translateHeadersOperations_sorted_then_concatenated headers _ _ _ _ H1 H2 H3 H4))).
Defined.

(** C4, as stated, fails: with [{set: {b: 2}, add: {a: 1}}] the "set" entry
    b comes before the "add" entry a, so the concatenated list is not
    sorted by header key. *)
Lemma translateHeadersOperations_concatenation_not_sorted :
  let operations :=
    translateHeadersOperations
      (Some {| networking.Headers.Request :=
                 Some {| networking.Headers_HeaderOperations.Set_ := {[ "b" := "2" ]};
                         networking.Headers_HeaderOperations.Add := {[ "a" := "1" ]};
                         networking.Headers_HeaderOperations.Remove := [] |};
               networking.Headers.Response := None |}) in
  requestHeadersToAdd operations
  = [headerValueOption false ("b", "2"); headerValueOption true ("a", "1")]
  ∧ sort_Stable SortHeaderValueOption_Less (requestHeadersToAdd operations)
    = [headerValueOption true ("a", "1"); headerValueOption false ("b", "2")]
  ∧ ¬ StronglySorted (λ x y, SortHeaderValueOption_Less y x = false)
        (requestHeadersToAdd operations).
Proof.
  split_and!; [by vm_compute..|].
  intros Hsorted. vm_compute in Hsorted.
  apply StronglySorted_inv in Hsorted as [_ Hfirst].
  apply Forall_cons in Hfirst as [Hfirst _]. vm_compute in Hfirst. done.
Qed.

(** ** Header matches *)

(** C10: for every header name, an absent (nil) header predicate is
    translated to a "header present" matcher, the same matcher that the
    wildcard regex ["*"] gives; it is neither rejected nor matched
    exactly. *)
Theorem translateHeaderMatch_nil_is_present (name : string) (node : model.Proxy) :
  translateHeaderMatch name None node
  = {| route.HeaderMatcher.Name := name;
       route.HeaderMatcher.HeaderMatchSpecifier :=
         Some (route.HeaderMatcher_PresentMatch true);
       route.HeaderMatcher.InvertMatch := false |}
  ∧ translateHeaderMatch name None node
    = translateHeaderMatch name
        (Some {| networking.StringMatch.MatchType :=
                   Some (networking.StringMatch_Regex "*") |}) node.
Proof. split; reflexivity. Qed.

(** ** Combination of route lists *)

(** The two accumulators after the inner loop has run over [routes]. *)
Lemma CombineVHostRoutes_inner (routes allroutes catchAllRoutes : list route.Route) :
  foldl (λ '(allroutes, catchAllRoutes) r,
           if isCatchAllRoute r then (allroutes, catchAllRoutes ++ [r])
           else (allroutes ++ [r], catchAllRoutes))
        (allroutes, catchAllRoutes) routes
  = (allroutes ++ filter (λ r, isCatchAllRoute r = false) routes,
     catchAllRoutes ++ filter (λ r, isCatchAllRoute r = true) routes).
Proof.
  revert allroutes catchAllRoutes.
  induction routes as [|r routes IH]; intros allroutes catchAllRoutes; simpl.
  { by rewrite !app_nil_r. }
  rewrite !filter_cons.
  destruct (isCatchAllRoute r) eqn:Hr; rewrite IH; simpl.
  - by rewrite <- app_assoc.
  - by rewrite <- app_assoc.
Qed.

Lemma CombineVHostRoutes_outer (routeSets : list (list route.Route))
    (allroutes catchAllRoutes : list route.Route) :
  foldl (λ acc routes,
           foldl (λ '(allroutes, catchAllRoutes) r,
                    if isCatchAllRoute r then (allroutes, catchAllRoutes ++ [r])
                    else (allroutes ++ [r], catchAllRoutes))
                 acc routes)
        (allroutes, catchAllRoutes) routeSets
  = (allroutes ++ filter (λ r, isCatchAllRoute r = false) (concat routeSets),
     catchAllRoutes ++ filter (λ r, isCatchAllRoute r = true) (concat routeSets)).
Proof.
  revert allroutes catchAllRoutes.
  induction routeSets as [|routes routeSets IH]; intros allroutes catchAllRoutes; simpl.
  { by rewrite !app_nil_r. }
  rewrite CombineVHostRoutes_inner, IH.
  by rewrite !filter_app, !app_assoc.
Qed.

Lemma CombineVHostRoutes_filter (routeSets : list (list route.Route)) :
  CombineVHostRoutes routeSets
  = filter (λ r, isCatchAllRoute r = false) (concat routeSets)
    ++ filter (λ r, isCatchAllRoute r = true) (concat routeSets).
Proof. unfold CombineVHostRoutes. by rewrite CombineVHostRoutes_outer. Qed.

(** C2: the combiner returns the non-catch-all routes of all input lists,
    in the order of the lists and of the routes within them, followed by
    the catch-all routes in that same order; combining [A; B] and [C], with
    only B a catch-all, gives [A; C; B]. *)
Theorem CombineVHostRoutes_stable_partition (routeSets : list (list route.Route)) :
  CombineVHostRoutes routeSets
  = filter (λ r, isCatchAllRoute r = false) (concat routeSets)
    ++ filter (λ r, isCatchAllRoute r = true) (concat routeSets)
  ∧ (let A := pathRoute "A" (route.RouteMatch_Prefix "/a") in
     let B := pathRoute "B" (route.RouteMatch_Prefix "/") in
     let C := pathRoute "C" (route.RouteMatch_Path "/c") in
     isCatchAllRoute A = false ∧ isCatchAllRoute B = true ∧ isCatchAllRoute C = false
     ∧ CombineVHostRoutes [[A; B]; [C]] = [A; C; B]).
Proof.
  split.
  - apply CombineVHostRoutes_filter.
  - by vm_compute.
Qed.

(** X1: in the combined list no catch-all route comes before a route that is
    not one. *)
Lemma CombineVHostRoutes_catch_all_last (routeSets : list (list route.Route))
    (i j : nat) (r r' : route.Route) :
  CombineVHostRoutes routeSets !! i = Some r →
  CombineVHostRoutes routeSets !! j = Some r' →
  isCatchAllRoute r = true → isCatchAllRoute r' = false → (j < i)%nat.
Proof.
  rewrite CombineVHostRoutes_filter.
  set (front := filter _ _). set (back := filter _ _).
  intros Hi Hj Hr Hr'.
  assert (length front ≤ i)%nat as Hge.
  { destruct (decide (i < length front)%nat) as [Hlt|]; [|lia].
    rewrite lookup_app_l in Hi by done.
    apply list_elem_of_lookup_2, list_elem_of_filter in Hi as [Hi _]. congruence. }
  assert (j < length front)%nat; [|lia].
  destruct (decide (j < length front)%nat) as [|Hnlt]; [done|].
  rewrite lookup_app_r in Hj by lia.
  apply list_elem_of_lookup_2, list_elem_of_filter in Hj as [Hj _]. congruence.
Qed.

(** ** Translation of a match block: when there is no route *)

Lemma sourceMatchHTTP_Some (m : networking.HTTPMatchRequest) (node : model.Proxy)
    (gatewayNames : gmap string bool) :
  sourceMatchHTTP (Some m) (model.NodeMetadata.Labels (model.Proxy.Metadata node))
    gatewayNames (model.NodeMetadata.Namespace (model.Proxy.Metadata node))
  = match networking.HTTPMatchRequest.Gateways m with
    | [] => sourceLabelsAdmit m node
    | _ :: _ => gatewayHeld m gatewayNames
    end.
Proof.
  unfold sourceMatchHTTP, sourceLabelsAdmit, gatewayHeld.
  destruct (networking.HTTPMatchRequest.Gateways m) as [|g gs]; simpl.
  - by destruct (labels.IsSupersetOf _ _).
  - done.
Qed.

(** A match block without source labels and source namespace admits every
    proxy. *)
Lemma sourceLabelsAdmit_unfiltered (m : networking.HTTPMatchRequest) (node : model.Proxy) :
  networking.HTTPMatchRequest.SourceLabels m = ∅ →
  networking.HTTPMatchRequest.SourceNamespace m = "" →
  sourceLabelsAdmit m node = true.
Proof.
  intros Hlabels Hns. unfold sourceLabelsAdmit, labels.IsSupersetOf.
  rewrite Hlabels, Hns.
  rewrite bool_decide_eq_true_2 by apply map_empty_subseteq. done.
Qed.

(** [translateRoute] returns a route exactly when both filters pass. *)
Lemma translateRoute_is_Some (settings : features.t) (push : option model.PushContext)
    (node : model.Proxy) (i : networking.HTTPRoute)
    (match_ : option networking.HTTPMatchRequest) (port : Z)
    (virtualService : model.Config) (serviceRegistry : gmap string model.Service)
    (gatewayNames : gmap string bool) :
  is_Some (translateRoute settings push node i match_ port virtualService
             serviceRegistry gatewayNames)
  ↔ sourceMatchHTTP match_ (model.NodeMetadata.Labels (model.Proxy.Metadata node))
      gatewayNames (model.NodeMetadata.Namespace (model.Proxy.Metadata node)) = true
    ∧ from_option (λ m, portDiffers m port) false match_ = false.
Proof.
  unfold translateRoute.
  destruct (sourceMatchHTTP _ _ _ _); simpl.
  2:{ split; [by intros [? ?]|by intros [? _]]. }
  replace (match match_ with
           | Some m =>
               negb (bool_decide (networking.HTTPMatchRequest.Port m = 0))
               && negb (bool_decide (networking.HTTPMatchRequest.Port m = uint32 port))
           | None => false
           end)
    with (from_option (λ m, portDiffers m port) false match_) by by destruct match_.
  destruct (from_option _ _ _).
  { split; [by intros [? ?]|by intros [_ ?]]. }
  split; [done|]. intros _.
  destruct (networking.HTTPRoute.Redirect i); [by eexists|].
  destruct (weightedClusters _ _ _ _ _) as [[|w [|w' ws]] hashPolicy]; by eexists.
Qed.

Lemma translateRoute_nil_match (settings : features.t) (push : option model.PushContext)
    (node : model.Proxy) (i : networking.HTTPRoute) (port : Z)
    (virtualService : model.Config) (serviceRegistry : gmap string model.Service)
    (gatewayNames : gmap string bool) :
  is_Some (translateRoute settings push node i None port virtualService
             serviceRegistry gatewayNames).
Proof. by apply translateRoute_is_Some. Qed.

(** C6 (amended): the translation of a match block yields no route if and
    only if its source filter rejects the proxy or it names a destination
    port other than the listening port, where the source filter is the
    gateway list alone when the match lists gateways (no listed gateway is
    one of the proxy's) and the source-label and source-namespace filter
    otherwise.  A match requiring [SourceLabels {env: prod}] on a proxy
    labelled [{env: dev}] gives no route, unless it lists a gateway of the
    proxy. *)
Theorem translateRoute_None_iff (settings : features.t) (push : option model.PushContext)
    (node : model.Proxy) (i : networking.HTTPRoute) (m : networking.HTTPMatchRequest)
    (port : Z) (virtualService : model.Config)
    (serviceRegistry : gmap string model.Service) (gatewayNames : gmap string bool) :
  (translateRoute settings push node i (Some m) port virtualService serviceRegistry
     gatewayNames = None
   ↔ (match networking.HTTPMatchRequest.Gateways m with
      | [] => sourceLabelsAdmit m node = false
      | _ :: _ => gatewayHeld m gatewayNames = false
      end)
     ∨ portDiffers m port = true)
  ∧ (let prodOnly gateways := matchBlock None ∅ 0 {[ "env" := "prod" ]} gateways in
     let dev := proxyLabelled {[ "env" := "dev" ]} in
     translateRoute settings push dev i (Some (prodOnly [])) port virtualService
       serviceRegistry gatewayNames = None
     ∧ ∀ gateways,
         is_Some (translateRoute settings push dev i (Some (prodOnly gateways)) port
                    virtualService serviceRegistry gatewayNames)
         ↔ gatewayHeld (prodOnly gateways) gatewayNames = true).
Proof.
  assert (∀ node m,
    translateRoute settings push node i (Some m) port virtualService serviceRegistry
      gatewayNames = None
    ↔ (match networking.HTTPMatchRequest.Gateways m with
       | [] => sourceLabelsAdmit m node = false
       | _ :: _ => gatewayHeld m gatewayNames = false
       end)
      ∨ portDiffers m port = true) as Hiff.
  { clear node m. intros node m.
    rewrite eq_None_not_Some, translateRoute_is_Some, sourceMatchHTTP_Some. simpl.
    destruct (networking.HTTPMatchRequest.Gateways m);
      [destruct (sourceLabelsAdmit m node)|destruct (gatewayHeld m gatewayNames)];
      destruct (portDiffers m port); intuition congruence. }
  split; [apply Hiff|]. simpl. split.
  - apply Hiff. by left.
  - intros gateways.
    rewrite <- not_eq_None_Some, Hiff.
    destruct gateways as [|g gateways]; [vm_compute; intuition congruence|].
    change (portDiffers _ port) with false.
    destruct (gatewayHeld _ gatewayNames); intuition congruence.
Qed.

(** C6, as stated, fails: a match that lists only a gateway the sidecar
    does not hold, with no source labels, no source namespace and no port,
    gives no route, although its source-label filter admits the proxy and
    its port does not differ. *)
Lemma translateRoute_None_with_admitting_labels :
  let m := matchBlock None ∅ 0 ∅ ["ingress"] in
  let node := proxyLabelled ∅ in
  let i := forwardRule [m] [weightedDestination "reviews" 100] in
  translateRoute noDefaultTimeout None node i (Some m) 80 (virtualServiceOf [i]) ∅
    meshGateway = None
  ∧ sourceLabelsAdmit m node = true
  ∧ gatewayHeld m meshGateway = false
  ∧ portDiffers m 80 = false
  ∧ ¬ (translateRoute noDefaultTimeout None node i (Some m) 80 (virtualServiceOf [i]) ∅
         meshGateway = None
       ↔ (sourceLabelsAdmit m node = false ∧ gatewayHeld m meshGateway = false)
         ∨ portDiffers m 80 = true).
Proof.
  assert (sourceLabelsAdmit (matchBlock None ∅ 0 ∅ ["ingress"]) (proxyLabelled ∅) = true)
    as Hadmit by by vm_compute.
  simpl. split_and!; [by vm_compute|done|by vm_compute|by vm_compute|].
  intros [Hnone _]. rewrite Hadmit in Hnone.
  destruct Hnone as [[? _]|?]; [by vm_compute|done|by vm_compute in *].
Qed.

(** ** Expansion of a rule into routes *)

Section Expansion.
Context (settings : features.t) (node : model.Proxy) (push : option model.PushContext)
  (virtualService : model.Config) (serviceRegistry : gmap string model.Service)
  (listenPort : Z) (gatewayNames : gmap string bool).

#[local] Abbreviation translate http match_ :=
  (translateRoute settings push node http match_ listenPort virtualService
     serviceRegistry gatewayNames).
#[local] Abbreviation ruleRoutes :=
  (routesOfRule settings node push virtualService serviceRegistry listenPort gatewayNames).
#[local] Abbreviation rulesRoutes :=
  (routesOfRules settings node push virtualService serviceRegistry listenPort gatewayNames).

Lemma catchAllMatch_Some (http : networking.HTTPRoute) (m : networking.HTTPMatchRequest) :
  catchAllMatch http = Some m →
  isCatchAllMatch m = true ∧ m ∈ networking.HTTPRoute.Match http.
Proof.
  unfold catchAllMatch. intros Hfind.
  apply find_some in Hfind as [Hin Hm]. split; [done|]. by apply list_elem_of_In.
Qed.

(** A rule that leaves the loop ends the route list. *)
Lemma routesOfRules_break (http : networking.HTTPRoute) (rules : list networking.HTTPRoute)
    (out routes : list route.Route) :
  ruleRoutes http = (routes, true) → rulesRoutes (http :: rules) out = out ++ routes.
Proof. intros Hrule. simpl. by rewrite Hrule. Qed.

Lemma routesOfRule_catch_all (http : networking.HTTPRoute)
    (m : networking.HTTPMatchRequest) (r : route.Route) :
  catchAllMatch http = Some m → translate http (Some m) = Some r →
  ruleRoutes http = ([r], true).
Proof.
  intros Hfind Hr. unfold routesOfRule.
  destruct (catchAllMatch_Some _ _ Hfind) as [_ Hin].
  rewrite bool_decide_eq_false_2.
  2:{ destruct (networking.HTTPRoute.Match http); [by apply elem_of_nil in Hin|done]. }
  rewrite Hfind. simpl. by rewrite Hr.
Qed.

Lemma routesOfRule_no_match (http : networking.HTTPRoute) :
  networking.HTTPRoute.Match http = [] →
  ∃ r, translate http None = Some r ∧ ruleRoutes http = ([r], true).
Proof.
  intros Hmatch.
  destruct (translateRoute_nil_match settings push node http listenPort virtualService
              serviceRegistry gatewayNames) as [r Hr].
  exists r. split; [done|].
  unfold routesOfRule. by rewrite Hmatch, Hr.
Qed.

(** C1 (amended): when the first catch-all match block of a rule, in
    declared order, translates to a route, compiling the rule emits exactly
    that route, none for the other match blocks, and ends the route list.
    A rule with matches [[{headers: foo = bar}; {uri: prefix "/"}]] yields
    exactly one route, the one of the second block. *)
Theorem routesOfRule_first_catch_all (http : networking.HTTPRoute)
    (m : networking.HTTPMatchRequest) (r : route.Route)
    (rules : list networking.HTTPRoute) (out : list route.Route) :
  catchAllMatch http = Some m →
  translateRoute settings push node http (Some m) listenPort virtualService
    serviceRegistry gatewayNames = Some r →
  isCatchAllMatch m = true
  ∧ m ∈ networking.HTTPRoute.Match http
  ∧ routesOfRule settings node push virtualService serviceRegistry listenPort
      gatewayNames http = ([r], true)
  ∧ routesOfRules settings node push virtualService serviceRegistry listenPort
      gatewayNames (http :: rules) out = out ++ [r]
  ∧ (∀ destinations,
       let rule := forwardRule [fooBarMatch; rootPrefixMatch] destinations in
       ∃ r',
         translateRoute settings push node rule (Some rootPrefixMatch) listenPort
           virtualService serviceRegistry gatewayNames = Some r'
         ∧ routesOfRule settings node push virtualService serviceRegistry listenPort
             gatewayNames rule = ([r'], true)
         ∧ routesOfRules settings node push virtualService serviceRegistry listenPort
             gatewayNames [rule] [] = [r']).
Proof.
  intros Hfind Hr.
  destruct (catchAllMatch_Some _ _ Hfind) as [Hm Hin].
  pose proof (routesOfRule_catch_all _ _ _ Hfind Hr) as Hrule.
  split_and!; [done..|by apply routesOfRules_break|].
  intros destinations rule.
  assert (is_Some (translate rule (Some rootPrefixMatch))) as [r' Hr'].
  { apply translateRoute_is_Some. split; [|done].
    rewrite sourceMatchHTTP_Some. apply sourceLabelsAdmit_unfiltered; done. }
  assert (ruleRoutes rule = ([r'], true)) as Hrule'.
  { by apply (routesOfRule_catch_all rule rootPrefixMatch). }
  exists r'. split_and!; [done..|].
  by rewrite (routesOfRules_break _ _ _ _ Hrule').
Qed.

(** Rules that do not leave the loop hand their routes on to the rest of
    the list. *)
Lemma routesOfRules_no_break (earlier rest : list networking.HTTPRoute)
    (out : list route.Route) :
  Forall (λ rule, (ruleRoutes rule).2 = false) earlier →
  rulesRoutes (earlier ++ rest) out
  = rulesRoutes rest (out ++ concat ((λ rule, (ruleRoutes rule).1) <$> earlier)).
Proof.
  intros Hearlier. revert out.
  induction Hearlier as [|rule earlier Hrule _ IH]; intros out; simpl.
  { by rewrite app_nil_r. }
  destruct (ruleRoutes rule) as [routes break] eqn:Hroutes.
  simpl in Hrule. subst break. rewrite IH. by rewrite <- app_assoc.
Qed.

(** C5: a rule without match blocks, met by the loop with the routes [out]
    collected so far, is translated once, with no match block; its one
    route is appended and no later rule adds a route.  For a virtual
    service whose earlier rules do not end the loop, the result is the
    routes of the earlier rules followed by that one route. *)
Theorem routesOfRules_rule_without_match (http : networking.HTTPRoute)
    (earlier rules : list networking.HTTPRoute) (out : list route.Route) :
  networking.HTTPRoute.Match http = [] →
  ∃ r,
    translateRoute settings push node http None listenPort virtualService
      serviceRegistry gatewayNames = Some r
    ∧ routesOfRule settings node push virtualService serviceRegistry listenPort
        gatewayNames http = ([r], true)
    ∧ routesOfRules settings node push virtualService serviceRegistry listenPort
        gatewayNames (http :: rules) out = out ++ [r]
    ∧ ∀ vs,
        model.Config.Spec virtualService = model.Spec_VirtualService vs →
        networking.VirtualService.Http vs = earlier ++ http :: rules →
        Forall (λ rule,
                  (routesOfRule settings node push virtualService serviceRegistry
                     listenPort gatewayNames rule).2 = false) earlier →
        BuildHTTPRoutesForVirtualService settings node push virtualService
          serviceRegistry listenPort gatewayNames
        = (concat ((λ rule,
                      (routesOfRule settings node push virtualService serviceRegistry
                         listenPort gatewayNames rule).1) <$> earlier) ++ [r],
           None).
Proof.
  intros Hmatch.
  destruct (routesOfRule_no_match http Hmatch) as (r & Hr & Hrule).
  exists r. split_and!; [done..|by apply routesOfRules_break|].
  intros vs Hspec Hhttp Hearlier. unfold BuildHTTPRoutesForVirtualService.
  rewrite Hspec, Hhttp, (routesOfRules_no_break _ _ _ Hearlier).
  rewrite (routesOfRules_break _ _ _ _ Hrule). simpl.
  rewrite bool_decide_eq_false_2; [done|].
  rewrite length_app. simpl. lia.
Qed.
End Expansion.

(** The theorem of C1 at the rule
    [[{headers: foo = bar}; {uri: prefix "/"}]]. *)
Lemma routesOfRule_first_catch_all_witness :
  let rule :=
    forwardRule [fooBarMatch; rootPrefixMatch] [weightedDestination "reviews" 100] in
  catchAllMatch rule = Some rootPrefixMatch
  ∧ translateRoute noDefaultTimeout None (proxyLabelled ∅) rule (Some rootPrefixMatch) 80
      (virtualServiceOf [rule]) ∅ meshGateway = Some (reviewsRoute [])
  ∧ routesOfRule noDefaultTimeout (proxyLabelled ∅) None (virtualServiceOf [rule]) ∅ 80
      meshGateway rule = ([reviewsRoute []], true).
Proof.
  intros rule.
  assert (catchAllMatch rule = Some rootPrefixMatch) as H1 by (vm_compute; reflexivity).
  assert (translateRoute noDefaultTimeout None (proxyLabelled ∅) rule (Some rootPrefixMatch)
            80 (virtualServiceOf [rule]) ∅ meshGateway = Some (reviewsRoute [])) as H2
    by (vm_compute; reflexivity).
  split_and!; [exact H1|exact H2|].
  exact (proj1 (proj2 (proj2
    (routesOfRule_first_catch_all noDefaultTimeout (proxyLabelled ∅) None
       (virtualServiceOf [rule]) ∅ 80 meshGateway rule rootPrefixMatch (reviewsRoute [])
       [] [] H1 H2)))).
Defined.

(** C1, as stated, fails in two ways.  The match block [{}] has no URI
    predicate and is not a catch-all, so the rule
    [[{headers: foo = bar}; {}]] yields two routes.  And a rule may hold a
    catch-all block that translates to a route without being the first
    catch-all: when the first one names another port, every block is
    translated and the rule yields a route for the header block too. *)
Lemma routesOfRule_catch_all_two_routes :
  (let rule := forwardRule [fooBarMatch; emptyMatch] [weightedDestination "reviews" 100] in
   isCatchAllMatch emptyMatch = false
   ∧ BuildHTTPRoutesForVirtualService noDefaultTimeout (proxyLabelled ∅) None
       (virtualServiceOf [rule]) ∅ 80 meshGateway
     = ([reviewsRoute [fooBarMatcher]; reviewsRoute []], None))
  ∧ (let otherPort :=
       matchBlock (networking.HTTPMatchRequest.Uri rootPrefixMatch) ∅ 81 ∅ [] in
     let rule :=
       forwardRule [otherPort; fooBarMatch; rootPrefixMatch]
         [weightedDestination "reviews" 100] in
     isCatchAllMatch otherPort = true
     ∧ isCatchAllMatch rootPrefixMatch = true
     ∧ translateRoute noDefaultTimeout None (proxyLabelled ∅) rule (Some rootPrefixMatch)
         80 (virtualServiceOf [rule]) ∅ meshGateway = Some (reviewsRoute [])
     ∧ BuildHTTPRoutesForVirtualService noDefaultTimeout (proxyLabelled ∅) None
         (virtualServiceOf [rule]) ∅ 80 meshGateway
       = ([reviewsRoute [fooBarMatcher]; reviewsRoute []], None)).
Proof. split; simpl; split_and!; by vm_compute. Qed.

(** The theorem of C5 at a virtual service of three rules: one with a
    header match block, one without match blocks, and a later one. *)
Lemma routesOfRules_rule_without_match_witness :
  let first := forwardRule [fooBarMatch] [weightedDestination "reviews" 100] in
  let rule := forwardRule [] [weightedDestination "reviews" 100] in
  let later := forwardRule [fooBarMatch] [weightedDestination "ratings" 100] in
  let virtualService := virtualServiceOf [first; rule; later] in
  networking.HTTPRoute.Match rule = []
  ∧ ∃ r,
      translateRoute noDefaultTimeout None (proxyLabelled ∅) rule None 80 virtualService ∅
        meshGateway = Some r
      ∧ BuildHTTPRoutesForVirtualService noDefaultTimeout (proxyLabelled ∅) None
          virtualService ∅ 80 meshGateway
        = ([reviewsRoute [fooBarMatcher]; r], None).
Proof.
  intros first rule later virtualService.
  assert (networking.HTTPRoute.Match rule = []) as H1 by reflexivity.
  split; [exact H1|].
  destruct (routesOfRules_rule_without_match noDefaultTimeout (proxyLabelled ∅) None
              virtualService ∅ 80 meshGateway rule [first] [later] [] H1)
    as (r & Hr & _ & _ & Hbuild).
  exists r. split; [exact Hr|].
  refine (Hbuild _ eq_refl eq_refl _).
  repeat constructor.
Defined.

(** ** Forwarding: weighted destinations *)

Section Forwarding.
Context (settings : features.t) (push : option model.PushContext) (node : model.Proxy)
  (port : Z) (virtualService : model.Config) (serviceRegistry : gmap string model.Service)
  (gatewayNames : gmap string bool).

#[local] Abbreviation translate i match_ :=
  (translateRoute settings push node i match_ port virtualService serviceRegistry
     gatewayNames).
#[local] Abbreviation weightedOf i := (weightedClusters push node i port serviceRegistry).1.
#[local] Abbreviation hashPoliciesOf i := (weightedClusters push node i port serviceRegistry).2.
#[local] Abbreviation clusterOf dst weight := (clusterWeight dst weight port serviceRegistry).
#[local] Abbreviation survivingOf i := (survivingCluster port serviceRegistry i).

Lemma weightedClusters_body_fold (i : networking.HTTPRoute)
    (destinations : list networking.HTTPRouteDestination)
    (acc : list route.WeightedCluster_ClusterWeight * list route.RouteAction_HashPolicy) :
  (foldl (weightedClusters_body push node i port serviceRegistry) acc destinations).1
  = acc.1 ++ omap (survivingOf i) destinations.
Proof.
  revert acc. induction destinations as [|dst destinations IH]; intros [weighted hashPolicies].
  { simpl. by rewrite app_nil_r. }
  simpl foldl. rewrite IH. simpl omap.
  unfold survivingCluster. change (uint32 100) with 100.
  repeat case_bool_decide; repeat case_decide; try done; simpl;
    by rewrite <- app_assoc.
Qed.

Lemma weightedClusters_omap (i : networking.HTTPRoute) :
  weightedOf i = omap (survivingOf i) (networking.HTTPRoute.Route i).
Proof. unfold weightedClusters. by rewrite weightedClusters_body_fold. Qed.

(** The route of a forwarding rule: its action and its header lists, by
    the number of weighted clusters that the loop has kept. *)
Lemma translateRoute_forward (i : networking.HTTPRoute)
    (match_ : option networking.HTTPMatchRequest) (out : route.Route) :
  networking.HTTPRoute.Redirect i = None →
  translate i match_ = Some out →
  let operations := translateHeadersOperations (networking.HTTPRoute.Headers i) in
  match weightedOf i with
  | [w] =>
      route.Route.Action out
      = Some (route.Route_Route
                (routeAction settings node i port serviceRegistry
                   (Some (route.RouteAction_Cluster
                            (route.WeightedCluster_ClusterWeight.Name w)))
                   (hashPoliciesOf i)))
      ∧ route.Route.RequestHeadersToAdd out
        = requestHeadersToAdd operations
          ++ route.WeightedCluster_ClusterWeight.RequestHeadersToAdd w
      ∧ route.Route.RequestHeadersToRemove out
        = requestHeadersToRemove operations
          ++ route.WeightedCluster_ClusterWeight.RequestHeadersToRemove w
      ∧ route.Route.ResponseHeadersToAdd out
        = responseHeadersToAdd operations
          ++ route.WeightedCluster_ClusterWeight.ResponseHeadersToAdd w
      ∧ route.Route.ResponseHeadersToRemove out
        = responseHeadersToRemove operations
          ++ route.WeightedCluster_ClusterWeight.ResponseHeadersToRemove w
  | weighted =>
      route.Route.Action out
      = Some (route.Route_Route
                (routeAction settings node i port serviceRegistry
                   (Some (route.RouteAction_WeightedClusters
                            {| route.WeightedCluster.Clusters := weighted |}))
                   (hashPoliciesOf i)))
      ∧ route.Route.RequestHeadersToAdd out = requestHeadersToAdd operations
      ∧ route.Route.RequestHeadersToRemove out = requestHeadersToRemove operations
      ∧ route.Route.ResponseHeadersToAdd out = responseHeadersToAdd operations
      ∧ route.Route.ResponseHeadersToRemove out = responseHeadersToRemove operations
  end.
Proof.
  intros Hredirect. unfold translateRoute.
  destruct (sourceMatchHTTP _ _ _ _); simpl; [|done].
  destruct (match match_ with Some _ => _ | None => _ end); [done|].
  rewrite Hredirect.
  destruct (weightedClusters push node i port serviceRegistry)
    as [[|w [|w' weighted]] hashPolicy]; simpl; by intros [= <-].
Qed.

Lemma omap_survivingCluster_several (i : networking.HTTPRoute)
    (destinations : list networking.HTTPRouteDestination) :
  length (networking.HTTPRoute.Route i) ≠ 1%nat →
  omap (survivingOf i) destinations
  = (λ dst, clusterOf dst (uint32 (networking.HTTPRouteDestination.Weight dst)))
      <$> filter (λ dst, networking.HTTPRouteDestination.Weight dst ≠ 0) destinations.
Proof.
  intros Hlen. induction destinations as [|dst destinations IH]; [done|].
  change (omap (survivingOf i) (dst :: destinations))
    with (match survivingOf i dst with
          | Some w => w :: omap (survivingOf i) destinations
          | None => omap (survivingOf i) destinations
          end).
  rewrite filter_cons, IH. unfold survivingCluster.
  repeat case_decide; done.
Qed.

(** The clusters that the loop keeps: one for each kept destination, in
    order, the weight 0 of an only destination replaced by 100. *)
Lemma omap_survivingCluster_kept (i : networking.HTTPRoute)
    (destinations : list networking.HTTPRouteDestination) :
  omap (survivingOf i) destinations
  = (λ dst, clusterOf dst
              (if bool_decide (networking.HTTPRouteDestination.Weight dst = 0)
               then 100 else uint32 (networking.HTTPRouteDestination.Weight dst)))
      <$> filter (λ dst, keptDestination i dst = true) destinations.
Proof.
  induction destinations as [|dst destinations IH]; [done|].
  change (omap (survivingOf i) (dst :: destinations))
    with (match survivingOf i dst with
          | Some w => w :: omap (survivingOf i) destinations
          | None => omap (survivingOf i) destinations
          end).
  rewrite filter_cons, IH. clear IH.
  destruct (keptDestination i dst) eqn:Hkept; unfold keptDestination in Hkept.
  - rewrite decide_True by done. rewrite fmap_cons. unfold survivingCluster.
    destruct (decide (networking.HTTPRouteDestination.Weight dst = 0)) as [Hzero|Hweight].
    + rewrite (bool_decide_eq_true_2 _ Hzero) in Hkept |- *. simpl in Hkept.
      apply bool_decide_eq_true_1 in Hkept. by rewrite decide_True by done.
    + by rewrite (bool_decide_eq_false_2 _ Hweight).
  - rewrite decide_False by done. unfold survivingCluster.
    destruct (decide (networking.HTTPRouteDestination.Weight dst = 0)) as [Hzero|Hweight].
    + rewrite (bool_decide_eq_true_2 _ Hzero) in Hkept. simpl in Hkept.
      apply bool_decide_eq_false_1 in Hkept. by rewrite decide_False by done.
    + by rewrite (bool_decide_eq_false_2 _ Hweight) in Hkept.
Qed.

Lemma weightedClusters_kept (i : networking.HTTPRoute) :
  weightedOf i
  = (λ dst, clusterOf dst
              (if bool_decide (networking.HTTPRouteDestination.Weight dst = 0)
               then 100 else uint32 (networking.HTTPRouteDestination.Weight dst)))
      <$> filter (λ dst, keptDestination i dst = true) (networking.HTTPRoute.Route i).
Proof. rewrite weightedClusters_omap. apply omap_survivingCluster_kept. Qed.

(** With several destinations, the kept ones have their own weight. *)
Lemma keptDestination_several (i : networking.HTTPRoute)
    (kept : list networking.HTTPRouteDestination) :
  filter (λ dst, keptDestination i dst = true) (networking.HTTPRoute.Route i) = kept →
  (2 ≤ length kept)%nat →
  (λ dst, clusterOf dst
            (if bool_decide (networking.HTTPRouteDestination.Weight dst = 0)
             then 100 else uint32 (networking.HTTPRouteDestination.Weight dst)))
    <$> kept
  = (λ dst, clusterOf dst (uint32 (networking.HTTPRouteDestination.Weight dst))) <$> kept.
Proof.
  intros Hkept Hlen. apply Forall_fmap_ext_1, Forall_forall. intros dst Hdst.
  rewrite <- Hkept in Hdst, Hlen.
  apply list_elem_of_filter in Hdst as [Hdst _].
  pose proof (length_filter (λ dst, keptDestination i dst = true)
                (networking.HTTPRoute.Route i)) as Hle.
  unfold keptDestination in Hdst.
  destruct (bool_decide (networking.HTTPRouteDestination.Weight dst = 0)); [|done].
  simpl in Hdst. apply bool_decide_eq_true_1 in Hdst. lia.
Qed.

(** C3: in the loop over the destinations of a forwarding rule, a
    destination of weight 0 is dropped from the weighted-cluster list,
    unless it is the only destination of the rule, and then its weight is
    100; the route that the rule compiles to forwards to the kept
    destinations alone.  A single destination of weight 0 compiles to
    weight 100 and to a route to its cluster; destinations of weights 0 and
    50 compile to one route that forwards to the weight-50 destination
    alone. *)
Theorem weightedClusters_zero_weight (i : networking.HTTPRoute) :
  (∀ dst, networking.HTTPRoute.Route i = [dst] →
          networking.HTTPRouteDestination.Weight dst = 0 →
          (weightedClusters push node i port serviceRegistry).1
          = [clusterWeight dst 100 port serviceRegistry])
  ∧ (∀ dst, networking.HTTPRoute.Route i = [dst] →
            networking.HTTPRouteDestination.Weight dst ≠ 0 →
            (weightedClusters push node i port serviceRegistry).1
            = [clusterWeight dst (uint32 (networking.HTTPRouteDestination.Weight dst))
                 port serviceRegistry])
  ∧ (length (networking.HTTPRoute.Route i) ≠ 1%nat →
     (weightedClusters push node i port serviceRegistry).1
     = (λ dst, clusterWeight dst (uint32 (networking.HTTPRouteDestination.Weight dst))
                 port serviceRegistry)
         <$> filter (λ dst, networking.HTTPRouteDestination.Weight dst ≠ 0)
                    (networking.HTTPRoute.Route i))
  ∧ (∀ match_,
       networking.HTTPRoute.Redirect i = None →
       sourceMatchHTTP match_ (model.NodeMetadata.Labels (model.Proxy.Metadata node))
         gatewayNames (model.NodeMetadata.Namespace (model.Proxy.Metadata node)) = true →
       from_option (λ m, portDiffers m port) false match_ = false →
       ∃ out action,
         translateRoute settings push node i match_ port virtualService serviceRegistry
           gatewayNames = Some out
         ∧ route.GetRoute out = Some action
         ∧ route.RouteAction.ClusterSpecifier action
           = match filter (λ dst, keptDestination i dst = true)
                          (networking.HTTPRoute.Route i) with
             | [dst] =>
                 Some (route.RouteAction_Cluster
                         (GetDestinationCluster
                            (networking.HTTPRouteDestination.Destination dst)
                            (serviceRegistry
                               !! networking.Destination.Host
                                    (networking.HTTPRouteDestination.Destination dst))
                            port))
             | kept =>
                 Some (route.RouteAction_WeightedClusters
                         {| route.WeightedCluster.Clusters :=
                              (λ dst,
                                 clusterWeight dst
                                   (uint32 (networking.HTTPRouteDestination.Weight dst))
                                   port serviceRegistry) <$> kept |})
             end)
  ∧ (∀ matches host,
       let only := weightedDestination host 0 in
       let rule := forwardRule matches [only] in
       (weightedClusters push node rule port serviceRegistry).1
       = [clusterWeight only 100 port serviceRegistry]
       ∧ route.WeightedCluster_ClusterWeight.Weight
           (clusterWeight only 100 port serviceRegistry) = Some 100
       ∧ ∃ out,
           translateRoute settings push node rule None port virtualService
             serviceRegistry gatewayNames = Some out
           ∧ route.RouteAction.ClusterSpecifier <$> route.GetRoute out
             = Some (Some (route.RouteAction_Cluster
                             (GetDestinationCluster
                                (networking.HTTPRouteDestination.Destination only)
                                (serviceRegistry !! host) port))))
  ∧ (∀ matches host0 host50,
       let dropped := weightedDestination host0 0 in
       let kept := weightedDestination host50 50 in
       let rule := forwardRule matches [dropped; kept] in
       (weightedClusters push node rule port serviceRegistry).1
       = [clusterWeight kept 50 port serviceRegistry]
       ∧ (∃ out,
            translateRoute settings push node rule None port virtualService
              serviceRegistry gatewayNames = Some out)
       ∧ ∀ match_ out,
           translateRoute settings push node rule match_ port virtualService
             serviceRegistry gatewayNames = Some out →
           route.RouteAction.ClusterSpecifier <$> route.GetRoute out
           = Some (Some (route.RouteAction_Cluster
                           (GetDestinationCluster
                              (networking.HTTPRouteDestination.Destination kept)
                              (serviceRegistry !! host50) port)))).
Proof.
  split_and!.
  - intros dst Hroute Hweight. rewrite weightedClusters_omap, Hroute. simpl.
    unfold survivingCluster. rewrite Hroute.
    rewrite decide_True by done. by rewrite decide_True by done.
  - intros dst Hroute Hweight. rewrite weightedClusters_omap, Hroute. simpl.
    unfold survivingCluster. by rewrite decide_False by done.
  - intros Hlen. rewrite weightedClusters_omap. by apply omap_survivingCluster_several.
  - intros match_ Hredirect Hsource Hport.
    destruct (proj2 (translateRoute_is_Some settings push node i match_ port
                       virtualService serviceRegistry gatewayNames)
                    (conj Hsource Hport)) as [out Hout].
    pose proof (translateRoute_forward i match_ out Hredirect Hout) as Hforward.
    cbv zeta in Hforward. rewrite weightedClusters_kept in Hforward.
    destruct (filter (λ dst, keptDestination i dst = true)
                     (networking.HTTPRoute.Route i))
      as [|dst [|dst' kept]] eqn:Hkept.
    + destruct Hforward as [Haction _]. eexists out, _.
      split; [done|]. unfold route.GetRoute. rewrite Haction. done.
    + destruct Hforward as [Haction _]. eexists out, _.
      split; [done|]. unfold route.GetRoute. rewrite Haction. done.
    + rewrite (keptDestination_several i _ Hkept) in Hforward by (simpl; lia).
      destruct Hforward as [Haction _]. eexists out, _.
      split; [done|]. unfold route.GetRoute. rewrite Haction. done.
  - intros matches host only rule. split; [by rewrite weightedClusters_omap|].
    split; [done|].
    destruct (translateRoute_nil_match settings push node rule port virtualService
                serviceRegistry gatewayNames) as [out Hout].
    exists out. split; [done|].
    assert (weightedOf rule = [clusterOf only 100]) as Hweighted
      by by rewrite weightedClusters_omap.
    pose proof (translateRoute_forward rule None out eq_refl Hout) as Hforward.
    cbv zeta in Hforward. rewrite Hweighted in Hforward.
    destruct Hforward as [Haction _].
    unfold route.GetRoute. by rewrite Haction.
  - intros matches host0 host50 dropped kept rule.
    assert (weightedOf rule = [clusterOf kept 50]) as Hweighted
      by by rewrite weightedClusters_omap.
    split; [done|]. split; [by apply translateRoute_nil_match|].
    intros match_ out Hout.
    pose proof (translateRoute_forward rule match_ out eq_refl Hout) as Hforward.
    cbv zeta in Hforward. rewrite Hweighted in Hforward.
    destruct Hforward as [Haction _].
    unfold route.GetRoute. by rewrite Haction.
Qed.

(** C7: for a forwarding rule, each kept destination gives one weighted
    cluster, in order, with the cluster name of that destination and the
    header add and remove lists of that destination.  When exactly one
    destination is kept, the cluster specifier of the action is that
    destination's cluster, not a weighted-cluster list, and its header
    lists are appended to the route's own; when two or more are kept, the
    action has the weighted-cluster list, whose entries so carry the header
    lists of their own destinations, and the route keeps its own lists. *)
Theorem translateRoute_cluster_specifier (i : networking.HTTPRoute)
    (match_ : option networking.HTTPMatchRequest) (out : route.Route) :
  networking.HTTPRoute.Redirect i = None →
  translateRoute settings push node i match_ port virtualService serviceRegistry
    gatewayNames = Some out →
  let operations := translateHeadersOperations (networking.HTTPRoute.Headers i) in
  let weighted := (weightedClusters push node i port serviceRegistry).1 in
  let kept :=
    filter (λ dst, keptDestination i dst = true) (networking.HTTPRoute.Route i) in
  let own dst :=
    translateHeadersOperations (networking.HTTPRouteDestination.Headers dst) in
  let clusterName dst :=
    GetDestinationCluster (networking.HTTPRouteDestination.Destination dst)
      (serviceRegistry
         !! networking.Destination.Host (networking.HTTPRouteDestination.Destination dst))
      port in
  ∃ action,
    route.Route.Action out = Some (route.Route_Route action)
    ∧ Forall2 (λ dst w,
                 route.WeightedCluster_ClusterWeight.Name w = clusterName dst
                 ∧ route.WeightedCluster_ClusterWeight.RequestHeadersToAdd w
                   = requestHeadersToAdd (own dst)
                 ∧ route.WeightedCluster_ClusterWeight.RequestHeadersToRemove w
                   = requestHeadersToRemove (own dst)
                 ∧ route.WeightedCluster_ClusterWeight.ResponseHeadersToAdd w
                   = responseHeadersToAdd (own dst)
                 ∧ route.WeightedCluster_ClusterWeight.ResponseHeadersToRemove w
                   = responseHeadersToRemove (own dst))
              kept weighted
    ∧ (∀ dst, kept = [dst] →
         route.RouteAction.ClusterSpecifier action
         = Some (route.RouteAction_Cluster (clusterName dst))
         ∧ route.Route.RequestHeadersToAdd out
           = requestHeadersToAdd operations ++ requestHeadersToAdd (own dst)
         ∧ route.Route.RequestHeadersToRemove out
           = requestHeadersToRemove operations ++ requestHeadersToRemove (own dst)
         ∧ route.Route.ResponseHeadersToAdd out
           = responseHeadersToAdd operations ++ responseHeadersToAdd (own dst)
         ∧ route.Route.ResponseHeadersToRemove out
           = responseHeadersToRemove operations ++ responseHeadersToRemove (own dst))
    ∧ ((2 ≤ length kept)%nat →
         route.RouteAction.ClusterSpecifier action
         = Some (route.RouteAction_WeightedClusters
                   {| route.WeightedCluster.Clusters := weighted |})
         ∧ route.Route.RequestHeadersToAdd out = requestHeadersToAdd operations
         ∧ route.Route.RequestHeadersToRemove out = requestHeadersToRemove operations
         ∧ route.Route.ResponseHeadersToAdd out = responseHeadersToAdd operations
         ∧ route.Route.ResponseHeadersToRemove out = responseHeadersToRemove operations).
Proof.
  intros Hredirect Hout operations weighted kept own clusterName.
  pose proof (translateRoute_forward i match_ out Hredirect Hout) as Hforward.
  cbv zeta in Hforward. fold operations weighted in Hforward.
  assert (weighted
          = (λ dst, clusterOf dst
                      (if bool_decide (networking.HTTPRouteDestination.Weight dst = 0)
                       then 100 else uint32 (networking.HTTPRouteDestination.Weight dst)))
              <$> kept) as Hweighted
    by apply weightedClusters_kept.
  assert (Forall2 (λ dst w,
                     route.WeightedCluster_ClusterWeight.Name w = clusterName dst
                     ∧ route.WeightedCluster_ClusterWeight.RequestHeadersToAdd w
                       = requestHeadersToAdd (own dst)
                     ∧ route.WeightedCluster_ClusterWeight.RequestHeadersToRemove w
                       = requestHeadersToRemove (own dst)
                     ∧ route.WeightedCluster_ClusterWeight.ResponseHeadersToAdd w
                       = responseHeadersToAdd (own dst)
                     ∧ route.WeightedCluster_ClusterWeight.ResponseHeadersToRemove w
                       = responseHeadersToRemove (own dst))
                  kept weighted) as Hentries.
  { rewrite Hweighted. apply Forall2_fmap_r, Forall_Forall2_diag, Forall_forall.
    by intros dst _. }
  clearbody weighted kept. subst weighted.
  destruct kept as [|dst [|dst' kept]].
  - destruct Hforward as [Haction _]. eexists. split; [exact Haction|].
    split; [done|]. split; [done|]. intros Hlen. simpl in Hlen. lia.
  - destruct Hforward as (Haction & Hlists). eexists. split; [exact Haction|].
    split; [done|]. split; [by intros ? [= <-]|]. intros Hlen. simpl in Hlen. lia.
  - destruct Hforward as (Haction & Hlists). eexists. split; [exact Haction|].
    split; [done|]. split; [done|]. intros _. done.
Qed.
End Forwarding.

(** The theorem of C7 at a rule with the single destination [reviews]. *)
Lemma weightedClusters_zero_weight_witness :
  let dropped := weightedDestination "reviews-v1" 0 in
  let kept := weightedDestination "reviews-v2" 50 in
  let rule := forwardRule [rootPrefixMatch] [dropped; kept] in
  ∃ out action,
    translateRoute noDefaultTimeout None (proxyLabelled ∅) rule (Some rootPrefixMatch) 80
      (virtualServiceOf [rule]) ∅ meshGateway = Some out
    ∧ route.GetRoute out = Some action
    ∧ route.RouteAction.ClusterSpecifier action
      = Some (route.RouteAction_Cluster "outbound|80||reviews-v2").
Proof.
  intros dropped kept rule.
  assert (networking.HTTPRoute.Redirect rule = None) as H1 by reflexivity.
  assert (sourceMatchHTTP (Some rootPrefixMatch)
            (model.NodeMetadata.Labels (model.Proxy.Metadata (proxyLabelled ∅)))
            meshGateway
            (model.NodeMetadata.Namespace (model.Proxy.Metadata (proxyLabelled ∅)))
          = true) as H2
    by (vm_compute; reflexivity).
  assert (from_option (λ m, portDiffers m 80) false (Some rootPrefixMatch) = false) as H3
    by (vm_compute; reflexivity).
  destruct (proj1 (proj2 (proj2 (proj2
              (weightedClusters_zero_weight noDefaultTimeout None (proxyLabelled ∅) 80
                 (virtualServiceOf [rule]) ∅ meshGateway rule))))
              (Some rootPrefixMatch) H1 H2 H3)
    as (out & action & Hout & Haction & Hspecifier).
  exists out, action. split_and!; [exact Hout|exact Haction|exact Hspecifier].
Defined.

Lemma translateRoute_cluster_specifier_witness :
  let dropped := taggedDestination "reviews-v1" 0 "x-version" "v1" in
  let kept := taggedDestination "reviews-v2" 50 "x-version" "v2" in
  let rule := forwardRule [rootPrefixMatch] [dropped; kept] in
  networking.HTTPRoute.Redirect rule = None
  ∧ ∃ out,
      translateRoute noDefaultTimeout None (proxyLabelled ∅) rule (Some rootPrefixMatch) 80
        (virtualServiceOf [rule]) ∅ meshGateway = Some out
      ∧ (∃ action,
           route.Route.Action out = Some (route.Route_Route action)
           ∧ route.RouteAction.ClusterSpecifier action
             = Some (route.RouteAction_Cluster "outbound|80||reviews-v2"))
      ∧ route.Route.RequestHeadersToAdd out = [headerValueOption true ("x-version", "v2")].
Proof.
  intros dropped kept rule.
  assert (networking.HTTPRoute.Redirect rule = None) as H1 by reflexivity.
  split; [exact H1|].
  destruct (translateRoute noDefaultTimeout None (proxyLabelled ∅) rule
              (Some rootPrefixMatch) 80 (virtualServiceOf [rule]) ∅ meshGateway)
    as [out|] eqn:H2; [|by vm_compute in H2].
  exists out. split; [reflexivity|].
  destruct (translateRoute_cluster_specifier noDefaultTimeout None (proxyLabelled ∅) 80
              (virtualServiceOf [rule]) ∅ meshGateway rule (Some rootPrefixMatch)
              out H1 H2)
    as (action & Haction & _ & Hsingle & _).
  destruct (Hsingle kept eq_refl) as (Hspecifier & Hadd & _).
  split; [exists action; split; [exact Haction|exact Hspecifier]|exact Hadd].
Defined.

(** ** Mirroring *)

Lemma uint32_int32 (v : Z) : uint32 (int32 v) = uint32 v.
Proof.
  unfold uint32, int32.
  rewrite Zminus_mod_idemp_l. f_equal. lia.
Qed.

(** A percentage equal to zero is not greater than zero. *)
Lemma float64_zero_not_positive (v : float) :
  PrimFloat.eqb v 0%float = true → PrimFloat.ltb 0%float v = false.
Proof.
  rewrite FloatAxioms.eqb_spec, FloatAxioms.ltb_spec.
  change (Prim2SF 0%float) with (S754_zero false).
  destruct (Prim2SF v) as [s|s| |s m e]; unfold SFeqb, SFltb; simpl;
    try discriminate; try reflexivity; destruct s; discriminate.
Qed.

Section Mirroring.
Context (settings : features.t) (push : option model.PushContext) (node : model.Proxy)
  (port : Z) (virtualService : model.Config) (serviceRegistry : gmap string model.Service)
  (gatewayNames : gmap string bool).

Lemma translateRoute_mirror_policies (i : networking.HTTPRoute)
    (match_ : option networking.HTTPMatchRequest) (out : route.Route)
    (mirror : networking.Destination) :
  networking.HTTPRoute.Redirect i = None →
  networking.HTTPRoute.Mirror i = Some mirror →
  translateRoute settings push node i match_ port virtualService serviceRegistry
    gatewayNames = Some out →
  ∃ action,
    route.Route.Action out = Some (route.Route_Route action)
    ∧ route.RouteAction.RequestMirrorPolicies action
      = match mirrorPercent i with
        | Some mp =>
            [ {| route.RouteAction_RequestMirrorPolicy.Cluster :=
                   GetDestinationCluster mirror
                     (serviceRegistry !! networking.Destination.Host mirror) port;
                 route.RouteAction_RequestMirrorPolicy.RuntimeFraction := Some mp;
                 route.RouteAction_RequestMirrorPolicy.TraceSampled := Some false |} ]
        | None => []
        end.
Proof.
  intros Hredirect Hmirror Hout.
  pose proof (translateRoute_forward settings push node port virtualService
                serviceRegistry gatewayNames i match_ out Hredirect Hout) as Hforward.
  cbv zeta in Hforward.
  destruct (weightedClusters push node i port serviceRegistry).1 as [|w [|w' weighted]];
    destruct Hforward as [Haction _]; eexists; (split; [exact Haction|]);
    simpl; by rewrite Hmirror.
Qed.

(** C8 (amended): for a rule without redirect that has a mirror
    destination and translates to a route, an explicit
    mirror percentage greater than 0 attaches a mirror policy at that
    percentage, an explicit percentage equal to 0 attaches none, and no
    percentage at all attaches a policy at 100 percent; [MirrorPercentage]
    is looked at before the older [MirrorPercent]. *)
Theorem translateRoute_mirror (i : networking.HTTPRoute)
    (match_ : option networking.HTTPMatchRequest) (out : route.Route)
    (mirror : networking.Destination) :
  networking.HTTPRoute.Redirect i = None →
  networking.HTTPRoute.Mirror i = Some mirror →
  translateRoute settings push node i match_ port virtualService serviceRegistry
    gatewayNames = Some out →
  ∃ action,
    route.Route.Action out = Some (route.Route_Route action)
    ∧ (∀ p, networking.HTTPRoute.MirrorPercentage i = Some p →
            PrimFloat.ltb 0%float (networking.Percent.Value p) = true →
            route.RouteAction.RequestMirrorPolicies action
            = [mirrorPolicy port serviceRegistry mirror
                 {| xdstype.FractionalPercent.Numerator :=
                      uint32_of_float64
                        (PrimFloat.mul (networking.Percent.Value p) 10000%float);
                    xdstype.FractionalPercent.Denominator :=
                      xdstype.FractionalPercent_MILLION |}])
    ∧ (∀ p, networking.HTTPRoute.MirrorPercentage i = Some p →
            PrimFloat.eqb (networking.Percent.Value p) 0%float = true →
            route.RouteAction.RequestMirrorPolicies action = [])
    ∧ (∀ v, networking.HTTPRoute.MirrorPercentage i = None →
            networking.HTTPRoute.MirrorPercent i = Some v →
            0 < v < 2 ^ 32 →
            route.RouteAction.RequestMirrorPolicies action
            = [mirrorPolicy port serviceRegistry mirror
                 {| xdstype.FractionalPercent.Numerator := v;
                    xdstype.FractionalPercent.Denominator :=
                      xdstype.FractionalPercent_HUNDRED |}])
    ∧ (networking.HTTPRoute.MirrorPercentage i = None →
       networking.HTTPRoute.MirrorPercent i = Some 0 →
       route.RouteAction.RequestMirrorPolicies action = [])
    ∧ (networking.HTTPRoute.MirrorPercentage i = None →
       networking.HTTPRoute.MirrorPercent i = None →
       route.RouteAction.RequestMirrorPolicies action
       = [mirrorPolicy port serviceRegistry mirror
            {| xdstype.FractionalPercent.Numerator := 100;
               xdstype.FractionalPercent.Denominator :=
                 xdstype.FractionalPercent_HUNDRED |}]).
Proof.
  intros Hredirect Hmirror Hout.
  destruct (translateRoute_mirror_policies i match_ out mirror Hredirect Hmirror Hout)
    as (action & Haction & Hpolicies).
  exists action. split; [exact Haction|].
  rewrite Hpolicies. unfold mirrorPercent, mirrorPolicy. split_and!.
  - intros p -> Hpositive. by rewrite Hpositive.
  - intros p -> Hzero. by rewrite (float64_zero_not_positive _ Hzero).
  - intros v -> -> Hv. rewrite bool_decide_eq_true_2 by lia.
    unfold translateIntegerToFractionalPercent. rewrite uint32_int32.
    unfold uint32. by rewrite Z.mod_small by lia.
  - by intros -> ->.
  - by intros -> ->.
Qed.
End Mirroring.

(** The theorem of C8 at a rule with [MirrorPercentage] 25 and
    [MirrorPercent] 50: the route mirrors 250000 requests in a million. *)
Lemma translateRoute_mirror_witness :
  let percentage := {| networking.Percent.Value := 25%float |} in
  let rule := mirroringRule (Some 50) (Some percentage) in
  let mirror :=
    networking.HTTPRouteDestination.Destination (weightedDestination "reviews-v2" 0) in
  let policy :=
    {| route.RouteAction_RequestMirrorPolicy.Cluster := "outbound|80||reviews-v2";
       route.RouteAction_RequestMirrorPolicy.RuntimeFraction :=
         Some {| core.RuntimeFractionalPercent.DefaultValue :=
                   Some {| xdstype.FractionalPercent.Numerator := 250000;
                           xdstype.FractionalPercent.Denominator :=
                             xdstype.FractionalPercent_MILLION |} |};
       route.RouteAction_RequestMirrorPolicy.TraceSampled := Some false |} in
  let out := reviewsRouteMirroring [] [policy] in
  networking.HTTPRoute.Redirect rule = None
  ∧ networking.HTTPRoute.Mirror rule = Some mirror
  ∧ translateRoute noDefaultTimeout None (proxyLabelled ∅) rule (Some rootPrefixMatch) 80
      (virtualServiceOf [rule]) ∅ meshGateway = Some out
  ∧ ∃ action,
      route.Route.Action out = Some (route.Route_Route action)
      ∧ route.RouteAction.RequestMirrorPolicies action = [policy].
Proof.
  intros percentage rule mirror policy out.
  assert (networking.HTTPRoute.Redirect rule = None) as H1 by reflexivity.
  assert (networking.HTTPRoute.Mirror rule = Some mirror) as H2 by reflexivity.
  assert (translateRoute noDefaultTimeout None (proxyLabelled ∅) rule
            (Some rootPrefixMatch) 80 (virtualServiceOf [rule]) ∅ meshGateway
          = Some out) as H3
    by (vm_compute; reflexivity).
  split_and!; [exact H1|exact H2|exact H3|].
  destruct (translateRoute_mirror noDefaultTimeout None (proxyLabelled ∅) 80
              (virtualServiceOf [rule]) ∅ meshGateway rule (Some rootPrefixMatch) out
              mirror H1 H2 H3)
    as (action & Haction & Hpercentage & _).
  exists action. split; [exact Haction|].
  exact (Hpercentage percentage eq_refl eq_refl).
Defined.

(** C8, as stated, fails for a rule that redirects: the rule has a mirror
    destination and no percentage, so that 100 percent is the percentage
    that [mirrorPercent] gives, but the route it translates to has the
    redirect as its action and no route action, hence no mirror policy. *)
Lemma translateRoute_mirror_redirect :
  let mirror :=
    networking.HTTPRouteDestination.Destination (weightedDestination "reviews-v2" 0) in
  let redirect :=
    {| networking.HTTPRedirect.Uri := "/v2";
       networking.HTTPRedirect.Authority := "";
       networking.HTTPRedirect.RedirectCode := 301 |} in
  let rule := reviewsRule (Some redirect) (Some mirror) None in
  networking.HTTPRoute.Mirror rule = Some mirror
  ∧ mirrorPercent rule
    = Some {| core.RuntimeFractionalPercent.DefaultValue :=
                Some {| xdstype.FractionalPercent.Numerator := 100;
                        xdstype.FractionalPercent.Denominator :=
                          xdstype.FractionalPercent_HUNDRED |} |}
  ∧ ∃ out,
      translateRoute noDefaultTimeout None (proxyLabelled ∅) rule None 80
        (virtualServiceOf [rule]) ∅ meshGateway = Some out
      ∧ route.Route.Action out
        = Some (route.Route_Redirect
                  (Some {| route.RedirectAction.HostRedirect := "";
                           route.RedirectAction.PathRewriteSpecifier :=
                             Some (route.RedirectAction_PathRedirect "/v2");
                           route.RedirectAction.ResponseCode :=
                             route.RedirectAction_MOVED_PERMANENTLY |}))
      ∧ route.GetRoute out = None.
Proof.
  intros mirror redirect rule. split; [reflexivity|]. split; [reflexivity|].
  eexists. split; [vm_compute; reflexivity|]. split; reflexivity.
Qed.

(** ** Fault injection *)






(** * Further properties *)

(** ** The combiner loses and adds nothing *)

Lemma filter_isCatchAllRoute_Permutation (routes : list route.Route) :
  filter (λ r, isCatchAllRoute r = false) routes
  ++ filter (λ r, isCatchAllRoute r = true) routes ≡ₚ routes.
Proof.
  induction routes as [|r routes IH]; [done|].
  rewrite !filter_cons. destruct (isCatchAllRoute r) eqn:Hr; simpl.
  - rewrite <- Permutation_middle. by constructor.
  - by constructor.
Qed.

(** X2: the combined list holds the routes of all the lists, each as often as
    the lists do: it is a rearrangement of their concatenation. *)
Theorem CombineVHostRoutes_Permutation (routeSets : list (list route.Route)) :
  CombineVHostRoutes routeSets ≡ₚ concat routeSets.
Proof. rewrite CombineVHostRoutes_filter. apply filter_isCatchAllRoute_Permutation. Qed.

Lemma CombineVHostRoutes_catch_all_last_witness :
  let A := pathRoute "A" (route.RouteMatch_Prefix "/a") in
  let B := pathRoute "B" (route.RouteMatch_Prefix "/") in
  let C := pathRoute "C" (route.RouteMatch_Path "/c") in
  CombineVHostRoutes [[A; B]; [C]] !! 2%nat = Some B
  ∧ CombineVHostRoutes [[A; B]; [C]] !! 1%nat = Some C
  ∧ isCatchAllRoute B = true ∧ isCatchAllRoute C = false
  ∧ (1 < 2)%nat.
Proof.
  intros A B C.
  assert (CombineVHostRoutes [[A; B]; [C]] !! 2%nat = Some B) as H1 by reflexivity.
  assert (CombineVHostRoutes [[A; B]; [C]] !! 1%nat = Some C) as H2 by reflexivity.
  assert (isCatchAllRoute B = true) as H3 by reflexivity.
  assert (isCatchAllRoute C = false) as H4 by reflexivity.
  split_and!; [exact H1|exact H2|exact H3|exact H4|].
  exact (CombineVHostRoutes_catch_all_last [[A; B]; [C]] 2 1 B C H1 H2 H3 H4).
Defined.

Lemma filter_isCatchAllRoute_other (b : bool) (routes : list route.Route) :
  filter (λ r, isCatchAllRoute r = b) (filter (λ r, isCatchAllRoute r = negb b) routes) = [].
Proof.
  induction routes as [|r routes IH]; [done|].
  rewrite filter_cons. destruct (decide (isCatchAllRoute r = negb b)) as [Hr|Hr]; [|done].
  rewrite filter_cons, decide_False; [done|]. rewrite Hr. by destruct b.
Qed.

Lemma filter_CombineVHostRoutes (b : bool) (routeSets : list (list route.Route)) :
  filter (λ r, isCatchAllRoute r = b) (CombineVHostRoutes routeSets)
  = filter (λ r, isCatchAllRoute r = b) (concat routeSets).
Proof.
  rewrite CombineVHostRoutes_filter, filter_app.
  destruct b.
  - rewrite (filter_isCatchAllRoute_other true); simpl.
    by apply list_filter_filter_l.
  - rewrite (filter_isCatchAllRoute_other false), app_nil_r.
    by apply list_filter_filter_l.
Qed.

(** X3: combining in stages is combining at once: when groups of route lists
    are combined one by one and the results are combined, the outcome is
    that of combining all the lists together.  For a single group,
    combining a combined list again changes nothing. *)
Theorem CombineVHostRoutes_staged (groups : list (list (list route.Route))) :
  CombineVHostRoutes (CombineVHostRoutes <$> groups) = CombineVHostRoutes (concat groups).
Proof.
  rewrite !CombineVHostRoutes_filter.
  assert (∀ b, filter (λ r, isCatchAllRoute r = b) (concat (CombineVHostRoutes <$> groups))
               = filter (λ r, isCatchAllRoute r = b) (concat (concat groups))) as Heq.
  { intros b. induction groups as [|g groups IH]; [done|].
    rewrite fmap_cons, !concat_cons, concat_app, !filter_app, IH. f_equal.
    apply filter_CombineVHostRoutes. }
  by rewrite (Heq false), (Heq true).
Qed.

(** ** Header matchers of a translated match block *)

Lemma string_lt_not_trans (a b c : string) :
  string_lt b a = false → string_lt c b = false → string_lt c a = false.
Proof.
  intros Hba Hcb. destruct (string_lt c a) eqn:Hca; [|done].
  destruct (decide (a = b)) as [->|Hab]; [congruence|].
  destruct (decide (b = c)) as [->|Hbc]; [congruence|].
  pose proof (string_lt_connex b a (not_eq_sym Hab) Hba) as Hab'.
  pose proof (string_lt_connex c b (not_eq_sym Hbc) Hcb) as Hbc'.
  pose proof (string_lt_trans _ _ _ Hab' Hbc') as Hac.
  pose proof (string_lt_asym _ _ Hac). congruence.
Qed.

Section SortStableWeak.
Context {A : Type} (less : A → A → bool).
Context (less_asym : ∀ a b, less a b = true → less b a = false).
Context (not_less_trans : ∀ a b c, less b a = false → less c b = false → less c a = false).

Lemma insert_Stable_not_after (x : A) (l : list A) :
  StronglySorted (λ a b, less b a = false) l →
  StronglySorted (λ a b, less b a = false) (insert_Stable less x l).
Proof.
  intros Hsorted. induction Hsorted as [|y l Hsorted IH Hy]; simpl.
  { repeat constructor. }
  destruct (less y x) eqn:Hless.
  - constructor; [done|].
    rewrite insert_Stable_Permutation. constructor; [by apply less_asym|done].
  - constructor; [by constructor|].
    constructor; [done|].
    eapply Forall_impl; [exact Hy|]. intros z Hz. by eapply not_less_trans.
Qed.

(** The sorted list never has a smaller element after a larger one. *)
Lemma sort_Stable_not_after (l : list A) :
  StronglySorted (λ a b, less b a = false) (sort_Stable less l).
Proof.
  induction l as [|x l IH]; simpl; [constructor|].
  by apply insert_Stable_not_after.
Qed.
End SortStableWeak.

Lemma translateRouteMatch_Headers (m : networking.HTTPMatchRequest) (node : model.Proxy) :
  route.RouteMatch.Headers (translateRouteMatch (Some m) node)
  = sort_Stable HeaderMatcher_Less (mapHeaderMatchers m node) ++ pseudoHeaderMatchers m node.
Proof.
  unfold translateRouteMatch, pseudoHeaderMatchers, mapHeaderMatchers. simpl.
  destruct (networking.HTTPMatchRequest.Method m),
    (networking.HTTPMatchRequest.Authority m),
    (networking.HTTPMatchRequest.Scheme m); simpl;
    by rewrite <- ?app_assoc, ?app_nil_r.
Qed.

(** X4: the header matchers of a translated match block are those of the
    entries of [Headers] and, inverted, of [WithoutHeaders], in the order
    of their names, followed by those of the method, the authority and the
    scheme, which are appended after the sort and stay in that order. *)
Theorem translateRouteMatch_header_matchers (m : networking.HTTPMatchRequest)
    (node : model.Proxy) :
  ∃ sorted,
    route.RouteMatch.Headers (translateRouteMatch (Some m) node)
    = sorted ++ pseudoHeaderMatchers m node
    ∧ sorted ≡ₚ mapHeaderMatchers m node
    ∧ StronglySorted nameNotAfter sorted.
Proof.
  exists (sort_Stable HeaderMatcher_Less (mapHeaderMatchers m node)).
  split; [apply translateRouteMatch_Headers|].
  split; [apply sort_Stable_Permutation|].
  apply (sort_Stable_not_after HeaderMatcher_Less); unfold HeaderMatcher_Less.
  - intros a b. apply string_lt_asym.
  - intros a b c. apply string_lt_not_trans.
Qed.

Lemma translateHeaderMatch_no_star (name : string) (i : option networking.StringMatch)
    (node : model.Proxy) (re : matcher.RegexMatcher) :
  route.HeaderMatcher.HeaderMatchSpecifier (translateHeaderMatch name i node)
  = Some (route.HeaderMatcher_SafeRegexMatch re) →
  matcher.RegexMatcher.Regex re ≠ "*".
Proof.
  unfold translateHeaderMatch, isCatchAllHeaderMatch.
  destruct i as [[[[e|p|r]|]]|]; simpl; try done.
  case_bool_decide; simpl; [done|]. by intros [= <-].
Qed.

(** X5: no header matcher of a translated match block is a regex matcher for
    ["*"]: such a predicate, like an absent one, is translated to a test
    that the header is present. *)
Theorem translateRouteMatch_no_star_regex (i : option networking.HTTPMatchRequest)
    (node : model.Proxy) :
  Forall (λ h, ∀ re,
            route.HeaderMatcher.HeaderMatchSpecifier h
            = Some (route.HeaderMatcher_SafeRegexMatch re) →
            matcher.RegexMatcher.Regex re ≠ "*")
         (route.RouteMatch.Headers (translateRouteMatch i node)).
Proof.
  destruct i as [m|]; [|by constructor].
  rewrite translateRouteMatch_Headers.
  apply Forall_app. split.
  - rewrite sort_Stable_Permutation. unfold mapHeaderMatchers.
    apply Forall_app. split; apply Forall_fmap, Forall_forall; intros [k v] _ re; simpl.
    + apply translateHeaderMatch_no_star.
    + apply translateHeaderMatch_no_star.
  - unfold pseudoHeaderMatchers.
    destruct (networking.HTTPMatchRequest.Method m),
      (networking.HTTPMatchRequest.Authority m),
      (networking.HTTPMatchRequest.Scheme m); simpl;
      repeat constructor; intros re; apply translateHeaderMatch_no_star.
Qed.

(** ** Which translated routes are catch-all routes *)

Lemma translateRoute_Match (settings : features.t) (push : option model.PushContext)
    (node : model.Proxy) (i : networking.HTTPRoute)
    (match_ : option networking.HTTPMatchRequest) (port : Z)
    (virtualService : model.Config) (serviceRegistry : gmap string model.Service)
    (gatewayNames : gmap string bool) (out : route.Route) :
  translateRoute settings push node i match_ port virtualService serviceRegistry
    gatewayNames = Some out →
  route.Route.Match out = translateRouteMatch match_ node
  ∧ route.Route.Name out
    = match match_ with
      | Some m =>
          if bool_decide (networking.HTTPMatchRequest.Name m ≠ "")
          then networking.HTTPRoute.Name i +:+ "." +:+ networking.HTTPMatchRequest.Name m
          else networking.HTTPRoute.Name i
      | None => networking.HTTPRoute.Name i
      end.
Proof.
  unfold translateRoute.
  destruct (sourceMatchHTTP _ _ _ _); simpl; [|done].
  destruct (match match_ with Some _ => _ | None => _ end); [done|].
  destruct (networking.HTTPRoute.Redirect i); [by intros [= <-]|].
  destruct (weightedClusters push node i port serviceRegistry)
    as [[|w [|w' weighted]] hashPolicy]; simpl; by intros [= <-].
Qed.

Lemma isCatchAllRoute_translateRouteMatch (r : route.Route)
    (match_ : option networking.HTTPMatchRequest) (node : model.Proxy) :
  route.Route.Match r = translateRouteMatch match_ node →
  isCatchAllRoute r = from_option unconstrained true match_.
Proof.
  intros Hmatch. unfold isCatchAllRoute. rewrite Hmatch.
  destruct match_ as [m|]; [|done].
  cbn [from_option].
  rewrite translateRouteMatch_Headers.
  rewrite length_app, (Permutation_length (sort_Stable_Permutation _ _)).
  unfold mapHeaderMatchers, pseudoHeaderMatchers, unconstrained.
  rewrite !length_app, !length_fmap, !length_map_to_list.
  unfold translateRouteMatch.
  cbn [route.RouteMatch.PathSpecifier route.RouteMatch.QueryParameters].
  rewrite length_fmap, length_map_to_list.
  destruct (networking.HTTPMatchRequest.Uri m ≫= networking.StringMatch.MatchType)
    as [[e|p|r']|]; simpl;
    destruct (networking.HTTPMatchRequest.Method m),
      (networking.HTTPMatchRequest.Authority m),
      (networking.HTTPMatchRequest.Scheme m); simpl;
    repeat case_bool_decide; simpl; try done; lia.
Qed.

(** X6: a translated route is a catch-all route for the combiner exactly when
    it was translated without match block, or under a match block that
    constrains nothing: no header, excluded header, method, authority,
    scheme or query parameter, and a URI predicate that is absent or the
    prefix ["/"] or the regex ["*"]. *)
Theorem translateRoute_isCatchAllRoute (settings : features.t)
    (push : option model.PushContext) (node : model.Proxy) (i : networking.HTTPRoute)
    (match_ : option networking.HTTPMatchRequest) (port : Z)
    (virtualService : model.Config) (serviceRegistry : gmap string model.Service)
    (gatewayNames : gmap string bool) (out : route.Route) :
  translateRoute settings push node i match_ port virtualService serviceRegistry
    gatewayNames = Some out →
  isCatchAllRoute out = from_option unconstrained true match_.
Proof.
  intros Hout. eapply isCatchAllRoute_translateRouteMatch.
  by eapply translateRoute_Match.
Qed.

Lemma translateRoute_isCatchAllRoute_witness :
  let rule := forwardRule [emptyMatch] [weightedDestination "reviews" 100] in
  translateRoute noDefaultTimeout None (proxyLabelled ∅) rule (Some emptyMatch) 80
    (virtualServiceOf [rule]) ∅ meshGateway = Some (reviewsRoute [])
  ∧ isCatchAllRoute (reviewsRoute []) = from_option unconstrained true (Some emptyMatch).
Proof.
  intros rule.
  assert (translateRoute noDefaultTimeout None (proxyLabelled ∅) rule (Some emptyMatch) 80
            (virtualServiceOf [rule]) ∅ meshGateway = Some (reviewsRoute [])) as H1
    by (vm_compute; reflexivity).
  split; [exact H1|].
  exact (translateRoute_isCatchAllRoute noDefaultTimeout None (proxyLabelled ∅) rule
           (Some emptyMatch) 80 (virtualServiceOf [rule]) ∅ meshGateway (reviewsRoute []) H1).
Defined.

(** X7: the catch-all test on match blocks looks at less than the one on
    routes: the route of a match block that passes it is a catch-all route
    only if the block also has no excluded header, method, authority or
    scheme. *)
Theorem isCatchAllMatch_isCatchAllRoute (settings : features.t)
    (push : option model.PushContext) (node : model.Proxy) (i : networking.HTTPRoute)
    (m : networking.HTTPMatchRequest) (port : Z)
    (virtualService : model.Config) (serviceRegistry : gmap string model.Service)
    (gatewayNames : gmap string bool) (out : route.Route) :
  isCatchAllMatch m = true →
  translateRoute settings push node i (Some m) port virtualService serviceRegistry
    gatewayNames = Some out →
  isCatchAllRoute out
  = bool_decide (size (networking.HTTPMatchRequest.WithoutHeaders m) = 0%nat)
    && unset (networking.HTTPMatchRequest.Method m)
    && unset (networking.HTTPMatchRequest.Authority m)
    && unset (networking.HTTPMatchRequest.Scheme m).
Proof.
  intros Hcatch Hout.
  rewrite (isCatchAllRoute_translateRouteMatch out (Some m) node)
    by by eapply translateRoute_Match.
  cbn [from_option]. revert Hcatch. unfold isCatchAllMatch, unconstrained.
  destruct (networking.HTTPMatchRequest.Uri m) as [[[[e|p|r]|]]|]; simpl; try done.
  - intros [[-> ->]%andb_prop ->]%andb_prop. simpl.
    by destruct (bool_decide _), (unset _), (unset _), (unset _).
  - intros [[-> ->]%andb_prop ->]%andb_prop. simpl.
    by destruct (bool_decide _), (unset _), (unset _), (unset _).
Qed.

Lemma isCatchAllMatch_isCatchAllRoute_witness :
  let rule := forwardRule [rootPrefixGetMatch] [weightedDestination "reviews" 100] in
  isCatchAllMatch rootPrefixGetMatch = true
  ∧ ∃ out,
      translateRoute noDefaultTimeout None (proxyLabelled ∅) rule (Some rootPrefixGetMatch)
        80 (virtualServiceOf [rule]) ∅ meshGateway = Some out
      ∧ isCatchAllRoute out = false.
Proof.
  intros rule.
  assert (isCatchAllMatch rootPrefixGetMatch = true) as H1 by reflexivity.
  split; [exact H1|].
  destruct (translateRoute noDefaultTimeout None (proxyLabelled ∅) rule
              (Some rootPrefixGetMatch) 80 (virtualServiceOf [rule]) ∅ meshGateway)
    as [out|] eqn:H2; [|by vm_compute in H2].
  exists out. split; [reflexivity|].
  exact (isCatchAllMatch_isCatchAllRoute noDefaultTimeout None (proxyLabelled ∅) rule
           rootPrefixGetMatch 80 (virtualServiceOf [rule]) ∅ meshGateway out H1 H2).
Defined.

(** ** Redirect rules *)

(** X8: a rule that redirects is translated without regard to its
    destinations, rewrite, timeout, retries, mirror and CORS policy, to the
    default timeout, the push context and the service registry; the route
    it gives does not forward. *)
Theorem translateRoute_redirect_only (settings settings' : features.t)
    (push push' : option model.PushContext) (node : model.Proxy) (i : networking.HTTPRoute)
    (match_ : option networking.HTTPMatchRequest) (port : Z)
    (virtualService : model.Config) (serviceRegistry serviceRegistry' : gmap string model.Service)
    (gatewayNames : gmap string bool) (redirect : networking.HTTPRedirect) :
  networking.HTTPRoute.Redirect i = Some redirect →
  translateRoute settings push node i match_ port virtualService serviceRegistry gatewayNames
  = translateRoute settings' push' node (redirectOnly i) match_ port virtualService
      serviceRegistry' gatewayNames
  ∧ ∀ out,
      translateRoute settings push node i match_ port virtualService serviceRegistry
        gatewayNames = Some out →
      route.GetRoute out = None.
Proof.
  intros Hredirect. unfold translateRoute.
  cbn [redirectOnly networking.HTTPRoute.Redirect networking.HTTPRoute.Name
       networking.HTTPRoute.Headers networking.HTTPRoute.Fault].
  rewrite Hredirect.
  destruct (sourceMatchHTTP _ _ _ _); simpl; [|done].
  destruct (match match_ with Some _ => _ | None => _ end); [done|].
  split; [done|]. by intros out [= <-].
Qed.

Lemma translateRoute_redirect_only_witness :
  let rule :=
    {| networking.HTTPRoute.Name := "rule";
       networking.HTTPRoute.Match := [];
       networking.HTTPRoute.Route := [weightedDestination "reviews" 100];
       networking.HTTPRoute.Redirect :=
         Some {| networking.HTTPRedirect.Uri := "/v2";
                 networking.HTTPRedirect.Authority := "";
                 networking.HTTPRedirect.RedirectCode := 302 |};
       networking.HTTPRoute.Rewrite := None;
       networking.HTTPRoute.Timeout := Some {| duration.Seconds := 5; duration.Nanos := 0 |};
       networking.HTTPRoute.Retries := None;
       networking.HTTPRoute.Fault := None;
       networking.HTTPRoute.Mirror := None;
       networking.HTTPRoute.MirrorPercent := None;
       networking.HTTPRoute.MirrorPercentage := None;
       networking.HTTPRoute.CorsPolicy := None;
       networking.HTTPRoute.Headers := None |} in
  is_Some (networking.HTTPRoute.Redirect rule)
  ∧ translateRoute noDefaultTimeout None (proxyLabelled ∅) rule None 80
      (virtualServiceOf [rule]) ∅ meshGateway
    = translateRoute noDefaultTimeout None (proxyLabelled ∅) (redirectOnly rule) None 80
        (virtualServiceOf [rule]) ∅ meshGateway.
Proof.
  intros rule. split; [by eexists|].
  exact (proj1 (translateRoute_redirect_only noDefaultTimeout noDefaultTimeout None None
                  (proxyLabelled ∅) rule None 80 (virtualServiceOf [rule]) ∅ ∅ meshGateway
                  _ eq_refl)).
Defined.

(** ** Forwarding rules: timeouts, retries and hash policies *)

Lemma translateRoute_routeAction (settings : features.t) (push : option model.PushContext)
    (node : model.Proxy) (i : networking.HTTPRoute)
    (match_ : option networking.HTTPMatchRequest) (port : Z)
    (virtualService : model.Config) (serviceRegistry : gmap string model.Service)
    (gatewayNames : gmap string bool) (out : route.Route) :
  networking.HTTPRoute.Redirect i = None →
  translateRoute settings push node i match_ port virtualService serviceRegistry
    gatewayNames = Some out →
  ∃ clusterSpecifier,
    route.Route.Action out
    = Some (route.Route_Route
              (routeAction settings node i port serviceRegistry clusterSpecifier
                 (weightedClusters push node i port serviceRegistry).2)).
Proof.
  intros Hredirect Hout.
  pose proof (translateRoute_forward settings push node port virtualService serviceRegistry
                gatewayNames i match_ out Hredirect Hout) as Hforward.
  cbv zeta in Hforward.
  destruct (weightedClusters push node i port serviceRegistry).1 as [|w [|w' weighted]];
    destruct Hforward as [Haction _]; by eexists.
Qed.

(** X9: the route of a forwarding rule has the same timeout and maximal gRPC
    timeout: the timeout of the rule when it has one, the default request
    timeout otherwise.  Its retry policy is the conversion of the retries
    of the rule. *)
Theorem translateRoute_timeouts (settings : features.t) (push : option model.PushContext)
    (node : model.Proxy) (i : networking.HTTPRoute)
    (match_ : option networking.HTTPMatchRequest) (port : Z)
    (virtualService : model.Config) (serviceRegistry : gmap string model.Service)
    (gatewayNames : gmap string bool) (out : route.Route) :
  networking.HTTPRoute.Redirect i = None →
  translateRoute settings push node i match_ port virtualService serviceRegistry
    gatewayNames = Some out →
  ∃ action,
    route.GetRoute out = Some action
    ∧ route.RouteAction.MaxGrpcTimeout action = route.RouteAction.Timeout action
    ∧ route.RouteAction.Timeout action
      = match networking.HTTPRoute.Timeout i with
        | Some t => Some (DurationToProtoDuration t)
        | None => features.DefaultRequestTimeout settings
        end
    ∧ route.RouteAction.RetryPolicy action
      = Some (retry.ConvertPolicy (networking.HTTPRoute.Retries i)).
Proof.
  intros Hredirect Hout.
  destruct (translateRoute_routeAction _ _ _ _ _ _ _ _ _ _ Hredirect Hout)
    as [clusterSpecifier Haction].
  eexists. unfold route.GetRoute. rewrite Haction. done.
Qed.

Lemma translateRoute_timeouts_witness :
  let rule := forwardRule [rootPrefixMatch] [weightedDestination "reviews" 100] in
  networking.HTTPRoute.Redirect rule = None
  ∧ translateRoute noDefaultTimeout None (proxyLabelled ∅) rule (Some rootPrefixMatch) 80
      (virtualServiceOf [rule]) ∅ meshGateway = Some (reviewsRoute [])
  ∧ ∃ action,
      route.GetRoute (reviewsRoute []) = Some action
      ∧ route.RouteAction.MaxGrpcTimeout action = route.RouteAction.Timeout action.
Proof.
  intros rule.
  assert (networking.HTTPRoute.Redirect rule = None) as H1 by reflexivity.
  assert (translateRoute noDefaultTimeout None (proxyLabelled ∅) rule
            (Some rootPrefixMatch) 80 (virtualServiceOf [rule]) ∅ meshGateway
          = Some (reviewsRoute [])) as H2
    by (vm_compute; reflexivity).
  split_and!; [exact H1|exact H2|].
  destruct (translateRoute_timeouts noDefaultTimeout None (proxyLabelled ∅) rule
              (Some rootPrefixMatch) 80 (virtualServiceOf [rule]) ∅ meshGateway
              (reviewsRoute []) H1 H2)
    as (action & Haction & Hsame & _).
  exists action. split; [exact Haction|exact Hsame].
Defined.

Lemma weightedClusters_body_hash (push : option model.PushContext) (node : model.Proxy)
    (i : networking.HTTPRoute) (port : Z) (serviceRegistry : gmap string model.Service)
    (destinations : list networking.HTTPRouteDestination)
    (acc : list route.WeightedCluster_ClusterWeight * list route.RouteAction_HashPolicy) :
  (foldl (weightedClusters_body push node i port serviceRegistry) acc destinations).2
  = acc.2 ++ omap (destinationHashPolicy push node serviceRegistry)
                  (filter (λ dst, keptDestination i dst = true) destinations).
Proof.
  revert acc. induction destinations as [|dst destinations IH]; intros [weighted hashPolicies].
  { simpl. by rewrite app_nil_r. }
  simpl foldl. rewrite IH, filter_cons. clear IH.
  unfold weightedClusters_body.
  destruct (keptDestination i dst) eqn:Hkept; unfold keptDestination in Hkept.
  - rewrite decide_True by done.
    change (omap ?f (dst :: ?l))
      with (match f dst with Some h => h :: omap f l | None => omap f l end).
    change (getHashPolicy push node dst _)
      with (destinationHashPolicy push node serviceRegistry dst).
    destruct (bool_decide (networking.HTTPRouteDestination.Weight dst = 0));
      destruct (bool_decide (length (networking.HTTPRoute.Route i) = 1%nat));
      try done; simpl.
    all: destruct (destinationHashPolicy _ _ _ dst); simpl; by rewrite <- ?app_assoc.
  - rewrite decide_False by done.
    destruct (bool_decide (networking.HTTPRouteDestination.Weight dst = 0));
      destruct (bool_decide (length (networking.HTTPRoute.Route i) = 1%nat));
      done.
Qed.

(** X10: the hash policies of the route of a forwarding rule are those of the
    destinations that the loop keeps, in the order of the destinations;
    without push context there is none. *)
Theorem translateRoute_hash_policies (settings : features.t)
    (push : option model.PushContext) (node : model.Proxy) (i : networking.HTTPRoute)
    (match_ : option networking.HTTPMatchRequest) (port : Z)
    (virtualService : model.Config) (serviceRegistry : gmap string model.Service)
    (gatewayNames : gmap string bool) (out : route.Route) :
  networking.HTTPRoute.Redirect i = None →
  translateRoute settings push node i match_ port virtualService serviceRegistry
    gatewayNames = Some out →
  ∃ action,
    route.GetRoute out = Some action
    ∧ route.RouteAction.HashPolicy action
      = omap (destinationHashPolicy push node serviceRegistry)
             (filter (λ dst, keptDestination i dst = true) (networking.HTTPRoute.Route i))
    ∧ (push = None → route.RouteAction.HashPolicy action = []).
Proof.
  intros Hredirect Hout.
  destruct (translateRoute_routeAction _ _ _ _ _ _ _ _ _ _ Hredirect Hout)
    as [clusterSpecifier Haction].
  eexists. unfold route.GetRoute. rewrite Haction. split; [done|].
  cbn [routeAction route.RouteAction.HashPolicy].
  unfold weightedClusters. rewrite weightedClusters_body_hash. simpl.
  split; [done|]. intros ->.
  induction (filter _ _) as [|dst destinations IH]; [done|].
  change (omap ?f (dst :: ?l))
    with (match f dst with Some h => h :: omap f l | None => omap f l end).
  by rewrite IH.
Qed.

Lemma translateRoute_hash_policies_witness :
  let rule := forwardRule [rootPrefixMatch] [weightedDestination "reviews" 100] in
  networking.HTTPRoute.Redirect rule = None
  ∧ translateRoute noDefaultTimeout None (proxyLabelled ∅) rule (Some rootPrefixMatch) 80
      (virtualServiceOf [rule]) ∅ meshGateway = Some (reviewsRoute [])
  ∧ ∃ action,
      route.GetRoute (reviewsRoute []) = Some action
      ∧ route.RouteAction.HashPolicy action = [].
Proof.
  intros rule.
  assert (networking.HTTPRoute.Redirect rule = None) as H1 by reflexivity.
  assert (translateRoute noDefaultTimeout None (proxyLabelled ∅) rule
            (Some rootPrefixMatch) 80 (virtualServiceOf [rule]) ∅ meshGateway
          = Some (reviewsRoute [])) as H2
    by (vm_compute; reflexivity).
  split_and!; [exact H1|exact H2|].
  destruct (translateRoute_hash_policies noDefaultTimeout None (proxyLabelled ∅) rule
              (Some rootPrefixMatch) 80 (virtualServiceOf [rule]) ∅ meshGateway
              (reviewsRoute []) H1 H2)
    as (action & Haction & _ & Hnone).
  exists action. split; [exact Haction|exact (Hnone eq_refl)].
Defined.

(** X11: a forwarding rule of which the loop keeps no destination, because it
    has none or has several that all weigh 0, still gives a route: one that
    forwards to an empty set of weighted clusters, without hash policy. *)
Theorem translateRoute_no_destination (settings : features.t)
    (push : option model.PushContext) (node : model.Proxy) (i : networking.HTTPRoute)
    (match_ : option networking.HTTPMatchRequest) (port : Z)
    (virtualService : model.Config) (serviceRegistry : gmap string model.Service)
    (gatewayNames : gmap string bool) (out : route.Route) :
  networking.HTTPRoute.Redirect i = None →
  length (networking.HTTPRoute.Route i) ≠ 1%nat →
  Forall (λ dst, networking.HTTPRouteDestination.Weight dst = 0)
         (networking.HTTPRoute.Route i) →
  translateRoute settings push node i match_ port virtualService serviceRegistry
    gatewayNames = Some out →
  ∃ action,
    route.GetRoute out = Some action
    ∧ route.RouteAction.ClusterSpecifier action
      = Some (route.RouteAction_WeightedClusters {| route.WeightedCluster.Clusters := [] |})
    ∧ route.RouteAction.HashPolicy action = [].
Proof.
  intros Hredirect Hlen Hzero Hout.
  pose proof (translateRoute_forward settings push node port virtualService serviceRegistry
                gatewayNames i match_ out Hredirect Hout) as Hforward.
  cbv zeta in Hforward.
  rewrite weightedClusters_omap, omap_survivingCluster_several in Hforward by done.
  assert (filter (λ dst, networking.HTTPRouteDestination.Weight dst ≠ 0)
                 (networking.HTTPRoute.Route i) = []) as Hnone.
  { clear -Hzero. induction Hzero as [|dst destinations Hdst _ IH]; [done|].
    rewrite filter_cons, decide_False; [done|]. intros Hne. by apply Hne. }
  rewrite Hnone in Hforward. destruct Hforward as [Haction _].
  eexists. unfold route.GetRoute. rewrite Haction. split; [done|]. split; [done|].
  cbn [routeAction route.RouteAction.HashPolicy].
  unfold weightedClusters. rewrite weightedClusters_body_hash. simpl.
  assert (∀ destinations,
            Forall (λ dst, networking.HTTPRouteDestination.Weight dst = 0) destinations →
            filter (λ dst, keptDestination i dst = true) destinations = []) as Hdropped.
  { intros destinations Hall.
    induction Hall as [|dst destinations Hdst _ IH]; [done|].
    rewrite filter_cons, decide_False; [done|].
    unfold keptDestination. rewrite Hdst.
    rewrite bool_decide_eq_true_2 by done.
    rewrite bool_decide_eq_false_2 by done. done. }
  by rewrite Hdropped.
Qed.

Lemma translateRoute_no_destination_witness :
  let rule := forwardRule [] [weightedDestination "v1" 0; weightedDestination "v2" 0] in
  ∃ out,
    translateRoute noDefaultTimeout None (proxyLabelled ∅) rule None 80
      (virtualServiceOf [rule]) ∅ meshGateway = Some out
    ∧ ∃ action,
        route.GetRoute out = Some action
        ∧ route.RouteAction.ClusterSpecifier action
          = Some (route.RouteAction_WeightedClusters
                    {| route.WeightedCluster.Clusters := [] |}).
Proof.
  intros rule.
  destruct (translateRoute_nil_match noDefaultTimeout None (proxyLabelled ∅) rule 80
              (virtualServiceOf [rule]) ∅ meshGateway) as [out Hout].
  exists out. split; [exact Hout|].
  assert (networking.HTTPRoute.Redirect rule = None) as H1 by reflexivity.
  assert (length (networking.HTTPRoute.Route rule) ≠ 1%nat) as H2 by (simpl; lia).
  assert (Forall (λ dst, networking.HTTPRouteDestination.Weight dst = 0)
                 (networking.HTTPRoute.Route rule)) as H3
    by (repeat constructor).
  destruct (translateRoute_no_destination noDefaultTimeout None (proxyLabelled ∅) rule
              None 80 (virtualServiceOf [rule]) ∅ meshGateway out H1 H2 H3 Hout)
    as (action & Haction & Hspecifier & _).
  exists action. split; [exact Haction|exact Hspecifier].
Defined.

(** ** Where the routes of a virtual service come from *)

Lemma routesOfRule_matchOf (settings : features.t) (node : model.Proxy)
    (push : option model.PushContext) (virtualService : model.Config)
    (serviceRegistry : gmap string model.Service) (listenPort : Z)
    (gatewayNames : gmap string bool) (http : networking.HTTPRoute) (r : route.Route) :
  r ∈ (routesOfRule settings node push virtualService serviceRegistry listenPort
         gatewayNames http).1 →
  ∃ match_,
    matchOf http match_
    ∧ translateRoute settings push node http match_ listenPort virtualService
        serviceRegistry gatewayNames = Some r.
Proof.
  unfold routesOfRule. case_bool_decide as Hlen; simpl.
  { intros Hr. exists None. split; [by apply nil_length_inv|].
    destruct (translateRoute _ _ _ _ None _ _ _ _) as [r'|]; simpl in Hr.
    - apply list_elem_of_singleton in Hr. by subst.
    - by apply elem_of_nil in Hr. }
  destruct (catchAllMatch http ≫= _) as [r'|] eqn:Hcatch; simpl.
  - intros Hr. apply list_elem_of_singleton in Hr. subst r'.
    apply bind_Some in Hcatch as (m & Hm & Hr).
    exists (Some m). split; [|done].
    apply find_some in Hm as [Hm _]. by apply list_elem_of_In.
  - intros Hr. apply list_elem_of_omap in Hr as (m & Hm & Hr).
    by exists (Some m).
Qed.

Lemma routesOfRules_matchOf (settings : features.t) (node : model.Proxy)
    (push : option model.PushContext) (virtualService : model.Config)
    (serviceRegistry : gmap string model.Service) (listenPort : Z)
    (gatewayNames : gmap string bool) (rules : list networking.HTTPRoute)
    (out : list route.Route) (r : route.Route) :
  r ∈ routesOfRules settings node push virtualService serviceRegistry listenPort
        gatewayNames rules out →
  r ∈ out
  ∨ ∃ http match_,
      http ∈ rules ∧ matchOf http match_
      ∧ translateRoute settings push node http match_ listenPort virtualService
          serviceRegistry gatewayNames = Some r.
Proof.
  revert out. induction rules as [|http rules IH]; intros out; simpl; [by left|].
  destruct (routesOfRule _ _ _ _ _ _ _ http) as [routes break] eqn:Hrule.
  assert (r ∈ out ++ routes →
          r ∈ out
          ∨ ∃ http0 match_,
              http0 ∈ http :: rules ∧ matchOf http0 match_
              ∧ translateRoute settings push node http0 match_ listenPort virtualService
                  serviceRegistry gatewayNames = Some r) as Hhere.
  { intros [Hr|Hr]%elem_of_app; [by left|right].
    destruct (routesOfRule_matchOf settings node push virtualService serviceRegistry
                listenPort gatewayNames http r) as (match_ & Hmatch & Htranslate).
    { by rewrite Hrule. }
    exists http, match_. split; [by left|done]. }
  destruct break; [done|].
  intros Hr. apply IH in Hr as [Hr|(http0 & match_ & Hin & Hmatch & Htranslate)].
  - by apply Hhere.
  - right. exists http0, match_. split; [by right|done].
Qed.

(** X12: [BuildHTTPRoutesForVirtualService] returns either routes and no error,
    or an error and no route.  Without error there is at least one route,
    and every route is the translation of a rule of the virtual service
    under nil, when the rule has no match block, or under one of its match
    blocks.  The error tells a configuration that is no virtual service
    from one of which no rule gave a route. *)
Theorem BuildHTTPRoutesForVirtualService_routes (settings : features.t)
    (node : model.Proxy) (push : option model.PushContext) (virtualService : model.Config)
    (serviceRegistry : gmap string model.Service) (listenPort : Z)
    (gatewayNames : gmap string bool) :
  let '(routes, err) :=
    BuildHTTPRoutesForVirtualService settings node push virtualService serviceRegistry
      listenPort gatewayNames in
  match err with
  | None =>
      routes ≠ []
      ∧ ∃ vs,
          model.Config.Spec virtualService = model.Spec_VirtualService vs
          ∧ ∀ r, r ∈ routes →
              ∃ http match_,
                http ∈ networking.VirtualService.Http vs ∧ matchOf http match_
                ∧ translateRoute settings push node http match_ listenPort virtualService
                    serviceRegistry gatewayNames = Some r
  | Some e =>
      routes = []
      ∧ e = match model.Config.Spec virtualService with
            | model.Spec_VirtualService _ => ErrNoRoutesMatched
            | _ => ErrNotVirtualService virtualService
            end
  end.
Proof.
  unfold BuildHTTPRoutesForVirtualService.
  destruct (model.Config.Spec virtualService) as [vs| |]; try done.
  case_bool_decide as Hlen; [done|].
  split. { by destruct (routesOfRules _ _ _ _ _ _ _ _ _). }
  exists vs. split; [done|]. intros r Hr.
  apply routesOfRules_matchOf in Hr as [Hr|Hr]; [|done].
  by apply elem_of_nil in Hr.
Qed.

(** ** Hosts and services of a virtual service *)

Section SidecarFacts.
Context (IsWildCarded : string → bool) (Matches : string → string → bool)
  (IsHTTPOrSniffed : model.Port → bool) (IstioMeshGateway : string).

Lemma separateVSHostsAndServices_exact_fold (serviceRegistry : gmap string model.Service)
    (hostnames hosts : list string) (services : list model.Service) (wchosts : list string) :
  foldl (separateVSHostsAndServices_exact IsWildCarded serviceRegistry)
        (hosts, services, wchosts) hostnames
  = (hosts ++ filter (λ h, plainHost IsWildCarded serviceRegistry h = true) hostnames,
     services ++ omap (exactService IsWildCarded serviceRegistry) hostnames,
     wchosts ++ filter (λ h, IsWildCarded h = true) hostnames).
Proof.
  revert hosts services wchosts.
  induction hostnames as [|h hostnames IH]; intros hosts services wchosts.
  { simpl. by rewrite !app_nil_r. }
  simpl foldl. rewrite !filter_cons.
  change (omap ?f (h :: ?l))
    with (match f h with Some svc => svc :: omap f l | None => omap f l end).
  unfold plainHost, exactService.
  destruct (IsWildCarded h); simpl.
  - rewrite IH. by rewrite <- app_assoc.
  - destruct (serviceRegistry !! h) as [svc|]; simpl; rewrite IH; by rewrite <- !app_assoc.
Qed.

Lemma separateVSHostsAndServices_inner_fold (hostname : string)
    (entries : list (string * model.Service)) (services : list model.Service)
    (foundSvcMatch : bool) :
  foldl (λ '(servicesInVirtualService, foundSvcMatch) '(svcHost, svc),
           if Matches svcHost hostname
           then (servicesInVirtualService ++ [svc], true)
           else (servicesInVirtualService, foundSvcMatch))
        (services, foundSvcMatch) entries
  = (services ++ (snd <$> filter (λ kv, Matches kv.1 hostname = true) entries),
     foundSvcMatch || existsb (λ kv, Matches kv.1 hostname) entries).
Proof.
  revert services foundSvcMatch.
  induction entries as [|[svcHost svc] entries IH]; intros services foundSvcMatch.
  { simpl. by rewrite app_nil_r, orb_false_r. }
  simpl foldl. rewrite filter_cons. simpl.
  destruct (Matches svcHost hostname) eqn:Hmatch; simpl; rewrite IH.
  - by rewrite <- app_assoc, orb_true_r.
  - done.
Qed.

Lemma separateVSHostsAndServices_wildcard_fold (serviceRegistry : gmap string model.Service)
    (wchosts hosts : list string) (services : list model.Service) :
  foldl (separateVSHostsAndServices_wildcard Matches serviceRegistry) (hosts, services) wchosts
  = (hosts ++ filter (λ h, matchesSomeService Matches serviceRegistry h = false) wchosts,
     services ++ concat (matchingServices Matches serviceRegistry <$> wchosts)).
Proof.
  revert hosts services.
  induction wchosts as [|h wchosts IH]; intros hosts services.
  { simpl. by rewrite !app_nil_r. }
  simpl foldl.
  rewrite separateVSHostsAndServices_inner_fold, filter_cons, fmap_cons, concat_cons.
  fold (matchingServices Matches serviceRegistry h).
  fold (matchesSomeService Matches serviceRegistry h).
  simpl. destruct (matchesSomeService Matches serviceRegistry h); simpl; rewrite IH.
  - by rewrite <- app_assoc.
  - by rewrite <- !app_assoc.
Qed.

Lemma separateVSHostsAndServices_eq (virtualService : model.Config)
    (rule : networking.VirtualService) (serviceRegistry : gmap string model.Service) :
  model.Config.Spec virtualService = model.Spec_VirtualService rule →
  let wchosts := filter (λ h, IsWildCarded h = true) (networking.VirtualService.Hosts rule) in
  separateVSHostsAndServices IsWildCarded Matches virtualService serviceRegistry
  = Some (filter (λ h, plainHost IsWildCarded serviceRegistry h = true)
                 (networking.VirtualService.Hosts rule)
          ++ filter (λ h, matchesSomeService Matches serviceRegistry h = false) wchosts,
          omap (exactService IsWildCarded serviceRegistry)
               (networking.VirtualService.Hosts rule)
          ++ concat (matchingServices Matches serviceRegistry <$> wchosts)).
Proof.
  intros Hspec. unfold separateVSHostsAndServices. rewrite Hspec.
  rewrite separateVSHostsAndServices_exact_fold. simpl.
  by rewrite separateVSHostsAndServices_wildcard_fold.
Qed.

Lemma elem_of_concat {A : Type} (x : A) (ls : list (list A)) :
  x ∈ concat ls ↔ ∃ l, l ∈ ls ∧ x ∈ l.
Proof.
  induction ls as [|l0 ls IH]; simpl.
  { split; [by intros ?%elem_of_nil|]. by intros (l & ?%elem_of_nil & _). }
  rewrite elem_of_app, IH. split.
  - intros [Hx|(l & Hl & Hx)]; [exists l0|exists l]; (split; [|done]); [by left|by right].
  - intros (l & [->|Hl]%elem_of_cons & Hx); [by left|right]. by exists l.
Qed.

Lemma separateVSHostsAndServices_registry (virtualService : model.Config)
    (serviceRegistry : gmap string model.Service) (hosts : list string)
    (services : list model.Service) (svc : model.Service) :
  separateVSHostsAndServices IsWildCarded Matches virtualService serviceRegistry
  = Some (hosts, services) →
  svc ∈ services → ∃ fqdn, serviceRegistry !! fqdn = Some svc.
Proof.
  destruct (model.Config.Spec virtualService) as [rule| |] eqn:Hspec.
  2,3: unfold separateVSHostsAndServices; by rewrite Hspec.
  rewrite (separateVSHostsAndServices_eq _ _ _ Hspec). cbv zeta. intros [= <- <-].
  rewrite elem_of_app, list_elem_of_omap, elem_of_concat.
  intros [(h & _ & Hh)|(l & (h & -> & _)%list_elem_of_fmap & Hsvc)].
  - unfold exactService in Hh. destruct (IsWildCarded h); [done|]. by exists h.
  - unfold matchingServices in Hsvc.
    apply list_elem_of_fmap in Hsvc as ([k svc'] & -> & [_ Hin]%list_elem_of_filter).
    exists k. by apply elem_of_map_to_list.
Qed.


(** ** Services by port *)

Lemma groupByPort_ports (svc : model.Service) (ports : list model.Port)
    (serviceByPort : gmap Z (list model.Service)) (p : Z) :
  let grouped :=
    foldl (λ serviceByPort port,
             if IsHTTPOrSniffed port then
               <[ model.Port.Port port :=
                    default [] (serviceByPort !! model.Port.Port port) ++ [svc] ]>
                 serviceByPort
             else serviceByPort)
          serviceByPort ports in
  let served :=
    ∃ port, port ∈ ports ∧ IsHTTPOrSniffed port = true ∧ model.Port.Port port = p in
  (∀ svc', svc' ∈ default [] (grouped !! p)
           ↔ svc' ∈ default [] (serviceByPort !! p) ∨ svc' = svc ∧ served)
  ∧ (is_Some (grouped !! p) ↔ is_Some (serviceByPort !! p) ∨ served).
Proof.
  revert serviceByPort.
  induction ports as [|port ports IH]; intros serviceByPort; simpl.
  { split; [intros svc'|]; split; try (by left).
    - intros [?|[_ (port & Hin & _)]]; [done|]. by apply elem_of_nil in Hin.
    - intros [?|(port & Hin & _)]; [done|]. by apply elem_of_nil in Hin. }
  destruct (IH (if IsHTTPOrSniffed port then
                  <[ model.Port.Port port :=
                       default [] (serviceByPort !! model.Port.Port port) ++ [svc] ]>
                    serviceByPort
                else serviceByPort)) as [IHelem IHsome].
  clear IH. simpl in IHelem, IHsome.
  assert ((∃ port0, port0 ∈ port :: ports ∧ IsHTTPOrSniffed port0 = true
                    ∧ model.Port.Port port0 = p)
          ↔ (IsHTTPOrSniffed port = true ∧ model.Port.Port port = p)
            ∨ ∃ port0, port0 ∈ ports ∧ IsHTTPOrSniffed port0 = true
                       ∧ model.Port.Port port0 = p) as Hserved.
  { split.
    - intros (port0 & [->|Hin]%elem_of_cons & Hhttp & Hp); [by left|].
      right. by exists port0.
    - intros [[Hhttp Hp]|(port0 & Hin & Hhttp & Hp)].
      + exists port. split; [by left|done].
      + exists port0. split; [by right|done]. }
  split; [intros svc'; rewrite IHelem|rewrite IHsome]; rewrite Hserved; clear IHelem IHsome.
  - destruct (IsHTTPOrSniffed port) eqn:Hhttp; [|intuition congruence].
    destruct (decide (model.Port.Port port = p)) as [Hp|Hp].
    + rewrite Hp, lookup_insert_eq. simpl. rewrite elem_of_app, list_elem_of_singleton.
      intuition congruence.
    + rewrite lookup_insert_ne by done. intuition congruence.
  - destruct (IsHTTPOrSniffed port) eqn:Hhttp; [|intuition congruence].
    destruct (decide (model.Port.Port port = p)) as [Hp|Hp].
    + rewrite Hp, lookup_insert_eq.
      split; [intros _; right; by left|intros _; left; by eexists].
    + rewrite lookup_insert_ne by done. intuition congruence.
Qed.

Lemma groupByPort_fold (services : list model.Service)
    (serviceByPort : gmap Z (list model.Service)) (p : Z) :
  let grouped :=
    foldl (λ serviceByPort svc,
             foldl (λ serviceByPort port,
                      if IsHTTPOrSniffed port then
                        <[ model.Port.Port port :=
                             default [] (serviceByPort !! model.Port.Port port) ++ [svc] ]>
                          serviceByPort
                      else serviceByPort)
                   serviceByPort (model.Service.Ports svc))
          serviceByPort services in
  (∀ svc, svc ∈ default [] (grouped !! p)
          ↔ svc ∈ default [] (serviceByPort !! p)
            ∨ svc ∈ services ∧ servesHTTPOn IsHTTPOrSniffed p svc)
  ∧ (is_Some (grouped !! p)
     ↔ is_Some (serviceByPort !! p)
       ∨ ∃ svc, svc ∈ services ∧ servesHTTPOn IsHTTPOrSniffed p svc).
Proof.
  revert serviceByPort.
  induction services as [|svc services IH]; intros serviceByPort; simpl.
  { split; [intros svc'|]; split; try (by left).
    - intros [?|[Hin _]]; [done|]. by apply elem_of_nil in Hin.
    - intros [?|(svc & Hin & _)]; [done|]. by apply elem_of_nil in Hin. }
  match goal with
  | |- context [foldl _ (foldl ?f serviceByPort (model.Service.Ports svc)) services] =>
      destruct (IH (foldl f serviceByPort (model.Service.Ports svc))) as [IHelem IHsome];
      destruct (groupByPort_ports svc (model.Service.Ports svc) serviceByPort p)
        as [Helem Hsome]
  end.
  clear IH. simpl in IHelem, IHsome, Helem, Hsome.
  fold (servesHTTPOn IsHTTPOrSniffed p svc) in Helem, Hsome.
  split.
  - intros svc'. rewrite IHelem, Helem, elem_of_cons. clear.
    split.
    + intros [[?|[-> ?]]|[? ?]]; auto.
    + intros [?|[[->|?] ?]]; auto.
  - rewrite IHsome, Hsome. clear.
    split.
    + intros [[?|?]|(svc' & ? & ?)]; [by left|right..].
      * exists svc. split; [by left|done].
      * exists svc'. split; [by right|done].
    + intros [?|(svc' & [->|?]%elem_of_cons & ?)]; [by left; left|by left; right|].
      right. by exists svc'.
Qed.

(** The services grouped under a port are the given services that have an
    HTTP port of that number, and a port has a group only if some service
    has. *)
Lemma groupByPort_lookup (services : list model.Service) (p : Z) :
  (∀ svc, svc ∈ default [] (groupByPort IsHTTPOrSniffed services !! p)
          ↔ svc ∈ services ∧ servesHTTPOn IsHTTPOrSniffed p svc)
  ∧ (is_Some (groupByPort IsHTTPOrSniffed services !! p)
     ↔ ∃ svc, svc ∈ services ∧ servesHTTPOn IsHTTPOrSniffed p svc).
Proof.
  destruct (groupByPort_fold services ∅ p) as [Helem Hsome].
  simpl in Helem, Hsome. fold (groupByPort IsHTTPOrSniffed services) in Helem, Hsome.
  split.
  - intros svc. rewrite Helem, lookup_empty. simpl. split; [|by right].
    intros [Hin|?]; [|done]. by apply elem_of_nil in Hin.
  - rewrite Hsome, lookup_empty. split; [|by right].
    intros [[? ?]|?]; done.
Qed.
(** ** Virtual hosts of one virtual service *)

Lemma BuildHTTPRoutesForVirtualService_no_error (settings : features.t) (node : model.Proxy)
    (push : option model.PushContext) (virtualService : model.Config)
    (serviceRegistry : gmap string model.Service) (listenPort : Z)
    (gatewayNames : gmap string bool) (routes : list route.Route) :
  BuildHTTPRoutesForVirtualService settings node push virtualService serviceRegistry
    listenPort gatewayNames = (routes, None) →
  routes ≠ [].
Proof.
  unfold BuildHTTPRoutesForVirtualService.
  destruct (model.Config.Spec virtualService) as [vs| |]; try done.
  case_bool_decide as Hlen; [done|]. intros [= <-]. intros Hnil. apply Hlen.
  by rewrite Hnil.
Qed.

(** The map that [buildSidecarVirtualHostsForVirtualService] ranges over:
    the groups of the services, or port 80 without service when no service
    has an HTTP port. *)
Lemma serviceByPort_lookup (services : list model.Service) :
  let grouped := groupByPort IsHTTPOrSniffed services in
  let serviceByPort : gmap Z (list model.Service) :=
    if bool_decide (size grouped = 0%nat) then <[ 80 := [] ]> grouped else grouped in
  serviceByPort ≠ ∅
  ∧ (∀ p group, serviceByPort !! p = Some group →
       (∀ svc, svc ∈ group ↔ svc ∈ services ∧ servesHTTPOn IsHTTPOrSniffed p svc)
       ∧ (group = [] → p = 80))
  ∧ (∀ svc p, svc ∈ services → servesHTTPOn IsHTTPOrSniffed p svc →
       ∃ group, serviceByPort !! p = Some group ∧ svc ∈ group).
Proof.
  intros grouped serviceByPort.
  assert (∀ p group, grouped !! p = Some group →
            ∀ svc, svc ∈ group ↔ svc ∈ services ∧ servesHTTPOn IsHTTPOrSniffed p svc)
    as Hgroup.
  { intros p group Hp svc.
    destruct (groupByPort_lookup services p) as [Helem _].
    fold grouped in Helem. rewrite <- Helem, Hp. done. }
  assert (∀ svc p, svc ∈ services → servesHTTPOn IsHTTPOrSniffed p svc →
            ∃ group, grouped !! p = Some group ∧ svc ∈ group) as Hserved.
  { intros svc p Hin Hp.
    destruct (groupByPort_lookup services p) as [Helem Hsome].
    fold grouped in Helem, Hsome.
    destruct (proj2 Hsome) as [group Hgrouped]; [by exists svc|].
    exists group. split; [done|]. apply (Hgroup p group Hgrouped). done. }
  subst serviceByPort. case_bool_decide as Hsize.
  - apply map_size_empty_iff in Hsize. rewrite Hsize in *.
    split; [apply insert_non_empty|]. split.
    + intros p group [[<- <-]|[_ Hp]]%lookup_insert_Some; [|by rewrite lookup_empty in Hp].
      split; [|done]. intros svc. split; [by intros ?%elem_of_nil|].
      intros [Hin Hp]. destruct (Hserved svc 80 Hin Hp) as (group & Hgrouped & _).
      by rewrite lookup_empty in Hgrouped.
    + intros svc p Hin Hp. destruct (Hserved svc p Hin Hp) as (group & Hgrouped & _).
      by rewrite lookup_empty in Hgrouped.
  - split; [by apply map_size_non_empty_iff|]. split; [|done].
    intros p group Hp. split; [by apply Hgroup|].
    intros ->. destruct (groupByPort_lookup services p) as [_ Hsome].
    fold grouped in Hsome. destruct (proj1 Hsome) as (svc & Hin & Hsvc); [by eexists|].
    assert (svc ∈ []) as Hnil by (by apply (Hgroup p [] Hp)).
    by apply elem_of_nil in Hnil.
Qed.

Lemma buildSidecarVirtualHostsForVirtualService_spec (settings : features.t)
    (node : model.Proxy) (push : option model.PushContext) (virtualService : model.Config)
    (serviceRegistry : gmap string model.Service) (listenPort : Z)
    (hosts : list string) (services : list model.Service)
    (routes : list route.Route) (err : option error) :
  separateVSHostsAndServices IsWildCarded Matches virtualService serviceRegistry
  = Some (hosts, services) →
  BuildHTTPRoutesForVirtualService settings node push virtualService serviceRegistry
    listenPort ({[ IstioMeshGateway := true ]} : gmap string bool) = (routes, err) →
  ∃ wrappers,
    buildSidecarVirtualHostsForVirtualService IsWildCarded Matches IsHTTPOrSniffed
      IstioMeshGateway settings node push virtualService serviceRegistry listenPort
    = Some wrappers
    ∧ (wrappers = [] ↔ err ≠ None)
    ∧ NoDup (VirtualHostWrapper.Port <$> wrappers)
    ∧ (∀ w, w ∈ wrappers →
         VirtualHostWrapper.Routes w = routes
         ∧ VirtualHostWrapper.VirtualServiceHosts w = hosts
         ∧ (∀ svc, svc ∈ VirtualHostWrapper.Services w
                   ↔ svc ∈ services
                     ∧ servesHTTPOn IsHTTPOrSniffed (VirtualHostWrapper.Port w) svc)
         ∧ (VirtualHostWrapper.Services w = [] → VirtualHostWrapper.Port w = 80))
    ∧ (err = None →
       ∀ svc p, svc ∈ services → servesHTTPOn IsHTTPOrSniffed p svc →
         ∃ w, w ∈ wrappers ∧ VirtualHostWrapper.Port w = p
              ∧ svc ∈ VirtualHostWrapper.Services w).
Proof.
  intros Hsep Hbuild. unfold buildSidecarVirtualHostsForVirtualService.
  rewrite Hsep. cbv zeta. rewrite Hbuild.
  destruct err as [e|].
  { rewrite bool_decide_eq_true_2 by done. simpl.
    exists []. split_and!; try done.
    - constructor.
    - by intros w ?%elem_of_nil. }
  rewrite bool_decide_eq_false_2 by (by intros ?).
  rewrite bool_decide_eq_false_2; simpl.
  2:{ intros Hlen%nil_length_inv.
      by apply (BuildHTTPRoutesForVirtualService_no_error _ _ _ _ _ _ _ _ Hbuild). }
  destruct (serviceByPort_lookup services) as (Hne & Hlookup & Hserved).
  cbv zeta in Hne, Hlookup, Hserved.
  set (serviceByPort := if bool_decide (size (groupByPort IsHTTPOrSniffed services) = 0%nat)
                        then _ else _) in *.
  eexists. split; [done|].
  split_and!.
  - split; [|done]. intros Hnil%fmap_nil_inv. by apply map_to_list_empty_iff in Hnil.
  - match goal with
    | |- NoDup (_ <$> (?f <$> ?l)) =>
        replace (VirtualHostWrapper.Port <$> (f <$> l)) with (l.*1);
        [apply NoDup_fst_map_to_list|]
    end.
    induction (map_to_list serviceByPort) as [|[p group] l IH]; [done|].
    rewrite !fmap_cons. simpl. by rewrite IH.
  - intros w ([p group] & -> & Hin%elem_of_map_to_list)%list_elem_of_fmap. simpl.
    destruct (Hlookup p group Hin) as [Hgroup Hempty]. done.
  - intros _ svc p Hin Hp. destruct (Hserved svc p Hin Hp) as (group & Hgroup & Hsvc).
    exists {| VirtualHostWrapper.Port := p;
              VirtualHostWrapper.Services := group;
              VirtualHostWrapper.VirtualServiceHosts := hosts;
              VirtualHostWrapper.Routes := routes |}.
    split; [|done].
    apply list_elem_of_fmap. exists (p, group). split; [done|].
    by apply elem_of_map_to_list.
Qed.
Lemma groupByPort_ports_exact (svc : model.Service) (ports : list model.Port)
    (serviceByPort : gmap Z (list model.Service)) (p : Z) :
  foldl (λ serviceByPort port,
           if IsHTTPOrSniffed port then
             <[ model.Port.Port port :=
                  default [] (serviceByPort !! model.Port.Port port) ++ [svc] ]>
               serviceByPort
           else serviceByPort)
        serviceByPort ports !! p
  = match (λ _, svc)
            <$> filter (λ port, IsHTTPOrSniffed port = true ∧ model.Port.Port port = p)
                       ports with
    | [] => serviceByPort !! p
    | group => Some (default [] (serviceByPort !! p) ++ group)
    end.
Proof.
  revert serviceByPort.
  induction ports as [|port ports IH]; intros serviceByPort; [done|].
  simpl foldl. rewrite IH, filter_cons. clear IH.
  destruct (IsHTTPOrSniffed port) eqn:Hhttp.
  - destruct (decide (model.Port.Port port = p)) as [Hp|Hp].
    + rewrite decide_True by done. rewrite fmap_cons, Hp, lookup_insert_eq.
      destruct ((λ _, svc) <$> filter _ ports) as [|svc' group]; simpl; [done|].
      by rewrite <- app_assoc.
    + rewrite decide_False by (by intros [_ ?]).
      by rewrite lookup_insert_ne by done.
  - by rewrite decide_False by (by intros [? _]).
Qed.

Lemma groupByPort_fold_exact (services : list model.Service)
    (serviceByPort : gmap Z (list model.Service)) (p : Z) :
  foldl (λ serviceByPort svc,
           foldl (λ serviceByPort port,
                    if IsHTTPOrSniffed port then
                      <[ model.Port.Port port :=
                           default [] (serviceByPort !! model.Port.Port port) ++ [svc] ]>
                        serviceByPort
                    else serviceByPort)
                 serviceByPort (model.Service.Ports svc))
        serviceByPort services !! p
  = match servicesOn IsHTTPOrSniffed p services with
    | [] => serviceByPort !! p
    | group => Some (default [] (serviceByPort !! p) ++ group)
    end.
Proof.
  revert serviceByPort.
  induction services as [|svc services IH]; intros serviceByPort; [done|].
  simpl foldl. rewrite IH, groupByPort_ports_exact. clear IH.
  unfold servicesOn. rewrite fmap_cons, concat_cons.
  fold (servicesOn IsHTTPOrSniffed p services).
  destruct ((λ _, svc) <$> filter _ (model.Service.Ports svc)) as [|svc' group]; simpl;
    [done|].
  destruct (servicesOn IsHTTPOrSniffed p services) as [|svc'' group']; simpl.
  - by rewrite app_nil_r.
  - by rewrite <- app_assoc.
Qed.

(** The group of a port holds the services with an HTTP port of that
    number, and a port without such a service has no group. *)
Lemma groupByPort_exact (services : list model.Service) (p : Z) :
  groupByPort IsHTTPOrSniffed services !! p
  = match servicesOn IsHTTPOrSniffed p services with
    | [] => None
    | group => Some group
    end.
Proof.
  unfold groupByPort. rewrite groupByPort_fold_exact, lookup_empty.
  by destruct (servicesOn IsHTTPOrSniffed p services).
Qed.

Lemma serviceByPort_exact (services : list model.Service) :
  let grouped := groupByPort IsHTTPOrSniffed services in
  let serviceByPort : gmap Z (list model.Service) :=
    if bool_decide (size grouped = 0%nat) then <[ 80 := [] ]> grouped else grouped in
  (∀ p group, serviceByPort !! p = Some group →
     group = servicesOn IsHTTPOrSniffed p services)
  ∧ (∀ p, is_Some (serviceByPort !! p)
          ↔ servicesOn IsHTTPOrSniffed p services ≠ []
            ∨ (p = 80 ∧ ∀ q, servicesOn IsHTTPOrSniffed q services = [])).
Proof.
  intros grouped serviceByPort. subst serviceByPort. case_bool_decide as Hsize.
  - apply map_size_empty_iff in Hsize.
    assert (∀ q, servicesOn IsHTTPOrSniffed q services = []) as Hnone.
    { intros q. pose proof (groupByPort_exact services q) as Hq.
      fold grouped in Hq. rewrite Hsize, lookup_empty in Hq.
      by destruct (servicesOn IsHTTPOrSniffed q services). }
    rewrite Hsize. split.
    + intros p group [[<- <-]|[_ Hp]]%lookup_insert_Some; [by rewrite Hnone|].
      by rewrite lookup_empty in Hp.
    + intros p. split.
      * intros [group [[<- <-]|[_ Hp]]%lookup_insert_Some]; [by right|].
        by rewrite lookup_empty in Hp.
      * intros [Hp|[-> _]]; [by rewrite Hnone in Hp|].
        rewrite lookup_insert_eq. by eexists.
  - split.
    + intros p group Hp. fold grouped in Hp.
      unfold grouped in Hp. rewrite groupByPort_exact in Hp.
      destruct (servicesOn IsHTTPOrSniffed p services); by simplify_eq.
    + intros p. unfold grouped. rewrite groupByPort_exact. split.
      * intros [group Hgroup]. left.
        by destruct (servicesOn IsHTTPOrSniffed p services).
      * intros [Hp|[_ Hnone]].
        -- destruct (servicesOn IsHTTPOrSniffed p services); [done|by eexists].
        -- exfalso. apply Hsize, map_size_empty_iff, map_eq. intros q.
           fold grouped. unfold grouped.
           by rewrite groupByPort_exact, Hnone, lookup_empty.
Qed.

(** Without error, the virtual hosts are those of the ports of the map,
    each with the group of its port. *)
Lemma buildSidecarVirtualHostsForVirtualService_exact (settings : features.t)
    (node : model.Proxy) (push : option model.PushContext) (virtualService : model.Config)
    (serviceRegistry : gmap string model.Service) (listenPort : Z)
    (hosts : list string) (services : list model.Service) (routes : list route.Route) :
  separateVSHostsAndServices IsWildCarded Matches virtualService serviceRegistry
  = Some (hosts, services) →
  BuildHTTPRoutesForVirtualService settings node push virtualService serviceRegistry
    listenPort ({[ IstioMeshGateway := true ]} : gmap string bool) = (routes, None) →
  ∃ ports,
    NoDup ports
    ∧ (∀ p, p ∈ ports
            ↔ servicesOn IsHTTPOrSniffed p services ≠ []
              ∨ (p = 80 ∧ ∀ q, servicesOn IsHTTPOrSniffed q services = []))
    ∧ buildSidecarVirtualHostsForVirtualService IsWildCarded Matches IsHTTPOrSniffed
        IstioMeshGateway settings node push virtualService serviceRegistry listenPort
      = Some ((λ p, {| VirtualHostWrapper.Port := p;
                       VirtualHostWrapper.Services :=
                         servicesOn IsHTTPOrSniffed p services;
                       VirtualHostWrapper.VirtualServiceHosts := hosts;
                       VirtualHostWrapper.Routes := routes |}) <$> ports).
Proof.
  intros Hsep Hbuild. unfold buildSidecarVirtualHostsForVirtualService.
  rewrite Hsep. cbv zeta. rewrite Hbuild.
  rewrite bool_decide_eq_false_2 by (by intros ?).
  rewrite bool_decide_eq_false_2; simpl.
  2:{ intros Hlen%nil_length_inv.
      by apply (BuildHTTPRoutesForVirtualService_no_error _ _ _ _ _ _ _ _ Hbuild). }
  destruct (serviceByPort_exact services) as (Hgroup & Hports).
  cbv zeta in Hgroup, Hports.
  set (serviceByPort := if bool_decide (size (groupByPort IsHTTPOrSniffed services) = 0%nat)
                        then _ else _) in *.
  exists (map_to_list serviceByPort).*1. split; [apply NoDup_fst_map_to_list|]. split.
  - intros p. rewrite <- Hports. rewrite list_elem_of_fmap. split.
    + intros ([q group] & -> & Hin%elem_of_map_to_list). by eexists.
    + intros [group Hin]. exists (p, group). split; [done|].
      by apply elem_of_map_to_list.
  - f_equal. rewrite <- list_fmap_compose.
    apply Forall_fmap_ext_1, Forall_forall.
    intros [p group] Hin%elem_of_map_to_list. simpl.
    by rewrite (Hgroup p group Hin).
Qed.

(** X14: the virtual hosts of a virtual service.  There is none exactly when
    the virtual service gives an error instead of routes.  Otherwise there
    is exactly one for each port on which one of its services has an HTTP
    port, or, when there is no such port, the single one on port 80 without
    service; each carries all the routes and the hosts of the virtual
    service and the services that have an HTTP port of its number, in the
    order of the services.  A configuration that is no virtual service
    makes the function panic. *)
Theorem buildSidecarVirtualHostsForVirtualService_wrappers (settings : features.t)
    (node : model.Proxy) (push : option model.PushContext) (virtualService : model.Config)
    (serviceRegistry : gmap string model.Service) (listenPort : Z) :
  match buildSidecarVirtualHostsForVirtualService IsWildCarded Matches IsHTTPOrSniffed
          IstioMeshGateway settings node push virtualService serviceRegistry listenPort with
  | None =>
      separateVSHostsAndServices IsWildCarded Matches virtualService serviceRegistry = None
  | Some wrappers =>
      ∃ hosts services routes err,
        separateVSHostsAndServices IsWildCarded Matches virtualService serviceRegistry
        = Some (hosts, services)
        ∧ BuildHTTPRoutesForVirtualService settings node push virtualService
            serviceRegistry listenPort ({[ IstioMeshGateway := true ]} : gmap string bool)
          = (routes, err)
        ∧ (wrappers = [] ↔ err ≠ None)
        ∧ NoDup (VirtualHostWrapper.Port <$> wrappers)
        ∧ (∀ w, w ∈ wrappers →
             VirtualHostWrapper.Routes w = routes
             ∧ VirtualHostWrapper.VirtualServiceHosts w = hosts
             ∧ (∀ svc, svc ∈ VirtualHostWrapper.Services w
                       ↔ svc ∈ services
                         ∧ servesHTTPOn IsHTTPOrSniffed (VirtualHostWrapper.Port w) svc)
             ∧ (VirtualHostWrapper.Services w = [] → VirtualHostWrapper.Port w = 80))
        ∧ (err = None →
           ∀ svc p, svc ∈ services → servesHTTPOn IsHTTPOrSniffed p svc →
             ∃ w, w ∈ wrappers ∧ VirtualHostWrapper.Port w = p
                  ∧ svc ∈ VirtualHostWrapper.Services w)
        ∧ (err = None →
           ∃ ports,
             NoDup ports
             ∧ (∀ p, p ∈ ports
                     ↔ servicesOn IsHTTPOrSniffed p services ≠ []
                       ∨ (p = 80 ∧ ∀ q, servicesOn IsHTTPOrSniffed q services = []))
             ∧ wrappers
               = (λ p, {| VirtualHostWrapper.Port := p;
                          VirtualHostWrapper.Services :=
                            servicesOn IsHTTPOrSniffed p services;
                          VirtualHostWrapper.VirtualServiceHosts := hosts;
                          VirtualHostWrapper.Routes := routes |}) <$> ports)
  end.
Proof.
  destruct (separateVSHostsAndServices IsWildCarded Matches virtualService serviceRegistry)
    as [[hosts services]|] eqn:Hsep.
  2:{ unfold buildSidecarVirtualHostsForVirtualService. by rewrite Hsep. }
  destruct (BuildHTTPRoutesForVirtualService settings node push virtualService
              serviceRegistry listenPort ({[ IstioMeshGateway := true ]} : gmap string bool))
    as [routes err] eqn:Hbuild.
  destruct (buildSidecarVirtualHostsForVirtualService_spec settings node push virtualService
              serviceRegistry listenPort hosts services routes err Hsep Hbuild)
    as (wrappers & Hsome & Hempty & Hnodup & Hwrapper & Hcover).
  rewrite Hsome.
  exists hosts, services, routes, err. split_and!; try done.
  intros ->.
  destruct (buildSidecarVirtualHostsForVirtualService_exact settings node push
              virtualService serviceRegistry listenPort hosts services routes Hsep Hbuild)
    as (ports & Hports & Hmember & Hexact).
  exists ports. split_and!; [done|done|]. congruence.
Qed.
(** ** Virtual hosts of a sidecar *)

Lemma buildSidecarVirtualHostsForVirtualService_None (settings : features.t)
    (node : model.Proxy) (push : option model.PushContext) (virtualService : model.Config)
    (serviceRegistry : gmap string model.Service) (listenPort : Z) :
  buildSidecarVirtualHostsForVirtualService IsWildCarded Matches IsHTTPOrSniffed
    IstioMeshGateway settings node push virtualService serviceRegistry listenPort = None
  ↔ ∀ rule, model.Config.Spec virtualService ≠ model.Spec_VirtualService rule.
Proof.
  unfold buildSidecarVirtualHostsForVirtualService.
  destruct (model.Config.Spec virtualService) as [rule| |] eqn:Hspec.
  - rewrite (separateVSHostsAndServices_eq _ _ _ Hspec). cbv zeta.
    destruct (BuildHTTPRoutesForVirtualService _ _ _ _ _ _ _) as [routes err].
    split; [by destruct (_ || _)|]. intros Hrule. by destruct (Hrule rule).
  - unfold separateVSHostsAndServices. by rewrite Hspec.
  - unfold separateVSHostsAndServices. by rewrite Hspec.
Qed.

(** The loop over the virtual services appends the virtual hosts of each. *)
Lemma virtualHosts_fold (settings : features.t) (node : model.Proxy)
    (push : option model.PushContext) (serviceRegistry : gmap string model.Service)
    (listenPort : Z) (virtualServices : list model.Config)
    (acc : option (list VirtualHostWrapper.t)) :
  foldl (λ out virtualService,
           out ← out;
           wrappers ← buildSidecarVirtualHostsForVirtualService IsWildCarded Matches
                        IsHTTPOrSniffed IstioMeshGateway settings node push
                        virtualService serviceRegistry listenPort;
           Some (out ++ wrappers))
        acc virtualServices
  = (out ← acc;
     wrapperLists ← mapM (λ virtualService,
                            buildSidecarVirtualHostsForVirtualService IsWildCarded Matches
                              IsHTTPOrSniffed IstioMeshGateway settings node push
                              virtualService serviceRegistry listenPort)
                         virtualServices;
     Some (out ++ concat wrapperLists)).
Proof.
  revert acc. induction virtualServices as [|virtualService virtualServices IH]; intros acc.
  { destruct acc as [out|]; simpl; [|done]. by rewrite app_nil_r. }
  simpl foldl. rewrite IH. clear IH.
  destruct acc as [out|]; simpl; [|done].
  destruct (buildSidecarVirtualHostsForVirtualService _ _ _ _ _ _ _ virtualService _ _)
    as [wrappers|]; simpl; [|done].
  destruct (mapM _ virtualServices) as [wrapperLists|]; simpl; [|done].
  by rewrite app_assoc.
Qed.

Lemma missingServices_services (services : list model.Service) (missing : gset string)
    (fqdn : string) :
  fqdn ∈ foldl (λ missing service, missing ∖ {[ model.Service.Hostname service ]})
               missing services
  ↔ fqdn ∈ missing ∧ ∀ svc, svc ∈ services → model.Service.Hostname svc ≠ fqdn.
Proof.
  revert missing. induction services as [|service services IH]; intros missing; simpl.
  { split; [|by intros [? _]]. intros ?. split; [done|]. by intros svc ?%elem_of_nil. }
  rewrite IH, elem_of_difference, elem_of_singleton. split.
  - intros [[Hin Hne] Hrest]. split; [done|].
    intros svc [->|Hsvc]%elem_of_cons; [by intros ?|by apply Hrest].
  - intros [Hin Hall]. split; [split; [done|]|].
    + intros Heq. by apply (Hall service); [left|].
    + intros svc Hsvc. apply Hall. by right.
Qed.

Lemma missingServices_elem (serviceRegistry : gmap string model.Service)
    (out : list VirtualHostWrapper.t) (fqdn : string) :
  fqdn ∈ missingServices serviceRegistry out
  ↔ is_Some (serviceRegistry !! fqdn)
    ∧ ∀ w svc, w ∈ out → svc ∈ VirtualHostWrapper.Services w →
        model.Service.Hostname svc ≠ fqdn.
Proof.
  unfold missingServices. rewrite <- elem_of_dom.
  generalize (dom serviceRegistry). intros missing. revert missing.
  induction out as [|wrapper out IH]; intros missing; simpl.
  { split; [|by intros [? _]]. intros ?. split; [done|]. by intros w svc ?%elem_of_nil. }
  rewrite IH, missingServices_services. split.
  - intros [[Hin Hhere] Hrest]. split; [done|].
    intros w svc [->|Hw]%elem_of_cons Hsvc; [by apply Hhere|by eapply Hrest].
  - intros [Hin Hall]. split; [split; [done|]|].
    + intros svc Hsvc. apply (Hall wrapper svc); [by left|done].
    + intros w svc Hw Hsvc. apply (Hall w svc); [by right|done].
Qed.
Lemma BuildSidecarVirtualHostsFromConfigAndRegistry_Some (settings : features.t)
    (node : model.Proxy) (push : option model.PushContext)
    (serviceRegistry : gmap string model.Service) (virtualServices : list model.Config)
    (listenPort : Z) (out : list VirtualHostWrapper.t) :
  BuildSidecarVirtualHostsFromConfigAndRegistry IsWildCarded Matches IsHTTPOrSniffed
    IstioMeshGateway settings node push serviceRegistry virtualServices listenPort
  = Some out →
  ∃ wrapperLists defaults,
    out = concat wrapperLists ++ defaults
    ∧ Forall2 (λ virtualService wrappers,
                 buildSidecarVirtualHostsForVirtualService IsWildCarded Matches
                   IsHTTPOrSniffed IstioMeshGateway settings node push virtualService
                   serviceRegistry listenPort = Some wrappers)
              virtualServices wrapperLists
    ∧ ∀ w, w ∈ defaults
           ↔ ∃ fqdn svc port,
               serviceRegistry !! fqdn = Some svc
               ∧ port ∈ model.Service.Ports svc ∧ IsHTTPOrSniffed port = true
               ∧ (∀ w' svc', w' ∈ concat wrapperLists →
                    svc' ∈ VirtualHostWrapper.Services w' →
                    model.Service.Hostname svc' ≠ fqdn)
               ∧ w = defaultVirtualHost node push svc port.
Proof.
  unfold BuildSidecarVirtualHostsFromConfigAndRegistry.
  rewrite virtualHosts_fold. simpl.
  destruct (mapM _ virtualServices) as [wrapperLists|] eqn:HmapM; simpl; [|done].
  intros [= <-]. eexists wrapperLists, _. split; [done|].
  split; [by apply mapM_Some_1|].
  intros w. rewrite elem_of_concat. split.
  - intros (l & (fqdn & -> & Hmissing)%list_elem_of_fmap & Hw).
    apply elem_of_elements, missingServices_elem in Hmissing as [[svc Hsvc] Hnone].
    rewrite Hsvc in Hw.
    apply list_elem_of_fmap in Hw as (port & -> & [Hhttp Hport]%list_elem_of_filter).
    by exists fqdn, svc, port.
  - intros (fqdn & svc & port & Hsvc & Hport & Hhttp & Hnone & ->).
    eexists. split.
    + apply list_elem_of_fmap. exists fqdn. split; [done|].
      apply elem_of_elements, missingServices_elem. split; [by eexists|done].
    + rewrite Hsvc. apply list_elem_of_fmap. exists port. split; [done|].
      by apply list_elem_of_filter.
Qed.

(** X15: the virtual hosts of a sidecar are those of the virtual services, in
    the order of the virtual services, followed by the default virtual
    hosts of the registry keys that are the host name of no service of a
    virtual host of a virtual service: for each such key once, one default
    virtual host for each HTTP port of its service, and no other.  The
    function panics exactly when one of the configurations is no virtual
    service. *)
Theorem BuildSidecarVirtualHostsFromConfigAndRegistry_hosts (settings : features.t)
    (node : model.Proxy) (push : option model.PushContext)
    (serviceRegistry : gmap string model.Service) (virtualServices : list model.Config)
    (listenPort : Z) :
  match BuildSidecarVirtualHostsFromConfigAndRegistry IsWildCarded Matches IsHTTPOrSniffed
          IstioMeshGateway settings node push serviceRegistry virtualServices listenPort with
  | None =>
      ∃ virtualService,
        virtualService ∈ virtualServices
        ∧ ∀ rule, model.Config.Spec virtualService ≠ model.Spec_VirtualService rule
  | Some out =>
      Forall (λ virtualService,
                ∃ rule, model.Config.Spec virtualService = model.Spec_VirtualService rule)
             virtualServices
      ∧ ∃ wrapperLists missing,
          Forall2 (λ virtualService wrappers,
                     buildSidecarVirtualHostsForVirtualService IsWildCarded Matches
                       IsHTTPOrSniffed IstioMeshGateway settings node push virtualService
                       serviceRegistry listenPort = Some wrappers)
                  virtualServices wrapperLists
          ∧ NoDup missing
          ∧ (∀ fqdn, fqdn ∈ missing
                     ↔ is_Some (serviceRegistry !! fqdn)
                       ∧ ∀ w' svc', w' ∈ concat wrapperLists →
                           svc' ∈ VirtualHostWrapper.Services w' →
                           model.Service.Hostname svc' ≠ fqdn)
          ∧ out
            = concat wrapperLists
              ++ concat (defaultVirtualHosts IsHTTPOrSniffed node push serviceRegistry
                           <$> missing)
  end.
Proof.
  unfold BuildSidecarVirtualHostsFromConfigAndRegistry.
  rewrite virtualHosts_fold. simpl.
  destruct (mapM _ virtualServices) as [wrapperLists|] eqn:HmapM; simpl.
  - apply mapM_Some_1 in HmapM. split.
    + clear -HmapM.
      induction HmapM as [|virtualService wrappers ? ? Hsome _ IH]; [constructor|].
      constructor; [|done].
      destruct (model.Config.Spec virtualService) as [rule| |] eqn:Hspec; [by eexists|..].
      * unfold buildSidecarVirtualHostsForVirtualService, separateVSHostsAndServices
          in Hsome.
        by rewrite Hspec in Hsome.
      * unfold buildSidecarVirtualHostsForVirtualService, separateVSHostsAndServices
          in Hsome.
        by rewrite Hspec in Hsome.
    + exists wrapperLists, (elements (missingServices serviceRegistry (concat wrapperLists))).
      split; [done|]. split; [apply NoDup_elements|]. split; [|done].
      intros fqdn. by rewrite elem_of_elements, missingServices_elem.
  - apply mapM_None_1, Exists_exists in HmapM as (virtualService & Hin & Hnone).
    exists virtualService. split; [done|].
    exact (proj1 (buildSidecarVirtualHostsForVirtualService_None _ _ _ _ _ _) Hnone).
Qed.

(** X16: when every service of the registry is filed under its host name, each
    HTTP port of each service of the registry has a virtual host that
    serves it: one of a virtual service that names the service, or else a
    default one. *)
Theorem BuildSidecarVirtualHostsFromConfigAndRegistry_covers (settings : features.t)
    (node : model.Proxy) (push : option model.PushContext)
    (serviceRegistry : gmap string model.Service) (virtualServices : list model.Config)
    (listenPort : Z) (out : list VirtualHostWrapper.t) :
  keyedByHostname serviceRegistry →
  BuildSidecarVirtualHostsFromConfigAndRegistry IsWildCarded Matches IsHTTPOrSniffed
    IstioMeshGateway settings node push serviceRegistry virtualServices listenPort
  = Some out →
  ∀ fqdn svc p,
    serviceRegistry !! fqdn = Some svc →
    servesHTTPOn IsHTTPOrSniffed p svc →
    ∃ w, w ∈ out ∧ VirtualHostWrapper.Port w = p ∧ svc ∈ VirtualHostWrapper.Services w.
Proof.
  intros Hkeyed Hout fqdn svc p Hsvc Hp.
  destruct (BuildSidecarVirtualHostsFromConfigAndRegistry_Some _ _ _ _ _ _ _ Hout)
    as (wrapperLists & defaults & -> & Hall & Hdefaults).
  destruct (decide (Exists (λ w', Exists (λ svc', model.Service.Hostname svc' = fqdn)
                                         (VirtualHostWrapper.Services w'))
                           (concat wrapperLists))) as [Hserved|Hmissing].
  - apply Exists_exists in Hserved as (w' & Hw' & Hserved).
    apply Exists_exists in Hserved as (svc' & Hsvc' & Hname).
    pose proof Hw' as Hconcat.
    apply elem_of_concat in Hw' as (wrappers & Hwrappers & Hw').
    apply list_elem_of_lookup in Hwrappers as [i Hi].
    destruct (Forall2_lookup_r _ _ _ _ _ Hall Hi) as (virtualService & _ & Hsome).
    destruct (separateVSHostsAndServices IsWildCarded Matches virtualService
                serviceRegistry) as [[hosts services]|] eqn:Hsep.
    2:{ unfold buildSidecarVirtualHostsForVirtualService in Hsome.
        by rewrite Hsep in Hsome. }
    destruct (BuildHTTPRoutesForVirtualService settings node push virtualService
                serviceRegistry listenPort
                ({[ IstioMeshGateway := true ]} : gmap string bool))
      as [routes err] eqn:Hbuild.
    destruct (buildSidecarVirtualHostsForVirtualService_spec settings node push
                virtualService serviceRegistry listenPort hosts services routes err
                Hsep Hbuild)
      as (wrappers' & Hsome' & Hempty & _ & Hwrapper & Hcover).
    rewrite Hsome in Hsome'. injection Hsome' as <-.
    assert (err = None) as ->.
    { destruct err as [e|]; [|done].
      rewrite (proj2 Hempty) in Hw' by done. by apply elem_of_nil in Hw'. }
    destruct (Hwrapper w' Hw') as (_ & _ & Hservices & _).
    apply Hservices in Hsvc' as [Hsvc' _].
    destruct (separateVSHostsAndServices_registry _ _ _ _ _ Hsep Hsvc') as [key Hkey].
    assert (svc' = svc) as ->.
    { pose proof (Hkeyed key svc' Hkey) as Hname'. congruence. }
    destruct (Hcover eq_refl svc p Hsvc' Hp) as (w & Hw & Hport & Hin).
    exists w. split; [|done]. apply elem_of_app. left.
    apply elem_of_concat. exists wrappers. split; [|done].
    by eapply list_elem_of_lookup_2.
  - destruct Hp as (port & Hport & Hhttp & <-).
    exists (defaultVirtualHost node push svc port). split; [|split; [done|by left]].
    apply elem_of_app. right. apply Hdefaults.
    exists fqdn, svc, port. split_and!; try done.
    intros w' svc' Hw' Hsvc' Hname. apply Hmissing.
    apply Exists_exists. exists w'. split; [done|].
    apply Exists_exists. by exists svc'.
Qed.
End SidecarFacts.

Lemma BuildSidecarVirtualHostsFromConfigAndRegistry_covers_witness :
  let rule := forwardRule [] [weightedDestination "reviews" 100] in
  keyedByHostname reviewsAndRatings
  ∧ ∃ out,
      BuildSidecarVirtualHostsFromConfigAndRegistry startsWithStar String.eqb (λ _, true)
        "mesh" noDefaultTimeout (proxyLabelled ∅) None reviewsAndRatings
        [virtualServiceOf [rule]] 80 = Some out
      ∧ ∃ w, w ∈ out ∧ VirtualHostWrapper.Port w = 80
             ∧ httpService "reviews" 80 ∈ VirtualHostWrapper.Services w.
Proof.
  intros rule.
  assert (keyedByHostname reviewsAndRatings) as H1.
  { intros fqdn svc. unfold reviewsAndRatings.
    intros [[<- <-]|[_ [<- <-]%lookup_singleton_Some]]%lookup_insert_Some; reflexivity. }
  split; [exact H1|].
  destruct (BuildSidecarVirtualHostsFromConfigAndRegistry startsWithStar String.eqb
              (λ _, true) "mesh" noDefaultTimeout (proxyLabelled ∅) None reviewsAndRatings
              [virtualServiceOf [rule]] 80) as [out|] eqn:H2; [|by vm_compute in H2].
  exists out. split; [reflexivity|].
  assert (reviewsAndRatings !! "reviews" = Some (httpService "reviews" 80)) as H3
    by reflexivity.
  assert (servesHTTPOn (λ _, true) 80 (httpService "reviews" 80)) as H4.
  { eexists. split; [by left|]. split; reflexivity. }
  exact (BuildSidecarVirtualHostsFromConfigAndRegistry_covers startsWithStar String.eqb
           (λ _, true) "mesh" noDefaultTimeout (proxyLabelled ∅) None reviewsAndRatings
           [virtualServiceOf [rule]] 80 out H1 H2 "reviews" (httpService "reviews" 80) 80
           H3 H4).
Defined.

(** ** Default virtual hosts *)

Lemma CombineVHostRoutes_catch_all_behind (routes : list route.Route) (r : route.Route) :
  isCatchAllRoute r = true →
  CombineVHostRoutes [routes; [r]]
  = filter (λ r', isCatchAllRoute r' = false) routes
    ++ filter (λ r', isCatchAllRoute r' = true) routes ++ [r].
Proof.
  intros Hr. rewrite CombineVHostRoutes_filter.
  replace (concat [routes; [r]]) with (routes ++ [r]) by reflexivity.
  rewrite !filter_app, !filter_cons, !filter_nil.
  rewrite decide_False by (by rewrite Hr).
  rewrite decide_True by done.
  by rewrite app_nil_r.
Qed.

(** X17: the virtual host of a service without virtual service has one route,
    named [default]: a catch-all route to the outbound cluster of the
    service port, without timeout, with the default retry policy and with
    the hash policy of the service port, if any.  The combiner puts it
    behind every other route. *)
Theorem defaultVirtualHost_route (node : model.Proxy) (push : option model.PushContext)
    (svc : model.Service) (port : model.Port) :
  ∃ r action,
    VirtualHostWrapper.Routes (defaultVirtualHost node push svc port) = [r]
    ∧ route.Route.Name r = DefaultRouteName
    ∧ route.Route.Decorator r
      = Some {| route.Decorator.Operation :=
                  traceOperation (model.Service.Hostname svc) (model.Port.Port port) |}
    ∧ isCatchAllRoute r = true
    ∧ route.GetRoute r = Some action
    ∧ route.RouteAction.ClusterSpecifier action
      = Some (route.RouteAction_Cluster
                (model.BuildSubsetKey model.TrafficDirectionOutbound ""
                   (model.Service.Hostname svc) (model.Port.Port port)))
    ∧ route.RouteAction.Timeout action = Some notimeout
    ∧ route.RouteAction.MaxGrpcTimeout action = Some notimeout
    ∧ route.RouteAction.RetryPolicy action = Some retry.DefaultPolicy
    ∧ route.RouteAction.HashPolicy action
      = option_list (getHashPolicyByService node push svc port)
    ∧ ∀ routes,
        CombineVHostRoutes [routes; [r]]
        = filter (λ r', isCatchAllRoute r' = false) routes
          ++ filter (λ r', isCatchAllRoute r' = true) routes ++ [r].
Proof.
  unfold defaultVirtualHost.
  destruct (getHashPolicyByService node push svc port) as [hashPolicy|];
    (eexists _, _; split; [reflexivity|]; split_and!; try reflexivity);
    intros routes; by apply CombineVHostRoutes_catch_all_behind.
Qed.

(** ** Hash policy of a service port *)

(** X18: for a service without virtual service, the first port-level setting of
    the destination rule for the port decides alone: when it has no
    consistent hash there is no hash policy, whatever the load balancer of
    the host says. *)
Theorem getHashPolicyByService_port_setting (node : model.Proxy) (push : model.PushContext)
    (svc : model.Service) (port : model.Port) (rule : networking.DestinationRule)
    (setting : networking.TrafficPolicy_PortTrafficPolicy) :
  model.PushContext.DestinationRule push node svc = Some rule →
  List.find (λ setting,
               bool_decide (networking.GetNumber
                              (networking.TrafficPolicy_PortTrafficPolicy.Port setting)
                            = model.Port.Port port))
            (from_option networking.TrafficPolicy.PortLevelSettings []
               (networking.DestinationRule.TrafficPolicy rule))
  = Some setting →
  getHashPolicyByService node (Some push) svc port
  = consistentHashToHashPolicy
      (networking.GetConsistentHash
         (networking.TrafficPolicy_PortTrafficPolicy.LoadBalancer setting))
  ∧ (networking.GetConsistentHash
       (networking.TrafficPolicy_PortTrafficPolicy.LoadBalancer setting) = None →
     getHashPolicyByService node (Some push) svc port = None).
Proof.
  intros Hrule Hsetting. unfold getHashPolicyByService.
  rewrite Hrule. cbv zeta. rewrite Hsetting.
  split; [done|]. by intros ->.
Qed.

Lemma getHashPolicyByService_port_setting_witness :
  let svc := httpService "ratings" 9080 in
  let port := {| model.Port.Name := "http"; model.Port.Port := 9080 |} in
  is_Some (networking.GetConsistentHash
             (networking.DestinationRule.TrafficPolicy ratingsDestinationRule
                ≫= networking.TrafficPolicy.LoadBalancer))
  ∧ getHashPolicyByService (proxyLabelled ∅) (Some ratingsPushContext) svc port = None.
Proof.
  intros svc port. split; [by eexists|].
  exact (proj2 (getHashPolicyByService_port_setting (proxyLabelled ∅) ratingsPushContext
                  svc port ratingsDestinationRule _ eq_refl eq_refl) eq_refl).
Defined.

(** X19: a destination that names no port never gets a port-level hash
    policy: its hash policy is that of the subset it names, if the
    destination rule has that subset with a consistent hash, and else that
    of the host, whatever the port-level settings of the rule and of its
    subsets say. *)
Theorem getHashPolicy_without_port (push : model.PushContext) (node : model.Proxy)
    (dst : networking.HTTPRouteDestination) (configNamespace : string)
    (rule : networking.DestinationRule) :
  let destination := networking.HTTPRouteDestination.Destination dst in
  networking.Destination.Port destination = None →
  model.PushContext.DestinationRule push node
    {| model.Service.Hostname := networking.Destination.Host destination;
       model.Service.Ports := [];
       model.Service.Attributes :=
         {| model.ServiceAttributes.Namespace := configNamespace |} |}
  = Some rule →
  getHashPolicy (Some push) node dst configNamespace
  = consistentHashToHashPolicy
      (match subsetConsistentHash rule (networking.Destination.Subset destination) with
       | Some hash => Some hash
       | None => hostConsistentHash rule
       end).
Proof.
  intros destination Hport Hrule. unfold getHashPolicy. fold destination.
  rewrite Hrule. cbv zeta.
  unfold portLevelSettingsConsistentHash, subsetConsistentHash, hostConsistentHash.
  rewrite Hport.
  destruct (List.find _ (networking.DestinationRule.Subsets rule)) as [subset|]; simpl;
    [|done].
  by destruct (networking.GetConsistentHash _).
Qed.

Lemma getHashPolicy_without_port_witness :
  let dst := weightedDestination "ratings" 100 in
  networking.Destination.Port (networking.HTTPRouteDestination.Destination dst) = None
  ∧ getHashPolicy (Some ratingsPushContext) (proxyLabelled ∅) dst "default"
    = Some (route.RouteAction_HashPolicy_Header_ "x-user").
Proof.
  intros dst.
  assert (networking.Destination.Port (networking.HTTPRouteDestination.Destination dst)
          = None) as H1 by reflexivity.
  split; [exact H1|].
  exact (getHashPolicy_without_port ratingsPushContext (proxyLabelled ∅) dst "default"
           ratingsDestinationRule H1 eq_refl).
Defined.

(** ** Header operations as lookups *)

Lemma translateAppendHeaders_elem (headers : gmap string string) (appendFlag : bool)
    (e : option core.HeaderValueOption) :
  e ∈ translateAppendHeaders headers appendFlag
  ↔ ∃ k v, headers !! k = Some v ∧ e = headerValueOption appendFlag (k, v).
Proof.
  unfold translateAppendHeaders.
  rewrite translateAppendHeaders_visiting_Permutation, list_elem_of_fmap. split.
  - intros ([k v] & -> & Hin%elem_of_map_to_list). by exists k, v.
  - intros (k & v & Hin & ->). exists (k, v). split; [done|].
    by apply elem_of_map_to_list.
Qed.

(** X20: the headers to add of a translated header block are exactly the
    entries of its maps: one entry without append flag for each header to
    set, one with append flag for each header to add, and as many entries
    as the two maps have together.  The headers to remove are the list of
    the block as it stands. *)
Theorem translateHeadersOperations_entries (headers : option networking.Headers) :
  let operations := translateHeadersOperations headers in
  let req := networking.GetRequest headers in
  let resp := networking.GetResponse headers in
  (∀ e, e ∈ requestHeadersToAdd operations
        ↔ (∃ k v, networking.GetSet req !! k = Some v
                  ∧ e = headerValueOption false (k, v))
          ∨ (∃ k v, networking.GetAdd req !! k = Some v
                    ∧ e = headerValueOption true (k, v)))
  ∧ (∀ e, e ∈ responseHeadersToAdd operations
          ↔ (∃ k v, networking.GetSet resp !! k = Some v
                    ∧ e = headerValueOption false (k, v))
            ∨ (∃ k v, networking.GetAdd resp !! k = Some v
                      ∧ e = headerValueOption true (k, v)))
  ∧ length (requestHeadersToAdd operations)
    = (size (networking.GetSet req) + size (networking.GetAdd req))%nat
  ∧ length (responseHeadersToAdd operations)
    = (size (networking.GetSet resp) + size (networking.GetAdd resp))%nat
  ∧ requestHeadersToRemove operations = networking.GetRemove req
  ∧ responseHeadersToRemove operations = networking.GetRemove resp.
Proof.
  intros operations req resp. subst operations. unfold translateHeadersOperations.
  cbn [requestHeadersToAdd responseHeadersToAdd requestHeadersToRemove
       responseHeadersToRemove].
  fold req resp.
  assert (∀ (m : gmap string string) b, length (translateAppendHeaders m b) = size m)
    as Hlen.
  { intros m b. unfold translateAppendHeaders.
    by rewrite translateAppendHeaders_visiting_Permutation, length_fmap,
         length_map_to_list. }
  split_and!.
  - intros e. by rewrite elem_of_app, !translateAppendHeaders_elem.
  - intros e. by rewrite elem_of_app, !translateAppendHeaders_elem.
  - by rewrite length_app, !Hlen.
  - by rewrite length_app, !Hlen.
  - done.
  - done.
Qed.
